(** * udev-watch: persistent inotify watches on device nodes

    Shallow embedding of [src/udev/udev-watch.c] and proofs about it.

    The C file keeps one process-wide inotify descriptor and a directory
    of symbolic links, [/run/udev/watch/<wd>] pointing to a device
    identifier.  All five functions of the file are embedded below as
    computations in a state monad over a [World]: the process globals
    ([inotify_fd], [errno]), the kernel's descriptor table and inotify
    instances, the part of the file system the code touches, the device
    database behind [sd_device_new_from_device_id], and two write-only
    records (the system calls issued and the messages handed to the log
    functions).

    The operating system is an idealised one: a call fails exactly for
    the structural reasons written out in its definition (absent entry,
    wrong kind of node, non-empty directory, exhausted descriptor table);
    permission and I/O errors are not modelled. *)

From Stdlib Require Import Ascii String.
From stdpp Require Import gmap strings list fin_maps pretty.

Open Scope Z_scope.

Set Warnings "-clear-no-such-hyp".

(** ** Constants of the C environment *)

Module Errno.
Definition ENOENT : Z := 2.
Definition EIO : Z := 5.
Definition EBADF : Z := 9.
Definition EEXIST : Z := 17.
Definition ENODEV : Z := 19.
Definition ENOTDIR : Z := 20.
Definition EISDIR : Z := 21.
Definition EINVAL : Z := 22.
Definition EMFILE : Z := 24.
Definition ENAMETOOLONG : Z := 36.
Definition ENOTEMPTY : Z := 39.
End Errno.
Import Errno.

(** [<limits.h>] and [<sys/inotify.h>] on Linux. *)
Definition PATH_MAX : Z := 4096.
Definition IN_CLOSE_WRITE : Z := 8.
Definition IN_NONBLOCK : Z := 2048.     (* O_NONBLOCK, 04000 *)
Definition IN_CLOEXEC : Z := 524288.    (* O_CLOEXEC, 02000000 *)

Definition LOG_ERR : Z := 3.
Definition LOG_DEBUG : Z := 7.

(** The two directories of the registry. *)
Definition watch_dir : string := "/run/udev/watch".
Definition watch_old : string := "/run/udev/watch.old".

(** ** Data *)

(** Modelled from the spec: [sd_device] and its accessors live in
    libsystemd and device-private.h, which are not among the sources at
    hand.  A device exposes a node path and an identifier (each may be
    unavailable) and owns the mutable watch-handle field; a negative
    handle means that no handle is set.  [db_failure] stands for a device
    whose database cannot be read, the one way [device_get_watch_handle]
    fails other than by "not set" (the caller tests for both). *)
Record sd_device := SdDevice {
  devname : option string;
  id_filename : option string;
  watch_handle : Z;
  db_failure : bool
}.

Definition sd_device_get_devname (dev : sd_device) : Z + string :=
  match devname dev with
  | Some node => inr node
  | None => inl (- ENOENT)
  end.

Definition device_get_id_filename (dev : sd_device) : Z + string :=
  match id_filename dev with
  | Some id => inr id
  | None => inl (- ENOENT)
  end.

Definition device_get_watch_handle (dev : sd_device) : Z + Z :=
  if db_failure dev then inl (- EIO)
  else if watch_handle dev <? 0 then inl (- ENOENT)
  else inr (watch_handle dev).

Definition device_set_watch_handle (dev : sd_device) (handle : Z) : sd_device :=
  {| devname := devname dev; id_filename := id_filename dev;
     watch_handle := handle; db_failure := db_failure dev |}.

(** What a directory entry can be.  The code only ever creates symbolic
    links; the other kinds are what it may find. *)
Inductive inode :=
| Symlink (target : string)
| Regular
| Subdir.

(** A node at one of the paths the code names directly. *)
Inductive node :=
| Dir (entries : gmap string inode)
| NotDir.

(** One inotify instance: its close-on-exec flag, its watches and the
    descriptor at which the search for an unused one starts.  The
    kernel keeps one watch for each inode, whatever the path it was
    reached by, so a watch is a descriptor mapped to (inode number,
    mask); it hands out descriptors in increasing order and does not
    come back to one that was removed. *)
Record inotify := Inotify {
  cloexec : bool;
  watches : gmap positive (positive * Z);
  next_wd : positive
}.

Inductive syscall :=
| SysInotifyInit1 (flags : Z)
| SysInotifyAddWatch (fd : Z) (path : string) (mask : Z)
| SysInotifyRmWatch (fd wd : Z)
| SysRename (oldpath newpath : string)
| SysOpendir (path : string)
| SysClosedir (path : string)
| SysRmdir (path : string)
| SysReadlinkat (dir name : string) (bufsiz : Z)
| SysUnlinkat (dir name : string)
| SysSymlink (target dir name : string)
| SysMkdirParents (dir : string) (mode : Z).

Record log_entry := LogEntry {
  log_level : Z;
  log_error_code : Z;
  log_format : string;
  log_args : list string
}.

Record World := mkWorld {
  inotify_fd : Z;                      (* static int inotify_fd *)
  errno : Z;
  fdtable : gmap N inotify;            (* open inotify descriptors *)
  fd_limit : N;                        (* RLIMIT_NOFILE *)
  devnodes : gmap string positive;     (* path -> inode of the device node *)
  fs : gmap string node;               (* the registry directories *)
  sysdb : gmap string sd_device;       (* device identifier -> device *)
  debug_logging : bool;                (* DEBUG_LOGGING *)
  calls : list syscall;
  journal : list log_entry
}.

Definition set_inotify_fd (v : Z) (w : World) : World :=
  mkWorld v (errno w) (fdtable w) (fd_limit w) (devnodes w) (fs w)
          (sysdb w) (debug_logging w) (calls w) (journal w).
Definition set_errno (v : Z) (w : World) : World :=
  mkWorld (inotify_fd w) v (fdtable w) (fd_limit w) (devnodes w) (fs w)
          (sysdb w) (debug_logging w) (calls w) (journal w).
Definition set_fdtable (v : gmap N inotify) (w : World) : World :=
  mkWorld (inotify_fd w) (errno w) v (fd_limit w) (devnodes w) (fs w)
          (sysdb w) (debug_logging w) (calls w) (journal w).
Definition set_fs (v : gmap string node) (w : World) : World :=
  mkWorld (inotify_fd w) (errno w) (fdtable w) (fd_limit w) (devnodes w) v
          (sysdb w) (debug_logging w) (calls w) (journal w).
Definition record_call (c : syscall) (w : World) : World :=
  mkWorld (inotify_fd w) (errno w) (fdtable w) (fd_limit w) (devnodes w) (fs w)
          (sysdb w) (debug_logging w) (calls w ++ [c]) (journal w).
Definition record_log (e : log_entry) (w : World) : World :=
  mkWorld (inotify_fd w) (errno w) (fdtable w) (fd_limit w) (devnodes w) (fs w)
          (sysdb w) (debug_logging w) (calls w) (journal w ++ [e]).

(** ** The state monad *)

Definition M (A : Type) : Type := World → A * World.

Global Instance M_ret : MRet M := λ A x w, (x, w).
Global Instance M_bind : MBind M :=
  λ A B f c w, let '(x, w') := c w in f x w'.

Definition gets {A} (f : World → A) : M A := λ w, (f w, w).
Definition modify (f : World → World) : M unit := λ w, (tt, f w).

(** ** Logging

    Modelled from the spec: the log functions and [DEBUG_LOGGING]
    (log.h) are not among the sources at hand.  The log is a sink that
    does not affect behaviour: [log_error_errno] hands the message to it
    and evaluates to the negated absolute value of the error, which is
    what the callers return; [log_debug] is dropped unless debug logging
    is on.  Neither touches [errno]. *)

Definition log_error_errno (error : Z) (format : string) (args : list string)
  : M Z := λ w,
  (- Z.abs error, record_log (LogEntry LOG_ERR error format args) w).

Definition log_error (format : string) (args : list string) : M unit :=
  modify (record_log (LogEntry LOG_ERR 0 format args)).

Definition log_debug (format : string) (args : list string) : M unit := λ w,
  (tt, if debug_logging w
       then record_log (LogEntry LOG_DEBUG 0 format args) w else w).

Definition strnull (s : option string) : string := default "(null)" s.

(** ** The operating system *)

(** A failing call returns -1 and stores the reason in [errno]; a
    successful call leaves [errno] alone. *)
Definition sys_fail (e : Z) : M Z := λ w, (-1, set_errno e w).

Definition inotify_init1 (flags : Z) : M Z := λ w,
  let w := record_call (SysInotifyInit1 flags) w in
  if negb (Z.land flags (Z.lnot (Z.lor IN_CLOEXEC IN_NONBLOCK)) =? 0)
  then sys_fail EINVAL w
  else
    let fd := fresh (dom (fdtable w)) in
    if (fd_limit w <=? fd)%N then sys_fail EMFILE w
    else
      let i := {| cloexec := negb (Z.land flags IN_CLOEXEC =? 0);
                  watches := ∅; next_wd := 1 |} in
      (Z.of_N fd, set_fdtable (<[fd := i]> (fdtable w)) w).

Definition lookup_fd (fd : Z) (w : World) : option inotify :=
  if fd <? 0 then None else fdtable w !! Z.to_N fd.

(** The descriptor of the watch an instance has on the inode [ino], if
    it has one. *)
Definition watch_of_inode (ino : positive) (ws : gmap positive (positive * Z))
  : option positive :=
  fst <$> (snd <$> list_find (λ kv, kv.2.1 = ino) (map_to_list ws)).

(** The first descriptor from [wd] on that is not in use; among
    [fuel + 1] descriptors in a row one is unused when no more than
    [fuel] are in use. *)
Fixpoint next_free (fuel : nat) (wd : positive)
    (ws : gmap positive (positive * Z)) : positive :=
  match fuel with
  | O => wd
  | S fuel =>
      match ws !! wd with
      | None => wd
      | Some _ => next_free fuel (Pos.succ wd) ws
      end
  end.

(** The descriptor the instance hands out for a new watch. *)
Definition unused_wd (i : inotify) : positive :=
  next_free (size (watches i)) (next_wd i) (watches i).

(** [inotify_add_watch] resolves the path to its inode.  A watch the
    instance already has on that inode gets the new mask and keeps its
    descriptor; otherwise the watch is new and gets the next unused
    descriptor. *)
Definition inotify_add_watch (fd : Z) (path : string) (mask : Z) : M Z := λ w,
  let w := record_call (SysInotifyAddWatch fd path mask) w in
  match lookup_fd fd w with
  | None => sys_fail EBADF w
  | Some i =>
      match devnodes w !! path with
      | None => sys_fail ENOENT w
      | Some ino =>
          match watch_of_inode ino (watches i) with
          | Some wd =>
              let i' := {| cloexec := cloexec i;
                           watches := <[wd := (ino, mask)]> (watches i);
                           next_wd := next_wd i |} in
              (Z.pos wd, set_fdtable (<[Z.to_N fd := i']> (fdtable w)) w)
          | None =>
              let wd := unused_wd i in
              let i' := {| cloexec := cloexec i;
                           watches := <[wd := (ino, mask)]> (watches i);
                           next_wd := Pos.succ wd |} in
              (Z.pos wd, set_fdtable (<[Z.to_N fd := i']> (fdtable w)) w)
          end
      end
  end.

Definition inotify_rm_watch (fd wd : Z) : M Z := λ w,
  let w := record_call (SysInotifyRmWatch fd wd) w in
  match lookup_fd fd w with
  | None => sys_fail EBADF w
  | Some i =>
      if (0 <? wd) && bool_decide (is_Some (watches i !! Z.to_pos wd)) then
        let i' := {| cloexec := cloexec i;
                     watches := delete (Z.to_pos wd) (watches i);
                     next_wd := next_wd i |} in
        (0, set_fdtable (<[Z.to_N fd := i']> (fdtable w)) w)
      else sys_fail EINVAL w
  end.

(** *** Directories

    A path that names an entry is kept split at its last slash, as the
    directory and the name inside it. *)

Definition lookup_entry (dir name : string) (w : World)
  : Z + (gmap string inode * option inode) :=
  match fs w !! dir with
  | None => inl ENOENT
  | Some NotDir => inl ENOTDIR
  | Some (Dir es) => inr (es, es !! name)
  end.

Definition rename (oldpath newpath : string) : M Z := λ w,
  let w := record_call (SysRename oldpath newpath) w in
  let moved n := (0, set_fs (<[newpath := n]> (delete oldpath (fs w))) w) in
  match fs w !! oldpath with
  | None => sys_fail ENOENT w
  | Some n =>
      if decide (oldpath = newpath) then (0, w)
      else
        match n, fs w !! newpath with
        | _, None => moved n
        | Dir _, Some (Dir es') =>
            if decide (es' = ∅) then moved n else sys_fail ENOTEMPTY w
        | Dir _, Some NotDir => sys_fail ENOTDIR w
        | NotDir, Some (Dir _) => sys_fail EISDIR w
        | NotDir, Some NotDir => moved n
        end
  end.

(** A directory stream is the list of names found when the directory
    was opened, the two pseudo-entries first. *)
Definition dirents (es : gmap string inode) : list string :=
  "." :: ".." :: (map_to_list es).*1.

Definition opendir (path : string) : M (option (list string)) := λ w,
  let w := record_call (SysOpendir path) w in
  match fs w !! path with
  | None => (None, set_errno ENOENT w)
  | Some NotDir => (None, set_errno ENOTDIR w)
  | Some (Dir es) => (Some (dirents es), w)
  end.

Definition closedir (path : string) : M Z := λ w,
  (0, record_call (SysClosedir path) w).

Definition rmdir (path : string) : M Z := λ w,
  let w := record_call (SysRmdir path) w in
  match fs w !! path with
  | None => sys_fail ENOENT w
  | Some NotDir => sys_fail ENOTDIR w
  | Some (Dir es) =>
      if decide (es = ∅) then (0, set_fs (delete path (fs w)) w)
      else sys_fail ENOTEMPTY w
  end.

(** [readlinkat] copies at most [bufsiz] bytes of the target and returns
    how many it copied; it does not terminate the buffer. *)
Definition readlinkat (dir name : string) (bufsiz : Z) : M (Z * string) := λ w,
  let w := record_call (SysReadlinkat dir name bufsiz) w in
  match lookup_entry dir name w with
  | inl e => (-1, "", set_errno e w)
  | inr (_, None) => (-1, "", set_errno ENOENT w)
  | inr (_, Some (Symlink target)) =>
      let len := Z.min (Z.of_nat (String.length target)) bufsiz in
      (len, String.substring 0 (Z.to_nat len) target, w)
  | inr (_, Some _) => (-1, "", set_errno EINVAL w)
  end.

(** [unlinkat] without [AT_REMOVEDIR]. *)
Definition unlinkat (dir name : string) : M Z := λ w,
  let w := record_call (SysUnlinkat dir name) w in
  match lookup_entry dir name w with
  | inl e => sys_fail e w
  | inr (_, None) => sys_fail ENOENT w
  | inr (_, Some Subdir) => sys_fail EISDIR w
  | inr (es, Some _) => (0, set_fs (<[dir := Dir (delete name es)]> (fs w)) w)
  end.

Definition symlink (target dir name : string) : M Z := λ w,
  let w := record_call (SysSymlink target dir name) w in
  if decide (target = "") then sys_fail ENOENT w
  else if PATH_MAX <=? Z.of_nat (String.length target)
  then sys_fail ENAMETOOLONG w
  else
    match lookup_entry dir name w with
    | inl e => sys_fail e w
    | inr (_, Some _) => sys_fail EEXIST w
    | inr (es, None) =>
        (0, set_fs (<[dir := Dir (<[name := Symlink target]> es)]> (fs w)) w)
    end.

(** [readlink] and [unlink] are [readlinkat] and [unlinkat] on a path
    that is kept split. *)
Abbreviation readlink := readlinkat (only parsing).
Abbreviation unlink := unlinkat (only parsing).

(** Modelled from the spec: [mkdir_parents] (mkdir.h) is not among the
    sources at hand.  It makes sure that the directory which is to hold
    the named entry exists, creating it when absent, and returns zero or
    a negative error; it does not report through [errno]. *)
Definition mkdir_parents (dir : string) (mode : Z) : M Z := λ w,
  let w := record_call (SysMkdirParents dir mode) w in
  match fs w !! dir with
  | None => (0, set_fs (<[dir := Dir ∅]> (fs w)) w)
  | Some (Dir _) => (0, w)
  | Some NotDir => (- ENOTDIR, w)
  end.

(** Modelled from the spec: [sd_device_new_from_device_id] (libsystemd)
    is not among the sources at hand.  It resolves a device identifier
    to a device, or fails. *)
Definition sd_device_new_from_device_id (id : string) : M (Z + sd_device) :=
  λ w, (match sysdb w !! id with
        | Some dev => inr dev
        | None => inl (- ENODEV)
        end, w).

(** ** udev-watch.c *)

(** [xsprintf(filename, "/run/udev/watch/%d", wd)]: the name of the
    entry is the decimal form of the descriptor. *)
Definition watch_name (wd : Z) : string := pretty wd.

Definition udev_watch_init : M Z :=
  fd ← inotify_init1 IN_CLOEXEC;
  modify (set_inotify_fd fd);;
  if fd <? 0 then
    e ← gets errno;
    log_error_errno e "Failed to create inotify descriptor: %m" []
  else mret fd.

Definition udev_watch_begin (dev : sd_device) : M (Z * sd_device) :=
  fd ← gets inotify_fd;
  if fd <? 0 then
    r ← log_error_errno EINVAL "Invalid inotify descriptor." [];
    mret (r, dev)
  else
  match sd_device_get_devname dev with
  | inl r =>
      r ← log_error_errno r "Failed to get device name: %m" [];
      mret (r, dev)
  | inr devnode =>
  log_debug "Adding watch on '%s'" [devnode];;
  wd ← inotify_add_watch fd devnode IN_CLOSE_WRITE;
  if wd <? 0 then
    e ← gets errno;
    r ← log_error_errno e "Failed to add device '%s' to watch: %m" [devnode];
    mret (r, dev)
  else
  let dev := device_set_watch_handle dev wd in
  let filename := watch_name wd in
  r ← mkdir_parents watch_dir 493;
  if r <? 0 then
    r ← log_error_errno r "Failed to create parent directory of '%s': %m"
          [watch_dir +:+ "/" +:+ filename];
    mret (r, dev)
  else
  unlink watch_dir filename;;
  match device_get_id_filename dev with
  | inl r =>
      r ← log_error_errno r "Failed to get device id-filename: %m" [];
      mret (r, dev)
  | inr id =>
  r ← symlink id watch_dir filename;
  if r <? 0 then
    e ← gets errno;
    r ← log_error_errno e "Failed to create symlink %s: %m"
          [watch_dir +:+ "/" +:+ filename];
    mret (r, dev)
  else mret (0, dev)
  end
  end.

Definition udev_watch_end (dev : sd_device) : M (Z * sd_device) :=
  fd ← gets inotify_fd;
  if fd <? 0 then
    r ← log_error_errno EINVAL "Invalid inotify descriptor." [];
    mret (r, dev)
  else
  match device_get_watch_handle dev with
  | inl r =>
      if r =? - ENOENT then mret (0, dev)
      else
        (* the message formats [devnode] before it is assigned *)
        r ← log_error_errno r
              "Failed to get watch handle for device '%s', ignoring: %m" [];
        mret (r, dev)
  | inr wd =>
  match sd_device_get_devname dev with
  | inl r =>
      r ← log_error_errno r "Failed to get device name: %m" [];
      mret (r, dev)
  | inr devnode =>
  log_debug "Removing watch on '%s'" [devnode];;
  inotify_rm_watch fd wd;;
  unlink watch_dir (watch_name wd);;
  mret (0, device_set_watch_handle dev (-1))
  end
  end.

Definition udev_watch_lookup (wd : Z) : M (Z * option sd_device) :=
  fd ← gets inotify_fd;
  if fd <? 0 then
    r ← log_error_errno EINVAL "Invalid inotify descriptor." [];
    mret (r, None)
  else if wd <? 0 then
    r ← log_error_errno EINVAL "Invalid watch handle." [];
    mret (r, None)
  else
  let filename := watch_name wd in
  '(len, device) ← readlink watch_dir filename PATH_MAX;
  if len <=? 0 then
    e ← gets errno;
    if negb (e =? ENOENT) then
      r ← log_error_errno e "Failed to read link '%s': %m"
            [watch_dir +:+ "/" +:+ filename];
      mret (r, None)
    else mret (0, None)
  else if PATH_MAX <=? len then
    r ← log_error_errno ENAMETOOLONG
          "Path specified by link '%s' is truncated."
          [watch_dir +:+ "/" +:+ filename];
    mret (r, None)
  else
  d ← sd_device_new_from_device_id device;
  match d with
  | inl r =>
      r ← log_error_errno r "Failed to create sd_device object for '%s': %m"
            [device];
      mret (r, None)
  | inr dev => mret (0, Some dev)
  end.

(** [ent->d_name[0] == '.'] *)
Definition dot_name (name : string) : bool :=
  match name with
  | String "."%char _ => true
  | _ => false
  end.

(** The body of the loop of [udev_watch_restore], for one entry of the
    stream opened on [watch_old]: first the part that ends at the label
    [unlink], by falling through or by [goto]. *)
Definition restore_entry_rearm (name : string) : M unit :=
  '(len, device) ← readlinkat watch_old name PATH_MAX;
  if len <=? 0 then
    e ← gets errno;
    log_error_errno e
      "Failed to read link '/run/udev/watch.old/%s', ignoring: %m" [name];;
    mret tt
  else if PATH_MAX <=? len then
    log_error
      "Path specified by link '/run/udev/watch.old/%s' is truncated, ignoring."
      [name]
  else
    d ← sd_device_new_from_device_id device;
    match d with
    | inl r =>
        log_error_errno r
          "Failed to create sd_device object for '%s', ignoring: %m"
          [device];;
        mret tt
    | inr dev =>
        dbg ← gets debug_logging;
        (if (dbg : bool)
         then log_debug "Restoring old watch on '%s'" [strnull (devname dev)]
         else (mret tt : M unit));;
        udev_watch_begin dev;;
        mret tt
    end.

Definition restore_entry (name : string) : M unit :=
  if dot_name name then mret tt
  else
    restore_entry_rearm name;;
    unlinkat watch_old name;;
    mret tt.

(** Modelled from the spec: [FOREACH_DIRENT_ALL] (dirent-util.h) is not
    among the sources at hand.  It runs the body for every entry of the
    stream, the two pseudo-entries included; [errno] is cleared before
    each [readdir], and the stream of this model never fails, so the
    loop ends with the [readdir] that finds the stream exhausted. *)
Fixpoint foreach_dirent_all (body : string → M unit) (stream : list string)
  : M unit :=
  match stream with
  | [] => modify (set_errno 0)
  | ent :: rest =>
      modify (set_errno 0);;
      body ent;;
      foreach_dirent_all body rest
  end.

Definition udev_watch_restore : M Z :=
  fd ← gets inotify_fd;
  if fd <? 0 then log_error_errno EINVAL "Invalid inotify descriptor." []
  else
  r ← rename watch_dir watch_old;
  if r <? 0 then
    e ← gets errno;
    if negb (e =? ENOENT) then
      log_error_errno e
        "Failed to move watches directory /run/udev/watch. Old watches will not be restored: %m"
        []
    else mret 0
  else
  dir ← opendir watch_old;
  match dir with
  | None =>
      e ← gets errno;
      log_error_errno e
        "Failed to open old watches directory /run/udev/watch.old. Old watches will not be restored: %m"
        []
  | Some stream =>
      foreach_dirent_all restore_entry stream;;
      closedir watch_old;;
      rmdir watch_old;;
      mret 0
  end.

(** * The vocabulary of the statements *)

(** ** Views of the registry *)

(** An entry of a directory, if the directory is one and holds it. *)
Definition dir_entry (f : gmap string node) (dir name : string)
  : option inode :=
  match f !! dir with
  | Some (Dir es) => es !! name
  | _ => None
  end.

(** The entry of the live registry that belongs to a watch descriptor,
    as [readlink] would find it. *)
Definition registry_entry (w : World) (wd : Z) : option inode :=
  match fs w !! watch_dir with
  | Some (Dir es) => es !! watch_name wd
  | _ => None
  end.

(** No entry for the descriptor: the registry directory is absent, or it
    is there and holds no entry of that name. *)
Definition no_registry_entry (w : World) (wd : Z) : Prop :=
  match fs w !! watch_dir with
  | None => True
  | Some (Dir es) => es !! watch_name wd = None
  | Some NotDir => False
  end.

(** The contents of the relocated registry. *)
Definition old_registry (w : World) : option (gmap string inode) :=
  match fs w !! watch_old with
  | Some (Dir es) => Some es
  | _ => None
  end.

(** [rename] can move the live registry: nothing is in the way at the
    old path, or an empty directory that [rename] replaces. *)
Definition old_slot_free (w : World) : Prop :=
  fs w !! watch_old = None ∨ fs w !! watch_old = Some (Dir ∅).

Definition is_subdir (e : inode) : bool :=
  match e with
  | Subdir => true
  | _ => false
  end.

(** ** The calls as functions of what they change *)

(** The file system after [unlinkat], [symlink] and [mkdir_parents]. *)
Definition unlink_fs (dir name : string) (f : gmap string node)
  : gmap string node :=
  match f !! dir with
  | Some (Dir es) =>
      match es !! name with
      | Some (Symlink _) | Some Regular => <[dir := Dir (delete name es)]> f
      | _ => f
      end
  | _ => f
  end.

Definition symlink_fs (target dir name : string) (f : gmap string node)
  : gmap string node :=
  if decide (target = "") then f
  else if PATH_MAX <=? Z.of_nat (String.length target) then f
  else
    match f !! dir with
    | Some (Dir es) =>
        match es !! name with
        | None => <[dir := Dir (<[name := Symlink target]> es)]> f
        | Some _ => f
        end
    | _ => f
    end.

Definition mkdir_fs (dir : string) (f : gmap string node)
  : gmap string node :=
  match f !! dir with
  | None => <[dir := Dir ∅]> f
  | Some _ => f
  end.

(** What [inotify_add_watch] answered, given the table [t] and the
    [errno] it left: a failure that changed no table, or the descriptor
    of a watch on the inode of [path] that is now in the instance behind
    [fd]; a descriptor that was in use was in use for that inode. *)
Definition add_watch_outcome (fd : Z) (path : string) (mask : Z) (w : World)
  (r : Z) (t : gmap N inotify) (e : Z) : Prop :=
  (r = -1 ∧ t = fdtable w ∧ e ≠ 0) ∨
  (∃ i ino wd n, 0 ≤ fd ∧ fdtable w !! Z.to_N fd = Some i ∧
     devnodes w !! path = Some ino ∧ r = Z.pos wd ∧
     t = <[Z.to_N fd :=
             Inotify (cloexec i) (<[wd := (ino, mask)]> (watches i)) n]>
           (fdtable w) ∧
     (∀ p m, watches i !! wd = Some (p, m) → p = ino)).

(** What [inotify_rm_watch] did to the table: nothing, or it removed
    the watch [wd] from the instance behind [fd]. *)
Definition rm_watch_outcome (fd wd : Z) (w : World) (t : gmap N inotify)
  : Prop :=
  t = fdtable w ∨
  (∃ i, 0 ≤ fd ∧ 0 < wd ∧ fdtable w !! Z.to_N fd = Some i ∧
     t = <[Z.to_N fd :=
             Inotify (cloexec i) (delete (Z.to_pos wd) (watches i))
               (next_wd i)]>
           (fdtable w)).

(** The directory entry a call reads or changes, if it is one of those
    that work on a single entry. *)
Definition call_entry (c : syscall) : option (string * string) :=
  match c with
  | SysReadlinkat dir name _ => Some (dir, name)
  | SysUnlinkat dir name => Some (dir, name)
  | SysSymlink _ dir name => Some (dir, name)
  | _ => None
  end.

(** No call of the list works on an entry of the old registry. *)
Definition spares_old (l : list syscall) : Prop :=
  ∀ c name, c ∈ l → call_entry c ≠ Some (watch_old, name).

(** ** Messages *)

(** An error return of [udev_watch_begin]:
    [return log_error_errno(e, format, args)]. *)
Definition begin_error (e : Z) (format : string) (args : list string)
  (dev : sd_device) (w : World) : Z * sd_device * World :=
  ((- Z.abs e, dev), record_log (LogEntry LOG_ERR e format args) w).

Definition invalid_descriptor : log_entry :=
  LogEntry LOG_ERR EINVAL "Invalid inotify descriptor." [].

Definition link_truncated (wd : Z) : log_entry :=
  LogEntry LOG_ERR ENAMETOOLONG "Path specified by link '%s' is truncated."
    [watch_dir +:+ "/" +:+ watch_name wd].

Definition read_failure_logged (name : string) (j : list log_entry) : Prop :=
  ∃ code,
    LogEntry LOG_ERR code
      "Failed to read link '/run/udev/watch.old/%s', ignoring: %m" [name] ∈ j.

(** The message that the loop body of restore owes the log for an entry
    whose watch it cannot try to re-arm: the link cannot be read (it is
    no link, or [readlinkat] returned 0), its target fills the buffer,
    or the device database does not know the target. *)
Definition entry_logged (es : gmap string inode) (db : gmap string sd_device)
  (name : string) (j : list log_entry) : Prop :=
  match es !! name with
  | Some (Symlink target) =>
      if Z.of_nat (String.length target) <=? 0 then read_failure_logged name j
      else if PATH_MAX <=? Z.of_nat (String.length target) then
        LogEntry LOG_ERR 0
          "Path specified by link '/run/udev/watch.old/%s' is truncated, ignoring."
          [name] ∈ j
      else
        match db !! target with
        | None =>
            LogEntry LOG_ERR (- ENODEV)
              "Failed to create sd_device object for '%s', ignoring: %m"
              [target] ∈ j
        | Some _ => True
        end
  | _ => read_failure_logged name j
  end.

(** ** A watch that is being tracked *)

(** The watch descriptor [wd] is tracked for the inode [ino] and the
    identifier [id]: the channel is initialised, its inotify instance
    watches [ino] under [wd], and the registry links [wd] to [id]. *)
Definition tracked (wd ino : positive) (id : string) (w : World) : Prop :=
  0 ≤ inotify_fd w ∧
  (∃ i m, fdtable w !! Z.to_N (inotify_fd w) = Some i ∧
          watches i !! wd = Some (ino, m)) ∧
  registry_entry w (Z.pos wd) = Some (Symlink id) ∧
  id ≠ "" ∧ Z.of_nat (String.length id) < PATH_MAX.

(** What the device database answers for an identifier, in the shape of
    the result of [udev_watch_lookup]. *)
Definition resolve (w : World) (id : string) : Z * option sd_device :=
  match sysdb w !! id with
  | Some dev => (0, Some dev)
  | None => (- ENODEV, None)
  end.

(** The lifecycle operations that may follow a [begin]. *)
Inductive op :=
| OpBegin (dev : sd_device)
| OpEnd (dev : sd_device)
| OpLookup (wd : Z).

Definition run_op (w : World) (o : op) : World :=
  match o with
  | OpBegin dev => (udev_watch_begin dev w).2
  | OpEnd dev => (udev_watch_end dev w).2
  | OpLookup wd => (udev_watch_lookup wd w).2
  end.

Definition run_ops (ops : list op) (w : World) : World := foldl run_op w ops.

(** The inode that the node name of a device reaches, if the device
    has a node name and the node exists. *)
Definition inode_of (nodes : gmap string positive) (dev : sd_device)
  : option positive :=
  devname dev ≫= λ node, nodes !! node.

(** An operation that leaves the watch of [dev] alone: any lookup, the
    end of a watch with another handle, and any begin but that of a
    device that reaches the inode of [dev], by the same node name or
    by another, and does not have its identifier. *)
Definition leaves_alone (nodes : gmap string positive) (dev : sd_device)
    (o : op) : Prop :=
  match o with
  | OpBegin d =>
      inode_of nodes d ≠ inode_of nodes dev ∨ id_filename d = id_filename dev
  | OpEnd d => watch_handle d ≠ watch_handle dev
  | OpLookup _ => True
  end.

(** ** What the restore loop leaves behind *)

(** What one pass of the loop body leaves of the old registry: an entry
    that is not skipped is removed if [unlinkat] can remove it. *)
Definition sweep1 (name : string) (es : gmap string inode)
  : gmap string inode :=
  if dot_name name then es
  else
    match es !! name with
    | Some (Symlink _) | Some Regular => delete name es
    | _ => es
    end.

Definition sweep (names : list string) (es : gmap string inode)
  : gmap string inode :=
  foldl (λ es name, sweep1 name es) es names.

(** ** Five claims as the specification words them *)

(** The channel that [init] obtains has close-on-exec disabled. *)
Definition init_leaves_cloexec_off (w : World) : Prop :=
  ∀ i, lookup_fd (udev_watch_init w).1 (udev_watch_init w).2 = Some i →
       cloexec i = false.

(** [end] returns no error and leaves the handle of the device
    cleared. *)
Definition end_succeeds_and_clears (dev : sd_device) (w : World) : Prop :=
  0 ≤ (udev_watch_end dev w).1.1 ∧ watch_handle (udev_watch_end dev w).1.2 < 0.

(** Once restore is over, the old directory does not exist. *)
Definition old_directory_gone (w : World) : Prop :=
  fs (udev_watch_restore w).2 !! watch_old = None.

(** An operation that is not the [end] of the handle of [dev]. *)
Definition not_end_of (dev : sd_device) (o : op) : Prop :=
  match o with
  | OpEnd d => watch_handle d ≠ watch_handle dev
  | _ => True
  end.

(** Once [begin] has succeeded on [dev], and until the [end] of its
    handle, a lookup of the handle returns a device that has the
    identifier of [dev]. *)
Definition lookup_follows_begin (dev : sd_device) (w : World)
    (ops : list op) : Prop :=
  let b := udev_watch_begin dev w in
  b.1.1 = 0 → Forall (not_end_of b.1.2) ops →
  ∃ found,
    (udev_watch_lookup (watch_handle b.1.2) (run_ops ops b.2)).1
    = (0, Some found) ∧
    id_filename found = id_filename dev.

(** Every entry that the loop of restore goes through is gone from the
    old directory when restore is over. *)
Definition restore_removes_every_entry (w : World) (es : gmap string inode)
  : Prop :=
  ∀ name e, es !! name = Some e → dot_name name = false →
    dir_entry (fs (udev_watch_restore w).2) watch_old name = None.

(** ** Worlds to try the statements on *)

(** Two disks, not watched. *)
Definition sda : sd_device :=
  SdDevice (Some "/dev/sda") (Some "b8:0") (-1) false.
Definition sdb : sd_device :=
  SdDevice (Some "/dev/sdb") (Some "b8:16") (-1) false.

(** A device that holds watch descriptor 3 and has no device node. *)
Definition nodeless : sd_device := SdDevice None (Some "n3") 3 false.

(** A device that holds watch descriptor 9, which neither the kernel nor
    the registry knows. *)
Definition orphan : sd_device :=
  SdDevice (Some "/dev/sda") (Some "b8:0") 9 false.

(** A process before [udev_watch_init]: no descriptor, nothing on disk,
    the two disks in /dev and in the device database. *)
Definition boot : World :=
  {| inotify_fd := -1; errno := 0; fdtable := ∅; fd_limit := 1024;
     devnodes := {[ "/dev/sda" := 1%positive; "/dev/sdb" := 2%positive ]};
     fs := ∅;
     sysdb := {[ "b8:0" := sda; "b8:16" := sdb ]};
     debug_logging := false; calls := []; journal := [] |}.

(** The same process after a successful [udev_watch_init]. *)
Definition ready : World := (udev_watch_init boot).2.

(** A process, after [udev_watch_init], in which the two names reach one
    device node. *)
Definition twinned : World :=
  (udev_watch_init
     {| inotify_fd := -1; errno := 0; fdtable := ∅; fd_limit := 1024;
        devnodes := {[ "/dev/sda" := 1%positive; "/dev/sdb" := 1%positive ]};
        fs := ∅;
        sysdb := {[ "b8:0" := sda; "b8:16" := sdb ]};
        debug_logging := false; calls := []; journal := [] |}).2.

(** A device on the node of [sda] that the device database does not
    know. *)
Definition stranger : sd_device :=
  SdDevice (Some "/dev/sda") (Some "b8:99") (-1) false.

(** A target of 4096 bytes, and a world whose registry maps descriptor
    5 to it. *)
Definition long_target : string :=
  Eval vm_compute in
    string_of_list_ascii (replicate 4096 "a"%char).

Definition corrupt : World :=
  set_fs {[ watch_dir := Dir {[ "5" := Symlink long_target ]} ]} ready.

(** A registry left by an earlier run: the watch of /dev/sda, a link to
    a device that is gone, and a stray file whose name begins with a
    dot. *)
Definition stale_entries : gmap string inode :=
  {[ "1" := Symlink "b8:0"; "2" := Symlink "b8:32"; ".tmp" := Regular ]}.

Definition stale : World := set_fs {[ watch_dir := Dir stale_entries ]} ready.

(** A registry that holds a directory next to the watch of /dev/sda. *)
Definition nested_entries : gmap string inode :=
  {[ "1" := Symlink "b8:0"; "7" := Subdir ]}.

Definition nested : World :=
  set_fs {[ watch_dir := Dir nested_entries ]} ready.

(** The same registry without the stray file. *)
Definition tidy_entries : gmap string inode :=
  {[ "1" := Symlink "b8:0"; "2" := Symlink "b8:32" ]}.

Definition tidy : World := set_fs {[ watch_dir := Dir tidy_entries ]} ready.

(** ** Further vocabulary *)

(** Two worlds that agree on everything but [errno], the calls issued
    and the log. *)
Definition same_state (w w' : World) : Prop :=
  inotify_fd w' = inotify_fd w ∧ fdtable w' = fdtable w ∧
  fd_limit w' = fd_limit w ∧ devnodes w' = devnodes w ∧ fs w' = fs w ∧
  sysdb w' = sysdb w ∧ debug_logging w' = debug_logging w.

(** The inotify instance behind the channel watches [wd]. *)
Definition watched (w : World) (wd : positive) : Prop :=
  ∃ i, fdtable w !! Z.to_N (inotify_fd w) = Some i ∧ is_Some (watches i !! wd).

(** Devices of the database whose node names reach one inode, by one
    name or by several, share the identifier. *)
Definition consistent_db (nodes : gmap string positive)
    (db : gmap string sd_device) : Prop :=
  ∀ t1 t2 d1 d2 ino,
    db !! t1 = Some d1 → db !! t2 = Some d2 →
    inode_of nodes d1 = Some ino → inode_of nodes d2 = Some ino →
    id_filename d1 = id_filename d2.

(** A usable identifier: [symlink] accepts it as a target. *)
Definition valid_id (id : string) : Prop :=
  id ≠ "" ∧ Z.of_nat (String.length id) < PATH_MAX.

Definition init_failed (e : Z) : log_entry :=
  LogEntry LOG_ERR e "Failed to create inotify descriptor: %m" [].

Definition invalid_handle : log_entry :=
  LogEntry LOG_ERR EINVAL "Invalid watch handle." [].

(** A process that cannot open any descriptor. *)
Definition crowded : World :=
  {| inotify_fd := -1; errno := 0; fdtable := ∅; fd_limit := 0;
     devnodes := {[ "/dev/sda" := 1%positive; "/dev/sdb" := 2%positive ]};
     fs := ∅;
     sysdb := {[ "b8:0" := sda; "b8:16" := sdb ]};
     debug_logging := false; calls := []; journal := [] |}.

(** A registry next to an old directory that a crashed restore left
    behind with an entry in it. *)
Definition occupied : World :=
  set_fs {[ watch_dir := Dir tidy_entries;
            watch_old := Dir {[ "9" := Regular ]} ]} ready.

(** A plain file where the live registry should be. *)
Definition misplaced : World := set_fs {[ watch_dir := NotDir ]} ready.

(** A registry whose entry for descriptor 4 is a plain file. *)
Definition garbled : World :=
  set_fs {[ watch_dir := Dir {[ "4" := Regular ]} ]} ready.

Definition read_link_failed (e : Z) (wd : Z) : log_entry :=
  LogEntry LOG_ERR e "Failed to read link '%s': %m"
    [watch_dir +:+ "/" +:+ watch_name wd].

Definition no_such_device (id : string) : log_entry :=
  LogEntry LOG_ERR (- ENODEV)
    "Failed to create sd_device object for '%s': %m" [id].

(** The descriptor that [inotify_add_watch] answers for a path that
    reaches the inode [ino]: that of the watch the instance has on the
    inode, or the next unused one; and where the instance will then
    start to look for an unused descriptor. *)
Definition watch_for (ino : positive) (i : inotify) : positive :=
  default (unused_wd i) (watch_of_inode ino (watches i)).

Definition next_after (ino : positive) (i : inotify) : positive :=
  match watch_of_inode ino (watches i) with
  | Some _ => next_wd i
  | None => Pos.succ (unused_wd i)
  end.

(** The live registry after a [begin] that reached the kernel with the
    descriptor [wd]. *)
Definition begin_fs (dev : sd_device) (wd : positive) (f : gmap string node)
  : gmap string node :=
  let f1 := unlink_fs watch_dir (watch_name (Z.pos wd)) (mkdir_fs watch_dir f) in
  match id_filename dev with
  | Some id => symlink_fs id watch_dir (watch_name (Z.pos wd)) f1
  | None => f1
  end.

(** The live registry is sound: it is no plain file, and each of its
    entries is a link with a usable target, under the name of a
    descriptor that the channel watches. *)
Definition registry_sound (w : World) : Prop :=
  fs w !! watch_dir ≠ Some NotDir ∧
  ∀ name e, dir_entry (fs w) watch_dir name = Some e →
    ∃ wd target, name = watch_name (Z.pos wd) ∧ e = Symlink target ∧
                 valid_id target ∧ watched w wd.

(** What the loop needs of the world to re-arm a watch: the channel
    [fd] has an inotify instance, the device nodes and the device
    database are those given, and the live registry is sound. *)
Definition rearm_ready (fd : Z) (nodes : gmap string positive)
    (db : gmap string sd_device) (w : World) : Prop :=
  inotify_fd w = fd ∧ devnodes w = nodes ∧ sysdb w = db ∧
  is_Some (fdtable w !! Z.to_N fd) ∧ registry_sound w.

(** A device whose node does not exist. *)
Definition unplugged : sd_device :=
  SdDevice (Some "/dev/sdz") (Some "b8:400") (-1) false.

(** The two error returns of [udev_watch_restore] after the check of
    the descriptor. *)
Definition move_failed (e : Z) : log_entry :=
  LogEntry LOG_ERR e
    "Failed to move watches directory /run/udev/watch. Old watches will not be restored: %m"
    [].

Definition open_failed (e : Z) : log_entry :=
  LogEntry LOG_ERR e
    "Failed to open old watches directory /run/udev/watch.old. Old watches will not be restored: %m"
    [].

(** The result [r] of a call that took [w] to [w'] is reported: it is
    not positive, and if it is negative the last message handed to the
    log since [w] is an error message whose error code, negated, is the
    result. *)
Definition reported (r : Z) (w w' : World) : Prop :=
  r ≤ 0 ∧
  (r < 0 → ∃ j e, journal w' = journal w ++ j ++ [e] ∧
                  log_level e = LOG_ERR ∧ r = - Z.abs (log_error_code e)).

(** * Proofs *)

(** The calls are taken apart by the lemmas below, not by [simpl]. *)
Global Arguments log_debug : simpl never.
Global Arguments inotify_add_watch : simpl never.
Global Arguments inotify_rm_watch : simpl never.
Global Arguments readlinkat : simpl never.
Global Arguments unlinkat : simpl never.
Global Arguments symlink : simpl never.
Global Arguments mkdir_parents : simpl never.
Global Arguments udev_watch_begin : simpl never.
Global Arguments watch_name : simpl never.

(** ** Running computations *)

Ltac unfold_monad :=
  unfold mbind, M_bind, mret, M_ret, gets, modify, log_error_errno,
    log_error, sys_fail in *.

Lemma Zltb_ge (a b : Z) : b ≤ a → (a <? b) = false.
Proof. intros. apply Z.ltb_ge. lia. Qed.

Lemma Zltb_lt (a b : Z) : a < b → (a <? b) = true.
Proof. intros. by apply Z.ltb_lt. Qed.

(** ** C1: the flags of the notification channel *)

Lemma inotify_init1_cloexec (w : World) :
  let fd := fresh (dom (fdtable w)) in
  inotify_init1 IN_CLOEXEC w =
    if (fd_limit w <=? fd)%N
    then (-1, set_errno EMFILE (record_call (SysInotifyInit1 IN_CLOEXEC) w))
    else (Z.of_N fd,
          set_fdtable (<[fd := Inotify true ∅ 1]> (fdtable w))
            (record_call (SysInotifyInit1 IN_CLOEXEC) w)).
Proof. reflexivity. Qed.

(** C1 (as stated, refuted): on the freshly booted process [init]
    succeeds and the descriptor it stores carries close-on-exec. *)
Lemma init_cloexec_off_refuted : ¬ init_leaves_cloexec_off boot.
Proof.
  intros H. specialize (H (Inotify true ∅ 1)).
  assert (Hfd : lookup_fd (udev_watch_init boot).1 (udev_watch_init boot).2
                = Some (Inotify true ∅ 1)) by (vm_compute; reflexivity).
  specialize (H Hfd). discriminate H.
Qed.

(** C1 (amended): [udev_watch_init] issues exactly one call,
    [inotify_init1] with the flag [IN_CLOEXEC]; it stores the result in
    [inotify_fd]; when the call succeeds the result is a descriptor that
    was not open before and that now carries close-on-exec, and when it
    fails the result is negative and [inotify_fd] is negative too. *)
Theorem udev_watch_init_sets_cloexec (w : World) :
  let '(r, w') := udev_watch_init w in
  calls w' = calls w ++ [SysInotifyInit1 IN_CLOEXEC] ∧
  ((0 ≤ r ∧ inotify_fd w' = r ∧
    lookup_fd r w = None ∧
    ∃ i, lookup_fd r w' = Some i ∧ cloexec i = true)
   ∨
   (r < 0 ∧ inotify_fd w' < 0 ∧ fdtable w' = fdtable w)).
Proof.
  unfold udev_watch_init. unfold_monad.
  rewrite inotify_init1_cloexec.
  destruct (fd_limit w <=? fresh (dom (fdtable w)))%N eqn:Hlim; simpl.
  - split; [done|]. right. unfold EMFILE. simpl. done.
  - set (fd := fresh (dom (fdtable w))).
    assert (Hfresh : fdtable w !! fd = None).
    { apply not_elem_of_dom. apply is_fresh. }
    rewrite Zltb_ge by lia. simpl.
    split; [done|]. left.
    split; [lia|]. split; [done|].
    unfold lookup_fd. rewrite Zltb_ge by lia. rewrite N2Z.id. simpl.
    split; [done|]. exists (Inotify true ∅ 1).
    by rewrite lookup_insert_eq.
Qed.

(** ** C6: nothing happens before [udev_watch_init] *)

(** C6: while [inotify_fd] is negative, restore, begin, end and lookup
    each return [-EINVAL]; the device is returned as it was, lookup
    yields no device, and the world is the one before but for the
    message handed to the log: no call is issued, the kernel tables and
    the file system are untouched. *)
Theorem uninitialized_fails_fast (w : World) (dev : sd_device) (wd : Z) :
  inotify_fd w < 0 →
  udev_watch_restore w = (- EINVAL, record_log invalid_descriptor w) ∧
  udev_watch_begin dev w = ((- EINVAL, dev), record_log invalid_descriptor w) ∧
  udev_watch_end dev w = ((- EINVAL, dev), record_log invalid_descriptor w) ∧
  udev_watch_lookup wd w = ((- EINVAL, None), record_log invalid_descriptor w) ∧
  calls (record_log invalid_descriptor w) = calls w ∧
  fdtable (record_log invalid_descriptor w) = fdtable w ∧
  fs (record_log invalid_descriptor w) = fs w.
Proof.
  intros Hfd.
  unfold udev_watch_restore, udev_watch_begin, udev_watch_end,
    udev_watch_lookup.
  unfold_monad. rewrite (Zltb_lt _ _ Hfd). done.
Qed.

Lemma uninitialized_fails_fast_witness :
  inotify_fd boot < 0 ∧
  udev_watch_begin sda boot
    = ((- EINVAL, sda), record_log invalid_descriptor boot).
Proof.
  split; [reflexivity|].
  apply (uninitialized_fails_fast boot sda 1). reflexivity.
Defined.

(** ** What the calls of the operating system leave alone *)

Lemma inotify_rm_watch_calls fd wd w :
  calls (inotify_rm_watch fd wd w).2 = calls w ++ [SysInotifyRmWatch fd wd].
Proof. unfold inotify_rm_watch. unfold_monad. by repeat case_match. Qed.

Lemma unlinkat_calls dir name w :
  calls (unlinkat dir name w).2 = calls w ++ [SysUnlinkat dir name].
Proof.
  unfold unlinkat, lookup_entry. unfold_monad. simpl. by repeat case_match.
Qed.

(** ** C2: ending a watch *)

(** C2 (as stated, refuted): with the channel initialised, ending the
    watch of a device that has a handle but no node name returns
    [-ENOENT] and keeps the handle; before initialisation, ending the
    watch of a device never begun returns [-EINVAL]. *)
Lemma end_succeeds_and_clears_refuted :
  ¬ end_succeeds_and_clears nodeless ready ∧
  ¬ end_succeeds_and_clears sda boot.
Proof.
  split; intros [Hr Hh]; vm_compute in Hr; vm_compute in Hh; congruence.
Qed.

(** C2 (amended): with the channel initialised and the handle of the
    device readable, [end] on a device without a handle returns 0 and
    changes nothing; on a device with a handle whose node name is
    available it asks the kernel to drop the watch, unlinks the registry
    entry, returns 0 and sets the handle to -1, whatever the two removals
    answered; a second [end] right after it returns 0 again and changes
    nothing. *)
Theorem udev_watch_end_clears (w : World) (dev : sd_device) :
  0 ≤ inotify_fd w →
  db_failure dev = false →
  (watch_handle dev < 0 → udev_watch_end dev w = ((0, dev), w)) ∧
  (0 ≤ watch_handle dev → is_Some (devname dev) →
   let '((r, dev'), w') := udev_watch_end dev w in
   r = 0 ∧
   dev' = device_set_watch_handle dev (-1) ∧
   watch_handle dev' = -1 ∧
   calls w' = calls w ++ [SysInotifyRmWatch (inotify_fd w) (watch_handle dev);
                          SysUnlinkat watch_dir (watch_name (watch_handle dev))] ∧
   inotify_fd w' = inotify_fd w ∧
   udev_watch_end dev' w' = ((0, dev'), w')).
Proof.
  intros Hfd Hdb.
  assert (Hnoop : ∀ (d : sd_device) (v : World),
             0 ≤ inotify_fd v → db_failure d = false → watch_handle d < 0 →
             udev_watch_end d v = ((0, d), v)).
  { intros d v Hv Hd Hh. unfold udev_watch_end, device_get_watch_handle.
    unfold_monad. rewrite Zltb_ge by done. rewrite Hd.
    rewrite Zltb_lt by done. done. }
  split; [by apply Hnoop|].
  intros Hh [node Hnode].
  destruct (udev_watch_end dev w) as [[r dev'] w'] eqn:Hend.
  unfold udev_watch_end, device_get_watch_handle, sd_device_get_devname,
    log_debug in Hend.
  unfold_monad.
  rewrite Zltb_ge, Hdb, Zltb_ge, Hnode in Hend by done.
  destruct (inotify_rm_watch _ _ _) as [r1 w1] eqn:Hrm in Hend.
  destruct (unlinkat _ _ _) as [r2 w2] eqn:Hun in Hend.
  injection Hend as <- <- <-.
  assert (Hcalls : calls w2 = calls w ++
            [SysInotifyRmWatch (inotify_fd w) (watch_handle dev);
             SysUnlinkat watch_dir (watch_name (watch_handle dev))]).
  { change w2 with (r2, w2).2. rewrite <- Hun, unlinkat_calls.
    change w1 with (r1, w1).2. rewrite <- Hrm, inotify_rm_watch_calls.
    rewrite <- app_assoc. by destruct (debug_logging w). }
  assert (Hfd2 : inotify_fd w2 = inotify_fd w).
  { change w2 with (r2, w2).2. rewrite <- Hun.
    change w1 with (r1, w1).2. rewrite <- Hrm.
    unfold unlinkat, inotify_rm_watch, lookup_entry. unfold_monad.
    repeat (case_match; simpl; try done); by destruct (debug_logging w). }
  repeat split; try done.
  apply Hnoop; simpl; [lia | done | lia].
Qed.

Lemma udev_watch_end_clears_witness :
  0 ≤ inotify_fd ready ∧ db_failure sda = false ∧ db_failure orphan = false ∧
  watch_handle sda < 0 ∧
  udev_watch_end sda ready = ((0, sda), ready) ∧
  0 ≤ watch_handle orphan ∧ is_Some (devname orphan) ∧
  (inotify_rm_watch (inotify_fd ready) 9 ready).1 = -1 ∧
  (unlink watch_dir (watch_name 9) ready).1 = -1 ∧
  (udev_watch_end orphan ready).1 = (0, device_set_watch_handle orphan (-1)).
Proof.
  assert (H1 : 0 ≤ inotify_fd ready) by (by vm_compute).
  assert (H2 : db_failure sda = false) by reflexivity.
  assert (H3 : db_failure orphan = false) by reflexivity.
  assert (H4 : watch_handle sda < 0) by reflexivity.
  assert (H5 : 0 ≤ watch_handle orphan) by (by vm_compute).
  assert (H6 : is_Some (devname orphan)) by (by eexists).
  split; [exact H1|]. split; [exact H2|]. split; [exact H3|].
  split; [exact H4|]. split.
  { exact (proj1 (udev_watch_end_clears ready sda H1 H2) H4). }
  split; [exact H5|]. split; [exact H6|].
  split; [vm_compute; reflexivity|]. split; [vm_compute; reflexivity|].
  pose proof (proj2 (udev_watch_end_clears ready orphan H1 H3) H5 H6) as H.
  destruct (udev_watch_end orphan ready) as [[r dev'] w'].
  destruct H as (-> & -> & _). reflexivity.
Defined.

(** ** C7, C8: lookups that find no usable entry *)

(** C7: with the channel initialised, looking up a non-negative handle
    that has no registry entry returns 0 and no device; the one call it
    issues is the [readlink] that fails with [ENOENT], and nothing is
    handed to the log. *)
Theorem udev_watch_lookup_not_found (w : World) (wd : Z) :
  0 ≤ inotify_fd w → 0 ≤ wd → no_registry_entry w wd →
  udev_watch_lookup wd w =
    ((0, None),
     set_errno ENOENT
       (record_call (SysReadlinkat watch_dir (watch_name wd) PATH_MAX) w)).
Proof.
  intros Hfd Hwd Hno. unfold udev_watch_lookup, readlinkat, lookup_entry.
  unfold_monad. rewrite !Zltb_ge by done. simpl.
  unfold no_registry_entry in Hno.
  destruct (fs w !! watch_dir) as [[es|]|]; [|done|done].
  by rewrite Hno.
Qed.

Lemma udev_watch_lookup_not_found_witness :
  0 ≤ inotify_fd ready ∧ 0 ≤ 7 ∧ no_registry_entry ready 7 ∧
  (udev_watch_lookup 7 ready).1 = (0, None).
Proof.
  assert (H1 : 0 ≤ inotify_fd ready) by (by vm_compute).
  assert (H2 : 0 ≤ 7) by lia.
  assert (H3 : no_registry_entry ready 7) by (by vm_compute).
  split; [exact H1|]. split; [exact H2|]. split; [exact H3|].
  by rewrite (udev_watch_lookup_not_found ready 7 H1 H2 H3).
Defined.

(** C8: with the channel initialised, looking up a non-negative handle
    whose registry entry is a link with a target of [PATH_MAX] bytes or
    more returns [-ENAMETOOLONG] and no device; the target is not handed
    to the device database. *)
Theorem udev_watch_lookup_truncated (w : World) (wd : Z) (target : string) :
  0 ≤ inotify_fd w → 0 ≤ wd →
  registry_entry w wd = Some (Symlink target) →
  PATH_MAX ≤ Z.of_nat (String.length target) →
  udev_watch_lookup wd w =
    ((- ENAMETOOLONG, None),
     record_log (link_truncated wd)
       (record_call (SysReadlinkat watch_dir (watch_name wd) PATH_MAX) w)).
Proof.
  intros Hfd Hwd Hent Hlen. unfold udev_watch_lookup, readlinkat, lookup_entry.
  unfold_monad. rewrite !Zltb_ge by done. simpl.
  unfold registry_entry in Hent.
  destruct (fs w !! watch_dir) as [[es|]|]; [|done|done].
  rewrite Hent. rewrite Z.min_r by done.
  by compute.
Qed.

Lemma udev_watch_lookup_truncated_witness :
  0 ≤ inotify_fd corrupt ∧ 0 ≤ 5 ∧
  registry_entry corrupt 5 = Some (Symlink long_target) ∧
  PATH_MAX ≤ Z.of_nat (String.length long_target) ∧
  (udev_watch_lookup 5 corrupt).1 = (- ENAMETOOLONG, None).
Proof.
  assert (H1 : 0 ≤ inotify_fd corrupt) by (by vm_compute).
  assert (H2 : 0 ≤ 5) by lia.
  assert (H3 : registry_entry corrupt 5 = Some (Symlink long_target))
    by (vm_compute; reflexivity).
  assert (H4 : PATH_MAX ≤ Z.of_nat (String.length long_target))
    by (by vm_compute).
  split; [exact H1|]. split; [exact H2|]. split; [exact H3|].
  split; [exact H4|].
  by rewrite (udev_watch_lookup_truncated corrupt 5 long_target H1 H2 H3 H4).
Defined.

(** ** C9: restore without a registry *)

(** C9: with the channel initialised and no live registry directory,
    [restore] returns 0 after the one [rename] that fails with [ENOENT]:
    the file system is as before (no old directory is made) and no watch
    is added. *)
Theorem udev_watch_restore_absent (w : World) :
  0 ≤ inotify_fd w → fs w !! watch_dir = None →
  let w' := set_errno ENOENT (record_call (SysRename watch_dir watch_old) w) in
  udev_watch_restore w = (0, w') ∧
  fs w' = fs w ∧ fdtable w' = fdtable w ∧
  calls w' = calls w ++ [SysRename watch_dir watch_old].
Proof.
  intros Hfd Hdir. simpl. split; [|done].
  unfold udev_watch_restore, rename. unfold_monad.
  rewrite Zltb_ge by done. simpl. by rewrite Hdir.
Qed.

Lemma udev_watch_restore_absent_witness :
  0 ≤ inotify_fd ready ∧ fs ready !! watch_dir = None ∧
  (udev_watch_restore ready).1 = 0 ∧
  fs (udev_watch_restore ready).2 = fs ready.
Proof.
  assert (H1 : 0 ≤ inotify_fd ready) by (by vm_compute).
  assert (H2 : fs ready !! watch_dir = None) by (by vm_compute).
  destruct (udev_watch_restore_absent ready H1 H2) as (Hr & Hfs & _).
  split; [exact H1|]. split; [exact H2|]. by rewrite Hr.
Defined.

(** ** The effect of the calls on the world

    For each call, the world it leaves: the fields it cannot change are
    those of the world before, the file system or the watch table is
    given by a function of the old one. *)

Lemma bind_run {A B} (m : M A) (k : A → M B) (w : World) :
  (m ≫= k) w = k (m w).1 (m w).2.
Proof. unfold mbind, M_bind. by destruct (m w). Qed.

Lemma unlinkat_world dir name w :
  ∃ e, (unlinkat dir name w).2 =
    mkWorld (inotify_fd w) e (fdtable w) (fd_limit w) (devnodes w)
      (unlink_fs dir name (fs w)) (sysdb w) (debug_logging w)
      (calls w ++ [SysUnlinkat dir name]) (journal w).
Proof.
  unfold unlinkat, unlink_fs, lookup_entry. unfold_monad. simpl.
  destruct (fs w !! dir) as [[es|]|]; simpl; eauto.
  destruct (es !! name) as [[]|]; simpl; eauto.
Qed.

Lemma symlink_world target dir name w :
  ∃ e, (symlink target dir name w).2 =
    mkWorld (inotify_fd w) e (fdtable w) (fd_limit w) (devnodes w)
      (symlink_fs target dir name (fs w)) (sysdb w) (debug_logging w)
      (calls w ++ [SysSymlink target dir name]) (journal w).
Proof.
  unfold symlink, symlink_fs, lookup_entry. unfold_monad. simpl.
  destruct (decide (target = "")); simpl; eauto.
  destruct (PATH_MAX <=? _); simpl; eauto.
  destruct (fs w !! dir) as [[es|]|]; simpl; eauto.
  destruct (es !! name) as [[]|]; simpl; eauto.
Qed.

Lemma mkdir_parents_world dir mode w :
  (mkdir_parents dir mode w).2 =
    mkWorld (inotify_fd w) (errno w) (fdtable w) (fd_limit w) (devnodes w)
      (mkdir_fs dir (fs w)) (sysdb w) (debug_logging w)
      (calls w ++ [SysMkdirParents dir mode]) (journal w).
Proof.
  unfold mkdir_parents, mkdir_fs. simpl.
  by destruct (fs w !! dir) as [[es|]|].
Qed.

Lemma readlinkat_world dir name n w :
  ∃ e, (readlinkat dir name n w).2 =
    mkWorld (inotify_fd w) e (fdtable w) (fd_limit w) (devnodes w)
      (fs w) (sysdb w) (debug_logging w)
      (calls w ++ [SysReadlinkat dir name n]) (journal w).
Proof.
  unfold readlinkat, lookup_entry. simpl.
  destruct (fs w !! dir) as [[es|]|]; simpl; eauto.
  destruct (es !! name) as [[]|]; simpl; eauto.
Qed.

Lemma watch_of_inode_Some ino ws wd :
  watch_of_inode ino ws = Some wd → ∃ m, ws !! wd = Some (ino, m).
Proof.
  unfold watch_of_inode. intros H.
  destruct (list_find _ _) as [[n [k [p m]]]|] eqn:Hfind; [|done].
  simpl in H. injection H as ->.
  apply list_find_Some in Hfind as (Hl & Hp & _). simpl in Hp. subst p.
  exists m. apply elem_of_map_to_list. eapply list_elem_of_lookup_2, Hl.
Qed.

Lemma watch_of_inode_None ino ws wd m :
  watch_of_inode ino ws = None → ws !! wd ≠ Some (ino, m).
Proof.
  unfold watch_of_inode. intros H Hwd.
  destruct (list_find _ _) as [[n [k [p m']]]|] eqn:Hfind; [done|].
  apply list_find_None in Hfind.
  apply elem_of_map_to_list in Hwd.
  rewrite Forall_forall in Hfind. by apply (Hfind _ Hwd).
Qed.

(** The search for an unused descriptor ends on one, at or after the
    descriptor it starts from. *)
Lemma next_free_unused (ws m : gmap positive (positive * Z)) (fuel : nat) :
  ∀ wd, (∀ k, (wd ≤ k)%positive → ws !! k = m !! k) → (size m ≤ fuel)%nat →
        ws !! next_free fuel wd ws = None.
Proof.
  revert m. induction fuel as [|fuel IH]; intros m wd Hm Hsize; cbn.
  - assert (m = ∅) as -> by (apply map_size_empty_inv; lia).
    rewrite Hm by reflexivity. apply lookup_empty.
  - destruct (ws !! wd) as [v|] eqn:Hwd; [|done].
    apply (IH (delete wd m)).
    + intros k Hk. rewrite lookup_delete_ne by lia. apply Hm. lia.
    + rewrite Hm in Hwd by reflexivity.
      erewrite map_size_delete_Some by done.
      assert (size m ≠ 0%nat) by (apply map_size_ne_0_lookup; eauto). lia.
Qed.

Lemma next_free_ge (ws : gmap positive (positive * Z)) (fuel : nat) :
  ∀ wd, (wd ≤ next_free fuel wd ws)%positive.
Proof.
  induction fuel as [|fuel IH]; intros wd; cbn; [lia|].
  destruct (ws !! wd); [|lia]. specialize (IH (Pos.succ wd)). lia.
Qed.

Lemma unused_wd_unused (i : inotify) : watches i !! unused_wd i = None.
Proof. by apply (next_free_unused _ (watches i)). Qed.

Lemma unused_wd_ge (i : inotify) : (next_wd i ≤ unused_wd i)%positive.
Proof. apply next_free_ge. Qed.

Lemma inotify_add_watch_world fd path mask w :
  ∃ e t, (inotify_add_watch fd path mask w).2 =
    mkWorld (inotify_fd w) e t
      (fd_limit w) (devnodes w) (fs w) (sysdb w) (debug_logging w)
      (calls w ++ [SysInotifyAddWatch fd path mask]) (journal w) ∧
    add_watch_outcome fd path mask w (inotify_add_watch fd path mask w).1 t e.
Proof.
  unfold inotify_add_watch, add_watch_outcome, lookup_fd. unfold_monad.
  cbn.
  destruct (fd <? 0) eqn:Hfd; cbn.
  { do 2 eexists. split; [reflexivity|]. left. by unfold EBADF. }
  apply Z.ltb_ge in Hfd.
  destruct (fdtable w !! Z.to_N fd) as [i|] eqn:Hi; cbn.
  2: { do 2 eexists. split; [reflexivity|]. left. by unfold EBADF. }
  destruct (devnodes w !! path) as [ino|] eqn:Hino; cbn.
  2: { do 2 eexists. split; [reflexivity|]. left. by unfold ENOENT. }
  destruct (watch_of_inode ino (watches i)) as [wd|] eqn:Hwd; cbn.
  - do 2 eexists. split; [reflexivity|]. right.
    exists i, ino, wd, (next_wd i). repeat split; try done.
    intros p m Hpm.
    apply watch_of_inode_Some in Hwd as [m' Hm']. congruence.
  - do 2 eexists. split; [reflexivity|]. right.
    exists i, ino, (unused_wd i), (Pos.succ (unused_wd i)).
    repeat split; try done.
    intros p m Hpm. by rewrite unused_wd_unused in Hpm.
Qed.

Lemma inotify_rm_watch_world fd wd w :
  ∃ e t, (inotify_rm_watch fd wd w).2 =
    mkWorld (inotify_fd w) e t
      (fd_limit w) (devnodes w) (fs w) (sysdb w) (debug_logging w)
      (calls w ++ [SysInotifyRmWatch fd wd]) (journal w) ∧
    rm_watch_outcome fd wd w t.
Proof.
  unfold inotify_rm_watch, rm_watch_outcome, lookup_fd. unfold_monad. cbn.
  destruct (fd <? 0) eqn:Hfd; cbn.
  { do 2 eexists. split; [reflexivity|]. by left. }
  apply Z.ltb_ge in Hfd.
  destruct (fdtable w !! Z.to_N fd) as [i|] eqn:Hi; cbn.
  2: { do 2 eexists. split; [reflexivity|]. by left. }
  destruct (0 <? wd) eqn:Hwd; cbn.
  2: { do 2 eexists. split; [reflexivity|]. by left. }
  apply Z.ltb_lt in Hwd.
  destruct (bool_decide _); cbn.
  2: { do 2 eexists. split; [reflexivity|]. by left. }
  do 2 eexists. split; [reflexivity|]. right. by exists i.
Qed.

Lemma log_debug_world format args w :
  ∃ j, (log_debug format args w).2 =
    mkWorld (inotify_fd w) (errno w) (fdtable w) (fd_limit w) (devnodes w)
      (fs w) (sysdb w) (debug_logging w) (calls w) (journal w ++ j).
Proof.
  unfold log_debug. destruct w as [? ? ? ? ? ? ? [] ? ?]; simpl.
  - by eexists [_].
  - exists []. by rewrite app_nil_r.
Qed.

(** The entries of a directory after each of the three changes. *)
Lemma dir_entry_unlink dir name f dir' name' :
  dir_entry (unlink_fs dir name f) dir' name' =
    if decide (dir = dir' ∧ name = name') then
      match dir_entry f dir name with
      | Some Subdir => Some Subdir
      | _ => None
      end
    else dir_entry f dir' name'.
Proof.
  unfold unlink_fs, dir_entry.
  destruct (decide (dir = dir' ∧ name = name')) as [[<- <-]|Hne].
  - destruct (f !! dir) as [[es|]|] eqn:Hd; rewrite ?Hd; try done.
    destruct (es !! name) as [[]|] eqn:He; rewrite ?Hd, ?He; try done;
      by rewrite lookup_insert_eq, lookup_delete_eq.
  - destruct (f !! dir) as [[es|]|] eqn:Hd; try done.
    destruct (es !! name) as [[]|] eqn:He; try done;
      (destruct (decide (dir = dir')) as [<-|];
       [ rewrite lookup_insert_eq, Hd, lookup_delete_ne by naive_solver; done
       | by rewrite lookup_insert_ne ]).
Qed.

Lemma dir_entry_symlink target dir name f dir' name' :
  dir_entry (symlink_fs target dir name f) dir' name' =
    if decide (dir = dir' ∧ name = name') then
      match f !! dir, dir_entry f dir name with
      | Some (Dir _), None =>
          if decide (target = "") then None
          else if PATH_MAX <=? Z.of_nat (String.length target) then None
          else Some (Symlink target)
      | _, e => e
      end
    else dir_entry f dir' name'.
Proof.
  unfold symlink_fs, dir_entry.
  destruct (decide (dir = dir' ∧ name = name')) as [[<- <-]|Hne].
  - destruct (decide (target = "")).
    { destruct (f !! dir) as [[es|]|]; try done. by destruct (es !! name). }
    destruct (PATH_MAX <=? _).
    { destruct (f !! dir) as [[es|]|]; try done. by destruct (es !! name). }
    destruct (f !! dir) as [[es|]|] eqn:Hd; rewrite ?Hd; try done.
    destruct (es !! name) eqn:He; rewrite ?Hd, ?He; try done.
    by rewrite lookup_insert_eq, lookup_insert_eq.
  - destruct (decide (target = "")); [done|].
    destruct (PATH_MAX <=? _); [done|].
    destruct (f !! dir) as [[es|]|] eqn:Hd; try done.
    destruct (es !! name) eqn:He; try done.
    destruct (decide (dir = dir')) as [<-|].
    + rewrite lookup_insert_eq, Hd, lookup_insert_ne by naive_solver. done.
    + by rewrite lookup_insert_ne.
Qed.

Lemma dir_entry_mkdir dir f dir' name' :
  dir_entry (mkdir_fs dir f) dir' name' = dir_entry f dir' name'.
Proof.
  unfold mkdir_fs, dir_entry.
  destruct (f !! dir) eqn:Hd; [done|].
  destruct (decide (dir = dir')) as [<-|].
  - by rewrite lookup_insert_eq, Hd.
  - by rewrite lookup_insert_ne.
Qed.

Lemma registry_entry_dir_entry w wd :
  registry_entry w wd = dir_entry (fs w) watch_dir (watch_name wd).
Proof. reflexivity. Qed.

Lemma substring_all (s : string) : String.substring 0 (String.length s) s = s.
Proof. induction s as [|c s IH]; simpl; [done|by rewrite IH]. Qed.

(** ** [udev_watch_begin], call by call *)

(** The run of [udev_watch_begin] on a device with a node name, with the
    channel initialised: the result of each call is named, in order. *)
Lemma udev_watch_begin_run (dev : sd_device) (node : string) (w : World) :
  0 ≤ inotify_fd w → devname dev = Some node →
  let w0 := (log_debug "Adding watch on '%s'" [node] w).2 in
  let a := inotify_add_watch (inotify_fd w) node IN_CLOSE_WRITE w0 in
  let dev1 := device_set_watch_handle dev a.1 in
  let filename := watch_name a.1 in
  let b := mkdir_parents watch_dir 493 a.2 in
  let c := unlinkat watch_dir filename b.2 in
  udev_watch_begin dev w =
    if a.1 <? 0 then
      begin_error (errno a.2) "Failed to add device '%s' to watch: %m" [node]
        dev a.2
    else if b.1 <? 0 then
      begin_error b.1 "Failed to create parent directory of '%s': %m"
        [watch_dir +:+ "/" +:+ filename] dev1 b.2
    else
      match id_filename dev with
      | None =>
          begin_error (- ENOENT) "Failed to get device id-filename: %m" []
            dev1 c.2
      | Some id =>
          let s := symlink id watch_dir filename c.2 in
          if s.1 <? 0 then
            begin_error (errno s.2) "Failed to create symlink %s: %m"
              [watch_dir +:+ "/" +:+ filename] dev1 s.2
          else ((0, dev1), s.2)
      end.
Proof.
  intros Hfd Hnode. cbv zeta.
  unfold udev_watch_begin, sd_device_get_devname, device_get_id_filename,
    begin_error.
  rewrite bind_run. unfold gets at 1. cbn.
  rewrite Zltb_ge, Hnode by done.
  do 2 (rewrite bind_run; cbn).
  destruct (_ <? 0); [reflexivity|].
  rewrite bind_run; cbn.
  destruct (_ <? 0); [reflexivity|].
  rewrite bind_run; cbn.
  destruct (id_filename dev); [|reflexivity].
  rewrite bind_run; cbn.
  destruct (_ <? 0); reflexivity.
Qed.

(** What [symlink] answered: a failure, or it made the link. *)
Lemma symlink_result target dir name w :
  let s := symlink target dir name w in
  (s.1 = -1 ∧ errno s.2 ≠ 0) ∨
  (s.1 = 0 ∧ target ≠ "" ∧ Z.of_nat (String.length target) < PATH_MAX ∧
   dir_entry (fs s.2) dir name = Some (Symlink target)).
Proof.
  unfold symlink, lookup_entry, dir_entry. unfold_monad. cbn.
  destruct (decide (target = "")); cbn; [by left|].
  destruct (PATH_MAX <=? _) eqn:Hlen; cbn; [by left|].
  apply Z.leb_gt in Hlen.
  destruct (fs w !! dir) as [[es|]|]; cbn; [|by left|by left].
  destruct (es !! name) as [[]|]; cbn; [by left|by left|by left|].
  right. by rewrite !lookup_insert_eq.
Qed.

Lemma mkdir_parents_result dir mode w :
  ((mkdir_parents dir mode w).1 <? 0) = false →
  ∃ es, mkdir_fs dir (fs w) !! dir = Some (Dir es).
Proof.
  unfold mkdir_parents, mkdir_fs. cbn.
  destruct (fs w !! dir) as [[es|]|] eqn:Hd; cbn; intros H.
  - eauto.
  - done.
  - rewrite lookup_insert_eq. eauto.
Qed.

(** A successful [udev_watch_begin]: what must have been the case, and
    what the world looks like afterwards. *)
Lemma udev_watch_begin_success (dev dev' : sd_device) (w w' : World) :
  udev_watch_begin dev w = ((0, dev'), w') →
  ∃ (node id : string) (ino wd : positive),
    0 ≤ inotify_fd w ∧
    devname dev = Some node ∧ devnodes w !! node = Some ino ∧
    id_filename dev = Some id ∧
    dev' = device_set_watch_handle dev (Z.pos wd) ∧
    id ≠ "" ∧ Z.of_nat (String.length id) < PATH_MAX ∧
    inotify_fd w' = inotify_fd w ∧ sysdb w' = sysdb w ∧
    devnodes w' = devnodes w ∧
    (∃ i m, fdtable w' !! Z.to_N (inotify_fd w') = Some i ∧
            watches i !! wd = Some (ino, m)) ∧
    registry_entry w' (Z.pos wd) = Some (Symlink id).
Proof.
  intros Hb.
  destruct (decide (inotify_fd w < 0)) as [Hneg|Hfd].
  { unfold udev_watch_begin in Hb. rewrite bind_run in Hb.
    unfold gets at 1 in Hb. cbn in Hb. rewrite Zltb_lt in Hb by done.
    discriminate Hb. }
  apply Z.nlt_ge in Hfd.
  destruct (devname dev) as [node|] eqn:Hnode.
  2: { unfold udev_watch_begin, sd_device_get_devname in Hb.
       rewrite bind_run in Hb. unfold gets at 1 in Hb. cbn in Hb.
       rewrite Zltb_ge, Hnode in Hb by done. discriminate Hb. }
  rewrite (udev_watch_begin_run dev node w Hfd Hnode) in Hb. cbv zeta in Hb.
  destruct (log_debug_world "Adding watch on '%s'" [node] w) as [j Hw0].
  rewrite Hw0 in Hb. clear Hw0.
  match type of Hb with context [inotify_add_watch ?fd ?p ?m ?v] =>
    destruct (inotify_add_watch_world fd p m v) as (e1 & t1 & Hw1 & Hout);
    set (a := inotify_add_watch fd p m v) in *
  end.
  cbn in Hw1, Hout.
  rewrite mkdir_parents_world in Hb.
  pose proof (mkdir_parents_result watch_dir 493 a.2) as Hmk.
  match type of Hb with context [unlinkat ?d ?n ?v] =>
    destruct (unlinkat_world d n v) as (e3 & Hw3)
  end.
  rewrite Hw3 in Hb. clear Hw3. cbn in Hb.
  unfold begin_error in Hb.
  destruct (a.1 <? 0) eqn:Ha.
  { injection Hb as Hz _ _.
    destruct Hout as [(_ & _ & He)|(i & ino & wd & n & _ & _ & _ & Hr & _)];
      [|rewrite Hr in Ha; done].
    rewrite Hw1 in Hz. cbn in Hz. lia. }
  destruct (_ <? 0) eqn:Hmkr in Hb.
  { injection Hb as Hz _ _. apply Z.ltb_lt in Hmkr. lia. }
  specialize (Hmk Hmkr) as [es Hes].
  destruct (id_filename dev) as [id|] eqn:Hid.
  2: { injection Hb as Hz _ _. done. }
  match type of Hb with context [symlink ?t ?d ?n ?v] =>
    destruct (symlink_world t d n v) as (e4 & Hw4);
    pose proof (symlink_result t d n v) as Hs;
    set (s := symlink t d n v) in *
  end.
  cbn in Hw4, Hs.
  destruct Hs as [[Hs1 Hs2]|(Hs1 & Hne & Hlen & Hent)].
  { rewrite Hs1 in Hb. cbn in Hb. injection Hb as Hz _ _. lia. }
  rewrite Hs1 in Hb. cbn in Hb. injection Hb as <- <-.
  destruct Hout as [(Hr & _)|(i & ino & wd & n & Hfd' & Hi & Hino & Hr & Ht & _)];
    [rewrite Hr in Ha; done|].
  exists node, id, ino, wd. rewrite Hr.
  split; [done|]. split; [done|]. split; [done|]. split; [done|].
  split; [done|]. split; [done|]. split; [done|].
  rewrite Hw4. cbn. rewrite Hw1. cbn.
  split; [done|]. split; [done|]. split; [done|]. split.
  - eexists _, _. rewrite Ht. rewrite lookup_insert_eq. split; [done|].
    cbn. by rewrite lookup_insert_eq.
  - rewrite Hw4 in Hent. cbn in Hent. rewrite Hw1 in Hent. cbn in Hent.
    rewrite registry_entry_dir_entry, <- Hr. exact Hent.
Qed.

(** ** C4: a begun watch can be looked up *)

Lemma tracked_ext wd node id w w' :
  inotify_fd w' = inotify_fd w → fdtable w' = fdtable w → fs w' = fs w →
  tracked wd node id w → tracked wd node id w'.
Proof.
  unfold tracked, registry_entry. intros -> -> ->. done.
Qed.

Lemma tracked_log wd node id e w :
  tracked wd node id w → tracked wd node id (record_log e w).
Proof. by apply tracked_ext. Qed.

(** The lookup of a tracked descriptor returns what the device database
    answers for the identifier. *)
Lemma udev_watch_lookup_tracked wd node id w :
  tracked wd node id w →
  (udev_watch_lookup (Z.pos wd) w).1 = resolve w id.
Proof.
  intros (Hfd & _ & Hent & Hne & Hlen).
  unfold udev_watch_lookup, readlinkat, lookup_entry, resolve,
    sd_device_new_from_device_id.
  unfold_monad. rewrite Zltb_ge by done. cbn.
  unfold registry_entry in Hent.
  destruct (fs w !! watch_dir) as [[es|]|]; [|done|done].
  rewrite Hent. rewrite Z.min_l by lia. rewrite Nat2Z.id, substring_all.
  destruct (Z.of_nat (String.length id) <=? 0) eqn:Hz.
  { apply Z.leb_le in Hz. destruct id; [done|]. simpl in Hz. lia. }
  destruct (PATH_MAX <=? _) eqn:Hp; [apply Z.leb_le in Hp; lia|].
  cbn. by destruct (sysdb w !! id).
Qed.

Lemma unlink_fs_dir dir name f dir' es :
  f !! dir' = Some (Dir es) → ∃ es', unlink_fs dir name f !! dir' = Some (Dir es').
Proof.
  unfold unlink_fs. intros Hd.
  destruct (f !! dir) as [[es0|]|] eqn:Hd0; eauto.
  destruct (es0 !! name) as [[]|]; eauto;
    (destruct (decide (dir = dir')) as [<-|];
     [rewrite lookup_insert_eq | rewrite lookup_insert_ne by done]; eauto).
Qed.

Lemma dir_entry_Some_dir f dir name e :
  dir_entry f dir name = Some e → ∃ es, f !! dir = Some (Dir es).
Proof.
  unfold dir_entry. destruct (f !! dir) as [[es|]|]; [eauto|done|done].
Qed.

Lemma watch_name_inj (a b : Z) : watch_name a = watch_name b → a = b.
Proof. unfold watch_name. apply (inj pretty). Qed.

(** [udev_watch_begin] keeps a tracked descriptor tracked, unless the
    device begun reaches the inode and does not have the identifier. *)
Lemma udev_watch_begin_tracked wd node id dev w :
  inode_of (devnodes w) dev ≠ Some node ∨ id_filename dev = Some id →
  tracked wd node id w →
  tracked wd node id (udev_watch_begin dev w).2.
Proof.
  intros Hdev Htr. pose proof Htr as (Hfd & (i & m & Hi & Hwd) & Hent & Hne & Hlen).
  destruct (devname dev) as [node2|] eqn:Hnode.
  2: { unfold udev_watch_begin, sd_device_get_devname.
       rewrite bind_run. unfold gets at 1. cbn.
       rewrite Zltb_ge, Hnode by done. by apply tracked_log. }
  rewrite (udev_watch_begin_run dev node2 w Hfd Hnode). cbv zeta.
  destruct (log_debug_world "Adding watch on '%s'" [node2] w) as [j Hw0].
  rewrite Hw0. clear Hw0.
  match goal with |- context [inotify_add_watch ?fd ?p ?k ?v] =>
    destruct (inotify_add_watch_world fd p k v) as (e1 & t1 & Hw1 & Hout);
    set (a := inotify_add_watch fd p k v) in *
  end.
  unfold add_watch_outcome in Hout. cbn in Hw1, Hout.
  rewrite mkdir_parents_world.
  match goal with |- context [unlinkat ?d ?n ?v] =>
    destruct (unlinkat_world d n v) as (e3 & Hw3)
  end.
  rewrite Hw3. clear Hw3.
  assert (Hsym : ∀ t, ∃ e, (symlink t watch_dir (watch_name a.1)
     {| inotify_fd := inotify_fd a.2; errno := e3; fdtable := fdtable a.2;
        fd_limit := fd_limit a.2; devnodes := devnodes a.2;
        fs := unlink_fs watch_dir (watch_name a.1) (mkdir_fs watch_dir (fs a.2));
        sysdb := sysdb a.2; debug_logging := debug_logging a.2;
        calls := (calls a.2 ++ [SysMkdirParents watch_dir 493]) ++
                 [SysUnlinkat watch_dir (watch_name a.1)];
        journal := journal a.2 |}).2 =
     {| inotify_fd := inotify_fd a.2; errno := e; fdtable := fdtable a.2;
        fd_limit := fd_limit a.2; devnodes := devnodes a.2;
        fs := symlink_fs t watch_dir (watch_name a.1)
                (unlink_fs watch_dir (watch_name a.1)
                   (mkdir_fs watch_dir (fs a.2)));
        sysdb := sysdb a.2; debug_logging := debug_logging a.2;
        calls := ((calls a.2 ++ [SysMkdirParents watch_dir 493]) ++
                  [SysUnlinkat watch_dir (watch_name a.1)]) ++
                 [SysSymlink t watch_dir (watch_name a.1)];
        journal := journal a.2 |}).
  { intros t. destruct (symlink_world t watch_dir (watch_name a.1)
      {| inotify_fd := inotify_fd a.2; errno := e3; fdtable := fdtable a.2;
        fd_limit := fd_limit a.2; devnodes := devnodes a.2;
        fs := unlink_fs watch_dir (watch_name a.1) (mkdir_fs watch_dir (fs a.2));
        sysdb := sysdb a.2; debug_logging := debug_logging a.2;
        calls := (calls a.2 ++ [SysMkdirParents watch_dir 493]) ++
                 [SysUnlinkat watch_dir (watch_name a.1)];
        journal := journal a.2 |}) as [e He]. exists e. exact He. }
  unfold begin_error. cbn.
  (* the world right after [inotify_add_watch] *)
  assert (Ha2 : inotify_fd a.2 = inotify_fd w ∧ fs a.2 = fs w ∧
                ∃ i' m', fdtable a.2 !! Z.to_N (inotify_fd w) = Some i' ∧
                         watches i' !! wd = Some (node, m')).
  { rewrite Hw1. cbn. split; [done|]. split; [done|].
    destruct Hout as [(_ & -> & _)|(i0 & ino2 & wd2 & n2 & _ & Hi0 & _ & _ & -> & Hsame)].
    - eauto.
    - rewrite lookup_insert_eq. rewrite Hi in Hi0. injection Hi0 as <-.
      destruct (decide (wd2 = wd)) as [->|Hne2].
      + eexists _, _. split; [done|]. cbn.
        rewrite lookup_insert_eq. f_equal. f_equal. symmetry.
        eapply Hsame, Hwd.
      + eexists _, _. split; [done|]. cbn.
        rewrite lookup_insert_ne by done. exact Hwd. }
  destruct Ha2 as (Hfd2 & Hfs2 & Hk2).
  assert (Hbase : ∀ e f', inotify_fd a.2 = inotify_fd w →
     dir_entry f' watch_dir (watch_name (Z.pos wd)) = Some (Symlink id) →
     tracked wd node id
       {| inotify_fd := inotify_fd a.2; errno := e; fdtable := fdtable a.2;
          fd_limit := fd_limit a.2; devnodes := devnodes a.2; fs := f';
          sysdb := sysdb a.2; debug_logging := debug_logging a.2;
          calls := []; journal := [] |}).
  { intros e f' Hf Hd. unfold tracked. cbn. rewrite Hf. done. }
  assert (Hshape : ∀ e f' c j0,
     dir_entry f' watch_dir (watch_name (Z.pos wd)) = Some (Symlink id) →
     tracked wd node id
       {| inotify_fd := inotify_fd a.2; errno := e; fdtable := fdtable a.2;
          fd_limit := fd_limit a.2; devnodes := devnodes a.2; fs := f';
          sysdb := sysdb a.2; debug_logging := debug_logging a.2;
          calls := c; journal := j0 |}).
  { intros e f' c j0 Hd. eapply tracked_ext; [| | |apply (Hbase e f' Hfd2 Hd)];
      done. }
  rewrite registry_entry_dir_entry in Hent.
  destruct (a.1 <? 0) eqn:Ha.
  { cbn. apply tracked_log.
    eapply tracked_ext; [| | |apply (Hshape 0 (fs a.2) [] [])];
      [done|done|done|]. by rewrite Hfs2. }
  assert (Hmk : dir_entry (mkdir_fs watch_dir (fs a.2)) watch_dir
                  (watch_name (Z.pos wd)) = Some (Symlink id)).
  { by rewrite dir_entry_mkdir, Hfs2. }
  destruct ((mkdir_parents watch_dir 493 a.2).1 <? 0) eqn:Hmkr.
  { cbn. apply tracked_log. by apply Hshape. }
  destruct (decide (a.1 = Z.pos wd)) as [Heq|Hneq].
  - (* the kernel answered with the tracked descriptor: same inode *)
    assert (inode_of (devnodes w) dev = Some node) as Hino.
    { destruct Hout as [(Hr & _)|(i0 & ino2 & wd2 & n2 & _ & Hi0 & Hino2 & Hr & _ & Hsame)].
      - rewrite Hr in Ha. done.
      - rewrite Hi in Hi0. injection Hi0 as <-.
        rewrite Heq in Hr. injection Hr as <-.
        unfold inode_of. rewrite Hnode. cbn. rewrite Hino2. f_equal.
        symmetry. eapply Hsame, Hwd. }
    destruct Hdev as [Hdev|Hdev]; [done|]. rewrite Hdev.
    destruct (Hsym id) as [e4 Hw4]. rewrite Hw4.
    assert (Hfin : dir_entry
              (symlink_fs id watch_dir (watch_name a.1)
                 (unlink_fs watch_dir (watch_name a.1)
                    (mkdir_fs watch_dir (fs a.2))))
              watch_dir (watch_name (Z.pos wd)) = Some (Symlink id)).
    { rewrite Heq. rewrite dir_entry_symlink.
      rewrite decide_True by done.
      rewrite dir_entry_unlink. rewrite decide_True by done. rewrite Hmk.
      apply dir_entry_Some_dir in Hmk as [es Hes].
      destruct (unlink_fs_dir watch_dir (watch_name (Z.pos wd)) _ _ _ Hes)
        as [es' Hes'].
      rewrite Hes'. rewrite decide_False by done.
      destruct (PATH_MAX <=? _) eqn:Hp; [apply Z.leb_le in Hp; lia|done]. }
    match goal with |- context [if ?c then _ else _] => destruct c end;
      cbn; [apply tracked_log|]; by apply Hshape.
  - (* another descriptor: another name in the registry *)
    assert (Hun : dir_entry
              (unlink_fs watch_dir (watch_name a.1) (mkdir_fs watch_dir (fs a.2)))
              watch_dir (watch_name (Z.pos wd)) = Some (Symlink id)).
    { rewrite dir_entry_unlink. rewrite decide_False; [done|].
      intros [_ Hn]. by apply watch_name_inj in Hn. }
    destruct (id_filename dev) as [id2|].
    2: { cbn. apply tracked_log. by apply Hshape. }
    destruct (Hsym id2) as [e4 Hw4]. rewrite Hw4.
    assert (Hfin : dir_entry
              (symlink_fs id2 watch_dir (watch_name a.1)
                 (unlink_fs watch_dir (watch_name a.1)
                    (mkdir_fs watch_dir (fs a.2))))
              watch_dir (watch_name (Z.pos wd)) = Some (Symlink id)).
    { rewrite dir_entry_symlink. rewrite decide_False; [done|].
      intros [_ Hn]. by apply watch_name_inj in Hn. }
    match goal with |- context [if ?c then _ else _] => destruct c end;
      cbn; [apply tracked_log|]; by apply Hshape.
Qed.

(** None of the three lifecycle operations changes the device database
    or the descriptor of the channel. *)
Lemma udev_watch_begin_stable dev w :
  sysdb (udev_watch_begin dev w).2 = sysdb w ∧
  inotify_fd (udev_watch_begin dev w).2 = inotify_fd w.
Proof.
  destruct (decide (inotify_fd w < 0)) as [Hneg|Hfd].
  { unfold udev_watch_begin. rewrite bind_run. unfold gets at 1. cbn.
    by rewrite Zltb_lt. }
  apply Z.nlt_ge in Hfd.
  destruct (devname dev) as [node|] eqn:Hnode.
  2: { unfold udev_watch_begin, sd_device_get_devname.
       rewrite bind_run. unfold gets at 1. cbn.
       by rewrite Zltb_ge, Hnode. }
  rewrite (udev_watch_begin_run dev node w Hfd Hnode). cbv zeta.
  destruct (log_debug_world "Adding watch on '%s'" [node] w) as [j ->].
  match goal with |- context [inotify_add_watch ?fd ?p ?k ?v] =>
    destruct (inotify_add_watch_world fd p k v) as (e1 & t1 & Hw1 & _);
    set (a := inotify_add_watch fd p k v) in *
  end.
  rewrite mkdir_parents_world.
  match goal with |- context [unlinkat ?d ?n ?v] =>
    destruct (unlinkat_world d n v) as (e3 & ->)
  end.
  unfold begin_error.
  destruct (a.1 <? 0); [by rewrite Hw1|].
  destruct ((mkdir_parents watch_dir 493 a.2).1 <? 0); [by rewrite Hw1|].
  destruct (id_filename dev) as [id|]; [|by rewrite Hw1].
  match goal with |- context [symlink ?t ?d ?n ?v] =>
    destruct (symlink_world t d n v) as (e4 & ->)
  end.
  match goal with |- context [if ?c then _ else _] => destruct c end;
    by rewrite Hw1.
Qed.

Lemma udev_watch_end_world dev w :
  0 ≤ inotify_fd w →
  let w' := (udev_watch_end dev w).2 in
  w' = w ∨ (∃ e, w' = record_log e w) ∨
  (0 ≤ watch_handle dev ∧
   ∃ node,
     w' = (unlinkat watch_dir (watch_name (watch_handle dev))
             (inotify_rm_watch (inotify_fd w) (watch_handle dev)
                (log_debug "Removing watch on '%s'" [node] w).2).2).2).
Proof.
  intros Hfd. cbv zeta.
  unfold udev_watch_end, device_get_watch_handle, sd_device_get_devname.
  rewrite bind_run. unfold gets at 1. cbn. rewrite Zltb_ge by done.
  destruct (db_failure dev); cbn; [right; left; eauto|].
  destruct (watch_handle dev <? 0) eqn:Hh; cbn; [by left|].
  apply Z.ltb_ge in Hh.
  destruct (devname dev) as [node|]; cbn; [|right; left; eauto].
  right. right. split; [done|]. exists node.
  by rewrite !bind_run.
Qed.

Lemma udev_watch_end_stable dev w :
  sysdb (udev_watch_end dev w).2 = sysdb w ∧
  inotify_fd (udev_watch_end dev w).2 = inotify_fd w.
Proof.
  destruct (decide (inotify_fd w < 0)) as [Hneg|Hfd].
  { unfold udev_watch_end. rewrite bind_run. unfold gets at 1. cbn.
    by rewrite Zltb_lt. }
  apply Z.nlt_ge in Hfd.
  destruct (udev_watch_end_world dev w Hfd) as [->|[[e ->]|(_ & node & ->)]];
    [done|done|].
  destruct (log_debug_world "Removing watch on '%s'" [node] w) as [j ->].
  match goal with |- context [inotify_rm_watch ?fd ?h ?v] =>
    destruct (inotify_rm_watch_world fd h v) as (e1 & t1 & -> & _)
  end.
  match goal with |- context [unlinkat ?d ?n ?v] =>
    destruct (unlinkat_world d n v) as (e3 & ->)
  end.
  done.
Qed.

Lemma udev_watch_end_tracked wd node id dev w :
  watch_handle dev ≠ Z.pos wd →
  tracked wd node id w →
  tracked wd node id (udev_watch_end dev w).2.
Proof.
  intros Hh Htr.
  pose proof Htr as (Hfd & (i & m & Hi & Hwd) & Hent & Hne & Hlen).
  destruct (udev_watch_end_world dev w Hfd) as [->|[[e ->]|(Hh0 & node2 & ->)]];
    [done|by apply tracked_log|].
  destruct (log_debug_world "Removing watch on '%s'" [node2] w) as [j ->].
  match goal with |- context [inotify_rm_watch ?fd ?h ?v] =>
    destruct (inotify_rm_watch_world fd h v) as (e1 & t1 & -> & Hout)
  end.
  match goal with |- context [unlinkat ?d ?n ?v] =>
    destruct (unlinkat_world d n v) as (e3 & ->)
  end.
  unfold rm_watch_outcome in Hout. cbn in Hout.
  unfold tracked. cbn. split; [done|]. split.
  - destruct Hout as [->|(i0 & _ & Hpos & Hi0 & ->)]; [eauto|].
    rewrite lookup_insert_eq. rewrite Hi in Hi0. injection Hi0 as <-.
    eexists _, _. split; [done|]. cbn.
    rewrite lookup_delete_ne; [done|]. intros Heq. apply Hh.
    rewrite <- Heq. rewrite Z2Pos.id by done. done.
  - split; [|done].
    rewrite registry_entry_dir_entry. cbn. rewrite dir_entry_unlink.
    rewrite decide_False; [done|].
    intros [_ Hn]. by apply watch_name_inj in Hn.
Qed.

Lemma udev_watch_lookup_world wd w :
  let w' := (udev_watch_lookup wd w).2 in
  inotify_fd w' = inotify_fd w ∧ fdtable w' = fdtable w ∧ fs w' = fs w ∧
  sysdb w' = sysdb w.
Proof.
  cbv zeta. unfold udev_watch_lookup, sd_device_new_from_device_id.
  rewrite bind_run. unfold gets at 1. cbn.
  destruct (inotify_fd w <? 0); [done|].
  destruct (wd <? 0); [done|].
  rewrite bind_run.
  destruct (readlinkat_world watch_dir (watch_name wd) PATH_MAX w) as [e Hw].
  destruct (readlinkat _ _ _ w) as [[len device] w1]. cbn in Hw. subst w1. cbn.
  destruct (len <=? 0).
  { rewrite bind_run. cbn. by destruct (negb _). }
  destruct (PATH_MAX <=? len); [done|].
  rewrite bind_run. cbn. by destruct (sysdb w !! device).
Qed.

Lemma udev_watch_lookup_keeps_tracked wd node id h w :
  tracked wd node id w → tracked wd node id (udev_watch_lookup h w).2.
Proof.
  destruct (udev_watch_lookup_world h w) as (? & ? & ? & _).
  by apply tracked_ext.
Qed.

(** No lifecycle operation changes which device nodes there are. *)
Lemma run_op_devnodes (o : op) (w : World) :
  devnodes (run_op w o) = devnodes w.
Proof.
  destruct o as [dev|dev|h]; cbn.
  - destruct (decide (inotify_fd w < 0)) as [Hneg|Hfd].
    { unfold udev_watch_begin. rewrite bind_run. unfold gets at 1. cbn.
      by rewrite Zltb_lt. }
    apply Z.nlt_ge in Hfd.
    destruct (devname dev) as [node|] eqn:Hnode.
    2: { unfold udev_watch_begin, sd_device_get_devname.
         rewrite bind_run. unfold gets at 1. cbn.
         by rewrite Zltb_ge, Hnode. }
    rewrite (udev_watch_begin_run dev node w Hfd Hnode). cbv zeta.
    destruct (log_debug_world "Adding watch on '%s'" [node] w) as [j ->].
    match goal with |- context [inotify_add_watch ?fd ?p ?k ?v] =>
      destruct (inotify_add_watch_world fd p k v) as (e1 & t1 & Hw1 & _);
      set (a := inotify_add_watch fd p k v) in *
    end.
    rewrite mkdir_parents_world.
    match goal with |- context [unlinkat ?d ?n ?v] =>
      destruct (unlinkat_world d n v) as (e3 & ->)
    end.
    unfold begin_error.
    destruct (a.1 <? 0); [by rewrite Hw1|].
    destruct ((mkdir_parents watch_dir 493 a.2).1 <? 0); [by rewrite Hw1|].
    destruct (id_filename dev) as [id|]; [|by rewrite Hw1].
    match goal with |- context [symlink ?t ?d ?n ?v] =>
      destruct (symlink_world t d n v) as (e4 & ->)
    end.
    match goal with |- context [if ?c then _ else _] => destruct c end;
      by rewrite Hw1.
  - destruct (decide (inotify_fd w < 0)) as [Hneg|Hfd].
    { unfold udev_watch_end. rewrite bind_run. unfold gets at 1. cbn.
      by rewrite Zltb_lt. }
    apply Z.nlt_ge in Hfd.
    destruct (udev_watch_end_world dev w Hfd) as [->|[[e ->]|(_ & node & ->)]];
      [done|done|].
    destruct (log_debug_world "Removing watch on '%s'" [node] w) as [j ->].
    match goal with |- context [inotify_rm_watch ?fd ?h ?v] =>
      destruct (inotify_rm_watch_world fd h v) as (e1 & t1 & -> & _)
    end.
    match goal with |- context [unlinkat ?d ?n ?v] =>
      destruct (unlinkat_world d n v) as (e3 & ->)
    end.
    done.
  - unfold udev_watch_lookup, sd_device_new_from_device_id.
    rewrite bind_run. unfold gets at 1. cbn.
    destruct (inotify_fd w <? 0); [done|].
    destruct (h <? 0); [done|].
    rewrite bind_run.
    destruct (readlinkat_world watch_dir (watch_name h) PATH_MAX w) as [e Hw].
    destruct (readlinkat _ _ _ w) as [[len device] w1]. cbn in Hw. subst w1.
    cbn. destruct (len <=? 0).
    { rewrite bind_run. cbn. by destruct (negb _). }
    destruct (PATH_MAX <=? len); [done|].
    rewrite bind_run. cbn. by destruct (sysdb w !! device).
Qed.

Lemma run_ops_tracked wd ino id dev ops w :
  inode_of (devnodes w) dev = Some ino → id_filename dev = Some id →
  watch_handle dev = Z.pos wd →
  Forall (leaves_alone (devnodes w) dev) ops →
  tracked wd ino id w →
  tracked wd ino id (run_ops ops w) ∧ sysdb (run_ops ops w) = sysdb w.
Proof.
  intros Hino Hid Hwd Hops. revert Hino.
  assert (Hgen : ∀ nodes, Forall (leaves_alone nodes dev) ops →
            ∀ w, devnodes w = nodes → inode_of nodes dev = Some ino →
                 tracked wd ino id w →
                 tracked wd ino id (run_ops ops w) ∧
                 sysdb (run_ops ops w) = sysdb w).
  { clear Hops w. intros nodes Hops.
    induction Hops as [|o ops Ho _ IH]; intros w Hnodes Hino Htr; [done|].
    unfold run_ops. cbn. fold (run_ops ops (run_op w o)).
    assert (Hstep : tracked wd ino id (run_op w o) ∧
                    sysdb (run_op w o) = sysdb w).
    { destruct o as [d|d|h]; cbn in *.
      - split; [|apply udev_watch_begin_stable].
        apply udev_watch_begin_tracked; [|done].
        rewrite Hnodes, <- Hino, <- Hid. exact Ho.
      - split; [|apply udev_watch_end_stable].
        apply udev_watch_end_tracked; [|done]. by rewrite <- Hwd.
      - split; [by apply udev_watch_lookup_keeps_tracked|].
        apply udev_watch_lookup_world. }
    destruct Hstep as [Htr' Hdb].
    destruct (IH (run_op w o)) as [? Hdb']; try done.
    { by rewrite run_op_devnodes. }
    split; [done|]. by rewrite Hdb'. }
  intros Hino. by apply (Hgen (devnodes w)).
Qed.

(** C4 (as stated, refuted): where two names reach one device node, a
    [begin] on the second name is given the descriptor of the first and
    replaces its link, so that the lookup of the handle of the first
    device returns the second, with another identifier; and the lookup
    of the handle of a device that the device database does not know
    returns no device at all. *)
Lemma lookup_follows_begin_refuted :
  ¬ lookup_follows_begin sda twinned [OpBegin sdb] ∧
  ¬ lookup_follows_begin stranger ready [].
Proof.
  split; intros H; unfold lookup_follows_begin in H; cbv zeta in H.
  - destruct H as (found & Hl & Hid).
    + vm_compute. reflexivity.
    + apply List.Forall_cons; [exact I|]. apply List.Forall_nil.
    + vm_compute in Hl. injection Hl as <-. discriminate Hid.
  - destruct H as (found & Hl & _).
    + vm_compute. reflexivity.
    + apply List.Forall_nil.
    + vm_compute in Hl. discriminate Hl.
Qed.

(** C4 (amended): when [begin] succeeds on a device, the device has an
    identifier and now holds a non-negative handle, and from then on,
    across any sequence of lookups, of ends of other handles, and of
    begins of devices that do not reach the inode of this device or
    that have its identifier, the lookup of that handle returns exactly
    what the device database answers for the identifier of the device:
    the device registered under that identifier when there is one.  The
    guarantee ends with the [end] of this handle and with the [begin] of
    a device with another identifier that reaches the same inode;
    re-initialisation and restore are not among the operations. *)
Theorem begin_then_lookup (dev dev' : sd_device) (w w' : World)
    (ops : list op) :
  udev_watch_begin dev w = ((0, dev'), w') →
  Forall (leaves_alone (devnodes w) dev') ops →
  ∃ id,
    id_filename dev = Some id ∧ id_filename dev' = Some id ∧
    0 ≤ watch_handle dev' ∧
    (udev_watch_lookup (watch_handle dev') (run_ops ops w')).1 = resolve w id ∧
    (∀ found, sysdb w !! id = Some found →
       (udev_watch_lookup (watch_handle dev') (run_ops ops w')).1
       = (0, Some found)).
Proof.
  intros Hb Hops.
  apply udev_watch_begin_success in Hb
    as (node & id & ino & wd & Hfd & Hnode & Hino & Hid & -> & Hne & Hlen &
        Hfd' & Hdb & Hnodes & Hk & Hent).
  assert (Htr : tracked wd ino id w').
  { unfold tracked. rewrite Hfd'. rewrite Hfd' in Hk. done. }
  assert (Hino' : inode_of (devnodes w')
                    (device_set_watch_handle dev (Z.pos wd)) = Some ino).
  { unfold inode_of. cbn. rewrite Hnode, Hnodes. exact Hino. }
  rewrite <- Hnodes in Hops.
  destruct (run_ops_tracked wd ino id (device_set_watch_handle dev (Z.pos wd))
              ops w' Hino' Hid eq_refl Hops Htr) as [Htr' Hdb'].
  assert (Hres : (udev_watch_lookup (Z.pos wd) (run_ops ops w')).1
                 = resolve w id).
  { rewrite (udev_watch_lookup_tracked wd ino id _ Htr').
    unfold resolve. by rewrite Hdb', Hdb. }
  exists id. cbn. split; [done|]. split; [done|]. split; [lia|].
  split; [done|]. intros found Hfound. rewrite Hres. unfold resolve.
  by rewrite Hfound.
Qed.

Lemma begin_then_lookup_witness :
  let b := udev_watch_begin sda ready in
  let ops := [OpBegin sdb; OpLookup 9; OpEnd sdb; OpBegin b.1.2] in
  b.1.1 = 0 ∧ Forall (leaves_alone (devnodes ready) b.1.2) ops ∧
  (udev_watch_lookup (watch_handle b.1.2) (run_ops ops b.2)).1
  = (0, Some sda).
Proof.
  cbv zeta.
  destruct (udev_watch_begin sda ready) as [[r dev'] w'] eqn:Hb.
  assert (Hr : r = 0) by (by apply (f_equal (λ x, x.1.1)) in Hb; vm_compute in Hb).
  subst r.
  assert (Hdev : dev' = SdDevice (Some "/dev/sda") (Some "b8:0") 1 false).
  { by apply (f_equal (λ x, x.1.2)) in Hb; vm_compute in Hb. }
  cbn [fst snd].
  assert (Hops : Forall (leaves_alone (devnodes ready) dev')
                   [OpBegin sdb; OpLookup 9; OpEnd sdb; OpBegin dev']).
  { rewrite Hdev.
    apply List.Forall_cons; [left; vm_compute; discriminate|].
    apply List.Forall_cons; [done|].
    apply List.Forall_cons; [cbn; discriminate|].
    apply List.Forall_cons; [cbn; by right|]. apply List.Forall_nil. }
  split; [done|]. split; [exact Hops|].
  destruct (begin_then_lookup sda dev' ready w' _ Hb Hops)
    as (id & Hid & _ & _ & _ & Hfound).
  cbn in Hid. injection Hid as <-.
  apply Hfound. by vm_compute.
Defined.

(** ** The restore loop *)

Lemma unlink_fs_other dir name f p :
  p ≠ dir → unlink_fs dir name f !! p = f !! p.
Proof.
  intros Hp. unfold unlink_fs.
  destruct (f !! dir) as [[es|]|]; try done.
  destruct (es !! name) as [[]|]; try done; by rewrite lookup_insert_ne.
Qed.

Lemma symlink_fs_other target dir name f p :
  p ≠ dir → symlink_fs target dir name f !! p = f !! p.
Proof.
  intros Hp. unfold symlink_fs.
  destruct (decide _); [done|]. destruct (PATH_MAX <=? _); [done|].
  destruct (f !! dir) as [[es|]|]; try done.
  destruct (es !! name); try done; by rewrite lookup_insert_ne.
Qed.

Lemma mkdir_fs_other dir f p : p ≠ dir → mkdir_fs dir f !! p = f !! p.
Proof.
  intros Hp. unfold mkdir_fs.
  destruct (f !! dir); [done|]. by rewrite lookup_insert_ne.
Qed.

Lemma watch_old_not_watch_dir : watch_old ≠ watch_dir.
Proof. discriminate. Qed.

Ltac spares_old_tac :=
  let c := fresh "c" in let n := fresh "n" in
  let Hc := fresh "Hc" in let Hn := fresh "Hn" in
  intros c n Hc Hn; cbn in Hc;
  repeat (apply elem_of_cons in Hc as [->|Hc]; [by inversion Hn|]);
  by apply elem_of_nil in Hc.

Ltac frame_tac :=
  cbn; repeat split; try done;
  first
    [ by rewrite ?symlink_fs_other, ?unlink_fs_other, ?mkdir_fs_other
    | eexists; rewrite <- ?app_assoc; split; [done|]; spares_old_tac
    | rewrite <- ?app_assoc; by eexists ].

(** What [udev_watch_begin] leaves alone: the descriptor, the device
    database, the debug switch, and every directory but the live
    registry; it only adds to the calls and to the log, and none of its
    calls works on an entry of the old registry. *)
Lemma udev_watch_begin_frame dev w :
  let w' := (udev_watch_begin dev w).2 in
  inotify_fd w' = inotify_fd w ∧ sysdb w' = sysdb w ∧
  debug_logging w' = debug_logging w ∧
  fs w' !! watch_old = fs w !! watch_old ∧
  (∃ l, calls w' = calls w ++ l ∧ spares_old l) ∧
  (∃ j, journal w' = journal w ++ j).
Proof.
  cbv zeta.
  assert (Hlog : ∀ e, let w' := record_log e w in
    inotify_fd w' = inotify_fd w ∧ sysdb w' = sysdb w ∧
    debug_logging w' = debug_logging w ∧
    fs w' !! watch_old = fs w !! watch_old ∧
    (∃ l, calls w' = calls w ++ l ∧ spares_old l) ∧
    (∃ j, journal w' = journal w ++ j)).
  { intros e. cbn. repeat split; try done.
    - exists []. rewrite app_nil_r. split; [done|]. intros c n Hc.
      by apply elem_of_nil in Hc.
    - by eexists. }
  destruct (decide (inotify_fd w < 0)) as [Hneg|Hfd].
  { unfold udev_watch_begin. rewrite bind_run. unfold gets at 1. cbn.
    rewrite Zltb_lt by done. apply Hlog. }
  apply Z.nlt_ge in Hfd.
  destruct (devname dev) as [node|] eqn:Hnode.
  2: { unfold udev_watch_begin, sd_device_get_devname.
       rewrite bind_run. unfold gets at 1. cbn.
       rewrite Zltb_ge, Hnode by done. apply Hlog. }
  clear Hlog.
  rewrite (udev_watch_begin_run dev node w Hfd Hnode). cbv zeta.
  destruct (log_debug_world "Adding watch on '%s'" [node] w) as [j ->].
  match goal with |- context [inotify_add_watch ?fd ?p ?k ?v] =>
    destruct (inotify_add_watch_world fd p k v) as (e1 & t1 & Hw1 & _);
    set (a := inotify_add_watch fd p k v) in *
  end.
  rewrite mkdir_parents_world.
  match goal with |- context [unlinkat ?d ?n ?v] =>
    destruct (unlinkat_world d n v) as (e3 & ->)
  end.
  unfold begin_error.
  pose proof watch_old_not_watch_dir as Hdirs.
  destruct (a.1 <? 0).
  { rewrite Hw1. frame_tac. }
  destruct ((mkdir_parents watch_dir 493 a.2).1 <? 0).
  { rewrite Hw1. frame_tac. }
  destruct (id_filename dev) as [id|].
  2: { rewrite Hw1. frame_tac. }
  match goal with |- context [symlink ?t ?d ?n ?v] =>
    destruct (symlink_world t d n v) as (e4 & ->)
  end.
  match goal with |- context [if ?c then _ else _] => destruct c end;
    rewrite Hw1; frame_tac.
Qed.

Lemma old_registry_Some w es :
  old_registry w = Some es ↔ fs w !! watch_old = Some (Dir es).
Proof.
  unfold old_registry. destruct (fs w !! watch_old) as [[]|]; naive_solver.
Qed.

Lemma readlinkat_old name w es :
  fs w !! watch_old = Some (Dir es) →
  readlinkat watch_old name PATH_MAX w =
    let w1 := record_call (SysReadlinkat watch_old name PATH_MAX) w in
    match es !! name with
    | Some (Symlink target) =>
        let len := Z.min (Z.of_nat (String.length target)) PATH_MAX in
        (len, String.substring 0 (Z.to_nat len) target, w1)
    | None => (-1, "", set_errno ENOENT w1)
    | Some _ => (-1, "", set_errno EINVAL w1)
    end.
Proof.
  intros Hd. unfold readlinkat, lookup_entry. cbn. rewrite Hd.
  by destruct (es !! name) as [[]|].
Qed.

(** The end of the loop body, from the label [unlink] on. *)
Lemma restore_entry_tail name w W es l j :
  inotify_fd W = inotify_fd w → sysdb W = sysdb w →
  debug_logging W = debug_logging w →
  fs W !! watch_old = Some (Dir es) →
  calls W = calls w ++ SysReadlinkat watch_old name PATH_MAX :: l →
  spares_old l →
  journal W = journal w ++ j →
  dot_name name = false →
  let w' := (unlinkat watch_old name W).2 in
  inotify_fd w' = inotify_fd w ∧ sysdb w' = sysdb w ∧
  debug_logging w' = debug_logging w ∧
  old_registry w' = Some (sweep1 name es) ∧
  (∃ l, calls w' = calls w ++ SysReadlinkat watch_old name PATH_MAX :: l
                     ++ [SysUnlinkat watch_old name] ∧ spares_old l) ∧
  journal w' = journal w ++ j.
Proof.
  intros Hfd Hdb Hdbg Hfs Hcalls Hsp Hj Hdot. cbv zeta.
  destruct (unlinkat_world watch_old name W) as [e ->]. cbn.
  split; [done|]. split; [done|]. split; [done|]. split.
  - apply old_registry_Some. cbn. unfold unlink_fs, sweep1.
    rewrite Hfs, Hdot.
    destruct (es !! name) as [[]|]; by rewrite ?lookup_insert_eq.
  - split; [|done]. exists l. split; [|done].
    rewrite Hcalls. by rewrite <- app_assoc.
Qed.

Lemma spares_old_nil : spares_old [].
Proof. intros c n Hc. by apply elem_of_nil in Hc. Qed.

(** One pass of the loop body over an entry that is not skipped. *)
Lemma restore_entry_spec name w es :
  old_registry w = Some es → dot_name name = false →
  let w' := (restore_entry name w).2 in
  inotify_fd w' = inotify_fd w ∧ sysdb w' = sysdb w ∧
  debug_logging w' = debug_logging w ∧
  old_registry w' = Some (sweep1 name es) ∧
  (∃ l, calls w' = calls w ++ SysReadlinkat watch_old name PATH_MAX :: l
                     ++ [SysUnlinkat watch_old name] ∧ spares_old l) ∧
  (∃ j, journal w' = journal w ++ j ∧ entry_logged es (sysdb w) name j).
Proof.
  intros Hold Hdot. cbv zeta. apply old_registry_Some in Hold.
  unfold restore_entry. rewrite Hdot. rewrite !bind_run. cbn.
  unfold restore_entry_rearm. rewrite bind_run.
  rewrite (readlinkat_old name w es Hold). cbv zeta.
  set (w1 := record_call (SysReadlinkat watch_old name PATH_MAX) w).
  assert (Hfail : ∀ code,
    let W := (log_error_errno (errno (set_errno code w1))
                "Failed to read link '/run/udev/watch.old/%s', ignoring: %m"
                [name] (set_errno code w1)).2 in
    let w' := (unlinkat watch_old name W).2 in
    inotify_fd w' = inotify_fd w ∧ sysdb w' = sysdb w ∧
    debug_logging w' = debug_logging w ∧
    old_registry w' = Some (sweep1 name es) ∧
    (∃ l, calls w' = calls w ++ SysReadlinkat watch_old name PATH_MAX :: l
                       ++ [SysUnlinkat watch_old name] ∧ spares_old l) ∧
    (∃ j, journal w' = journal w ++ j ∧ read_failure_logged name j)).
  { intros code. cbv zeta.
    edestruct (restore_entry_tail name w) as (? & ? & ? & ? & ? & Hj);
      [..|exact Hdot|]; cycle 7.
    - repeat (split; [eassumption|]). eexists. split; [exact Hj|].
      eexists. apply list_elem_of_singleton. reflexivity.
    - done.
    - done.
    - done.
    - exact Hold.
    - cbn. reflexivity.
    - apply spares_old_nil.
    - cbn. reflexivity. }
  unfold entry_logged.
  destruct (es !! name) as [[target| |]|] eqn:Hent; cbn.
  2,3,4: by apply Hfail.
  destruct (Z.of_nat (String.length target) `min` PATH_MAX <=? 0) eqn:Hz.
  { assert ((Z.of_nat (String.length target) <=? 0) = true) as ->.
    { apply Z.leb_le. apply Z.leb_le in Hz. unfold PATH_MAX in Hz. lia. }
    rewrite !bind_run. cbn.
    replace w1 with (set_errno (errno w) w1) by (by destruct w).
    apply Hfail. }
  assert ((Z.of_nat (String.length target) <=? 0) = false) as ->.
  { apply Z.leb_gt. apply Z.leb_gt in Hz. lia. }
  destruct (PATH_MAX <=? Z.of_nat (String.length target) `min` PATH_MAX) eqn:Hp.
  { assert ((PATH_MAX <=? Z.of_nat (String.length target)) = true) as ->.
    { apply Z.leb_le. apply Z.leb_le in Hp. lia. }
    cbn.
    edestruct (restore_entry_tail name w) as (? & ? & ? & ? & ? & Hj);
      [..|exact Hdot|]; cycle 7.
    - repeat (split; [eassumption|]). eexists. split; [exact Hj|].
      apply list_elem_of_singleton. reflexivity.
    - done.
    - done.
    - done.
    - exact Hold.
    - cbn. reflexivity.
    - apply spares_old_nil.
    - cbn. reflexivity. }
  assert ((PATH_MAX <=? Z.of_nat (String.length target)) = false) as ->.
  { apply Z.leb_gt. apply Z.leb_gt in Hp. lia. }
  rewrite Z.min_l by (apply Z.leb_gt in Hp; lia).
  rewrite Nat2Z.id, substring_all.
  rewrite bind_run. unfold sd_device_new_from_device_id at 1 2. cbn.
  destruct (sysdb w !! target) as [dev|] eqn:Hdev.
  2: { rewrite !bind_run. cbn.
    edestruct (restore_entry_tail name w) as (? & ? & ? & ? & ? & Hj);
      [..|exact Hdot|]; cycle 7.
    - repeat (split; [eassumption|]). eexists. split; [exact Hj|].
      apply list_elem_of_singleton. reflexivity.
    - done.
    - done.
    - done.
    - exact Hold.
    - cbn. reflexivity.
    - apply spares_old_nil.
    - cbn. reflexivity. }
  rewrite !bind_run. cbn.
  match goal with |- context [udev_watch_begin dev ?v] =>
    set (W0 := v);
    destruct (udev_watch_begin_frame dev W0)
      as (Hb1 & Hb2 & Hb3 & Hb4 & (lb & Hb5 & Hb6) & (jb & Hb7))
  end.
  assert (HW0 : inotify_fd W0 = inotify_fd w ∧ sysdb W0 = sysdb w ∧
                debug_logging W0 = debug_logging w ∧ fs W0 = fs w ∧
                calls W0 = calls w1 ∧ ∃ j0, journal W0 = journal w ++ j0).
  { subst W0. destruct (debug_logging w) eqn:Hdbg.
    - destruct (log_debug_world "Restoring old watch on '%s'"
                  [strnull (devname dev)] w1) as [j0 ->]. cbn.
      repeat split; try done. by exists j0.
    - cbn. repeat split; try done. exists []. by rewrite app_nil_r. }
  destruct HW0 as (H1 & H2 & H3 & H4 & H5 & (j0 & H6)).
  edestruct (restore_entry_tail name w (udev_watch_begin dev W0).2 es lb
               (j0 ++ jb)) as (? & ? & ? & ? & ? & Hj).
  - by rewrite Hb1.
  - by rewrite Hb2.
  - by rewrite Hb3.
  - by rewrite Hb4, H4.
  - rewrite Hb5, H5. cbn. by rewrite <- app_assoc.
  - done.
  - rewrite Hb7, H6. by rewrite <- app_assoc.
  - done.
  - repeat (split; [eassumption|]). eexists. split; [exact Hj|done].
Qed.

Lemma sweep1_lookup name es k :
  sweep1 name es !! k =
    if decide (k = name) then
      if dot_name name then es !! name
      else match es !! name with
           | Some Subdir => Some Subdir
           | _ => None
           end
    else es !! k.
Proof.
  unfold sweep1. destruct (decide (k = name)) as [->|Hne].
  - destruct (dot_name name); [done|].
    destruct (es !! name) as [[]|] eqn:He; by rewrite ?lookup_delete_eq.
  - destruct (dot_name name); [done|].
    destruct (es !! name) as [[]|]; by rewrite ?lookup_delete_ne.
Qed.

(** The old registry after the loop went over [names]: what is left is
    what was skipped, what could not be unlinked, and what the stream
    did not list. *)
Lemma sweep_lookup names es k :
  sweep names es !! k =
    match es !! k with
    | Some e =>
        if bool_decide (k ∈ names) && negb (dot_name k) && negb (is_subdir e)
        then None else Some e
    | None => None
    end.
Proof.
  unfold sweep. revert es. induction names as [|n names IH]; intros es; cbn.
  { destruct (es !! k); [|done]. by rewrite bool_decide_eq_false_2 by set_solver. }
  rewrite IH. rewrite sweep1_lookup.
  destruct (decide (k = n)) as [->|Hne].
  - rewrite (bool_decide_eq_true_2 (n ∈ n :: names)) by set_solver.
    destruct (dot_name n) eqn:Hdot; cbn.
    + destruct (es !! n); [|done]. by rewrite andb_false_r.
    + destruct (es !! n) as [[]|]; cbn; by rewrite ?andb_false_r.
  - destruct (es !! k) as [e|]; [|done].
    destruct (decide (k ∈ names)).
    + by rewrite !bool_decide_eq_true_2 by set_solver.
    + by rewrite !(bool_decide_eq_false_2 (k ∈ _)) by set_solver.
Qed.

Lemma entry_logged_ext es es' db name j j' :
  es !! name = es' !! name → (∀ x, x ∈ j → x ∈ j') →
  entry_logged es db name j → entry_logged es' db name j'.
Proof.
  unfold entry_logged, read_failure_logged. intros <- Hsub.
  destruct (es !! name) as [[target| |]|]; try naive_solver.
  destruct (_ <=? 0); [naive_solver|].
  destruct (PATH_MAX <=? _); [naive_solver|].
  destruct (db !! target); naive_solver.
Qed.

(** The loop of [udev_watch_restore] over a stream without repeated
    names. *)
Lemma restore_loop_spec names : ∀ w es,
  old_registry w = Some es → NoDup names →
  let w' := (foreach_dirent_all restore_entry names w).2 in
  inotify_fd w' = inotify_fd w ∧ sysdb w' = sysdb w ∧
  debug_logging w' = debug_logging w ∧
  old_registry w' = Some (sweep names es) ∧
  ∃ l j, calls w' = calls w ++ l ∧ journal w' = journal w ++ j ∧
    (∀ n, n ∈ names → dot_name n = false →
       SysUnlinkat watch_old n ∈ l ∧ entry_logged es (sysdb w) n j) ∧
    (∀ c n, c ∈ l → call_entry c = Some (watch_old, n) →
       n ∈ names ∧ dot_name n = false).
Proof.
  induction names as [|n0 names IH]; intros w es Hold Hnd; cbv zeta.
  { cbn. repeat split; try done. exists [], []. rewrite !app_nil_r.
    repeat split; try done; intros; exfalso; set_solver. }
  apply NoDup_cons in Hnd as [Hn0 Hnd].
  cbn [foreach_dirent_all]. rewrite !bind_run. cbn [modify fst snd].
  set (w0 := set_errno 0 w).
  assert (Hold0 : old_registry w0 = Some es) by done.
  assert (Hbody : let w1 := (restore_entry n0 w0).2 in
    inotify_fd w1 = inotify_fd w ∧ sysdb w1 = sysdb w ∧
    debug_logging w1 = debug_logging w ∧
    old_registry w1 = Some (sweep1 n0 es) ∧
    ∃ l j, calls w1 = calls w ++ l ∧ journal w1 = journal w ++ j ∧
      (dot_name n0 = false →
         SysUnlinkat watch_old n0 ∈ l ∧ entry_logged es (sysdb w) n0 j) ∧
      (∀ c n, c ∈ l → call_entry c = Some (watch_old, n) →
         n = n0 ∧ dot_name n = false)).
  { cbv zeta. destruct (dot_name n0) eqn:Hdot.
    - unfold restore_entry, sweep1. rewrite Hdot. cbn.
      repeat split; try done. exists [], []. rewrite !app_nil_r.
      repeat split; try done. all: intros; exfalso; set_solver.
    - destruct (restore_entry_spec n0 w0 es Hold0 Hdot)
        as (H1 & H2 & H3 & H4 & (l & H5 & H6) & (j & H7 & H8)).
      repeat split; try done.
      exists (SysReadlinkat watch_old n0 PATH_MAX :: l
                ++ [SysUnlinkat watch_old n0]), j.
      repeat split; try done.
      + set_solver.
      + apply elem_of_cons in H as [->|H]; [by injection H0|].
        apply elem_of_app in H as [H|H].
        * by apply H6 in H0.
        * apply list_elem_of_singleton in H as ->. by injection H0.
      + apply elem_of_cons in H as [->|H]; [injection H0 as <-; done|].
        apply elem_of_app in H as [H|H].
        * by apply H6 in H0.
        * apply list_elem_of_singleton in H as ->. injection H0 as <-. done. }
  cbv zeta in Hbody.
  destruct Hbody as (B1 & B2 & B3 & B4 & (l1 & j1 & B5 & B6 & B7 & B8)).
  destruct (IH (restore_entry n0 w0).2 (sweep1 n0 es) B4 Hnd)
    as (I1 & I2 & I3 & I4 & (l2 & j2 & I5 & I6 & I7 & I8)).
  split; [by rewrite I1|]. split; [by rewrite I2|]. split; [by rewrite I3|].
  split; [done|].
  exists (l1 ++ l2), (j1 ++ j2).
  split; [by rewrite I5, B5, app_assoc|].
  split; [by rewrite I6, B6, app_assoc|].
  split.
  - intros n Hn Hdot. apply elem_of_cons in Hn as [->|Hn].
    + destruct (B7 Hdot) as [Hu Hl]. split; [set_solver|].
      eapply entry_logged_ext; [done| |exact Hl]. set_solver.
    + destruct (I7 n Hn Hdot) as [Hu Hl]. split; [set_solver|].
      rewrite B2 in Hl.
      eapply entry_logged_ext; [| |exact Hl]; [|set_solver].
      rewrite sweep1_lookup. rewrite decide_False; [done|].
      intros ->. done.
  - intros c n Hc Hce. apply elem_of_app in Hc as [Hc|Hc].
    + destruct (B8 c n Hc Hce) as [-> ?]. set_solver.
    + destruct (I8 c n Hc Hce). set_solver.
Qed.

(** ** [udev_watch_restore] on a registry that can be relocated *)

Lemma foreach_dirent_all_errno body names w :
  foreach_dirent_all body names (set_errno 0 w)
  = foreach_dirent_all body names w.
Proof. by destruct names. Qed.

Lemma udev_watch_restore_run w es :
  0 ≤ inotify_fd w → fs w !! watch_dir = Some (Dir es) → old_slot_free w →
  let w1 := set_fs (<[watch_old := Dir es]> (delete watch_dir (fs w)))
              (record_call (SysRename watch_dir watch_old) w) in
  let w2 := record_call (SysOpendir watch_old) w1 in
  let w3 := (foreach_dirent_all restore_entry (map_to_list es).*1 w2).2 in
  old_registry w2 = Some es ∧
  udev_watch_restore w = (0, (rmdir watch_old (closedir watch_old w3).2).2).
Proof.
  intros Hfd Hdir Hfree. cbv zeta. split.
  { apply old_registry_Some. cbn. by rewrite lookup_insert_eq. }
  unfold udev_watch_restore. rewrite bind_run. unfold gets at 1. cbn.
  rewrite Zltb_ge by done. rewrite bind_run.
  assert (Hren : rename watch_dir watch_old w =
            (0, set_fs (<[watch_old := Dir es]> (delete watch_dir (fs w)))
                  (record_call (SysRename watch_dir watch_old) w))).
  { unfold rename. cbn. rewrite Hdir.
    rewrite (decide_False (P := watch_dir = watch_old)) by discriminate.
    destruct Hfree as [->| ->]; [done|]. by rewrite decide_True. }
  rewrite Hren. cbn. rewrite bind_run.
  unfold opendir at 1 2. cbn. rewrite lookup_insert_eq. cbn.
  unfold dirents. rewrite !bind_run.
  unfold mret, M_ret, modify, closedir. cbn [fst snd].
  rewrite !foreach_dirent_all_errno.
  by destruct (rmdir _ _).
Qed.

(** The result and the world after a restore that could relocate the
    registry [es]: what the loop did, and whether the old directory went
    away. *)
Lemma udev_watch_restore_spec w es :
  0 ≤ inotify_fd w → fs w !! watch_dir = Some (Dir es) → old_slot_free w →
  let w' := (udev_watch_restore w).2 in
  let rest := sweep (map_to_list es).*1 es in
  (udev_watch_restore w).1 = 0 ∧
  fs w' !! watch_old = (if decide (rest = ∅) then None else Some (Dir rest)) ∧
  (rest ≠ ∅ → errno w' = ENOTEMPTY) ∧
  sysdb w' = sysdb w ∧ inotify_fd w' = inotify_fd w ∧
  ∃ l j,
    calls w' = calls w ++ [SysRename watch_dir watch_old; SysOpendir watch_old]
                 ++ l ++ [SysClosedir watch_old; SysRmdir watch_old] ∧
    journal w' = journal w ++ j ∧
    (∀ n e, es !! n = Some e → dot_name n = false →
       SysUnlinkat watch_old n ∈ l ∧ entry_logged es (sysdb w) n j) ∧
    (∀ c n, c ∈ l → call_entry c = Some (watch_old, n) →
       is_Some (es !! n) ∧ dot_name n = false).
Proof.
  intros Hfd Hdir Hfree. cbv zeta.
  destruct (udev_watch_restore_run w es Hfd Hdir Hfree) as [Hold ->].
  match type of Hold with old_registry ?v = _ => set (w2 := v) in * end.
  destruct (restore_loop_spec (map_to_list es).*1 w2 es Hold
              (NoDup_fst_map_to_list es))
    as (L1 & L2 & L3 & L4 & (l & j & L5 & L6 & L7 & L8)).
  set (w3 := (foreach_dirent_all restore_entry (map_to_list es).*1 w2).2) in *.
  apply old_registry_Some in L4.
  cbn [fst snd]. split; [done|].
  unfold closedir, rmdir. cbn. rewrite L4.
  assert (Hkeys : ∀ n, n ∈ (map_to_list es).*1 ↔ is_Some (es !! n)).
  { intros n. rewrite list_elem_of_fmap. split.
    - intros [[k e] [-> Hin]]. apply elem_of_map_to_list in Hin. by eexists.
    - intros [e He]. exists (n, e). split; [done|].
      by apply elem_of_map_to_list. }
  assert (Hrest :
    ∃ l j,
      calls w3 ++ [SysClosedir watch_old; SysRmdir watch_old]
        = calls w ++ [SysRename watch_dir watch_old; SysOpendir watch_old]
            ++ l ++ [SysClosedir watch_old; SysRmdir watch_old] ∧
      journal w3 = journal w ++ j ∧
      (∀ n e, es !! n = Some e → dot_name n = false →
         SysUnlinkat watch_old n ∈ l ∧ entry_logged es (sysdb w) n j) ∧
      (∀ c n, c ∈ l → call_entry c = Some (watch_old, n) →
         is_Some (es !! n) ∧ dot_name n = false)).
  { exists l, j. split; [|split; [|split]].
    - rewrite L5. cbn. rewrite <- !app_assoc. done.
    - by rewrite L6.
    - intros n e He Hdot. apply (L7 n); [|done]. apply Hkeys. by eexists.
    - intros c n Hc Hce. destruct (L8 c n Hc Hce) as [Hin ?].
      split; [by apply Hkeys|done]. }
  destruct (decide (sweep (map_to_list es).*1 es = ∅)) as [Hemp|Hemp]; cbn.
  - split; [by rewrite lookup_delete_eq|]. split; [done|].
    split; [by rewrite L2|]. split; [by rewrite L1|].
    destruct Hrest as (l' & j' & R1 & R2 & R3 & R4). exists l', j'.
    rewrite <- app_assoc. cbn. done.
  - split; [done|]. split; [done|].
    split; [by rewrite L2|]. split; [by rewrite L1|].
    destruct Hrest as (l' & j' & R1 & R2 & R3 & R4). exists l', j'.
    rewrite <- app_assoc. cbn. done.
Qed.

Lemma elem_of_keys (es : gmap string inode) (n : string) :
  n ∈ (map_to_list es).*1 ↔ is_Some (es !! n).
Proof.
  rewrite list_elem_of_fmap. split.
  - intros [[k e] [-> Hin]]. apply elem_of_map_to_list in Hin. by eexists.
  - intros [e He]. exists (n, e). split; [done|]. by apply elem_of_map_to_list.
Qed.

Lemma sweep_keys_lookup (es : gmap string inode) (n : string) :
  sweep (map_to_list es).*1 es !! n =
    match es !! n with
    | Some e => if negb (dot_name n) && negb (is_subdir e) then None else Some e
    | None => None
    end.
Proof.
  rewrite sweep_lookup. destruct (es !! n) as [e|] eqn:He; [|done].
  rewrite bool_decide_eq_true_2; [done|]. apply elem_of_keys. by eexists.
Qed.

Lemma sweep_keys_empty (es : gmap string inode) :
  sweep (map_to_list es).*1 es = ∅ ↔
  ∀ n e, es !! n = Some e → dot_name n = false ∧ is_subdir e = false.
Proof.
  split.
  - intros Hemp n e He.
    pose proof (sweep_keys_lookup es n) as Hl.
    rewrite Hemp, lookup_empty, He in Hl.
    destruct (dot_name n), (is_subdir e); done.
  - intros Hall. apply map_eq. intros n.
    rewrite sweep_keys_lookup, lookup_empty.
    destruct (es !! n) as [e|] eqn:He; [|done].
    by destruct (Hall n e He) as [-> ->].
Qed.

(** ** C3: the old directory after restore *)

(** C3 (as stated, refuted): after restore on the stale registry, which
    returns 0, the old directory is still there. *)
Lemma old_directory_gone_refuted :
  (udev_watch_restore stale).1 = 0 ∧ ¬ old_directory_gone stale.
Proof.
  split; [by vm_compute|]. unfold old_directory_gone. intros H.
  vm_compute in H. discriminate H.
Qed.

(** C3 (amended): after a restore that could relocate the live registry
    (it then opens the old directory, goes through it and returns 0),
    the old directory does not exist exactly when every entry it held
    could be unlinked: no name begins with a dot and no entry is a
    directory. *)
Theorem restore_removes_old_directory (w : World) (es : gmap string inode) :
  0 ≤ inotify_fd w → fs w !! watch_dir = Some (Dir es) → old_slot_free w →
  (udev_watch_restore w).1 = 0 ∧
  (fs (udev_watch_restore w).2 !! watch_old = None ↔
   ∀ n e, es !! n = Some e → dot_name n = false ∧ is_subdir e = false).
Proof.
  intros Hfd Hdir Hfree.
  destruct (udev_watch_restore_spec w es Hfd Hdir Hfree) as (Hr & Hold & _).
  split; [done|]. rewrite Hold. rewrite <- sweep_keys_empty.
  by destruct (decide _).
Qed.

Lemma tidy_entries_unlinkable n e :
  tidy_entries !! n = Some e → dot_name n = false ∧ is_subdir e = false.
Proof.
  unfold tidy_entries. intros H.
  apply lookup_insert_Some in H as [[<- <-]|[_ H]]; [done|].
  apply lookup_singleton_Some in H as [<- <-]. done.
Qed.

Lemma restore_removes_old_directory_witness :
  0 ≤ inotify_fd tidy ∧ fs tidy !! watch_dir = Some (Dir tidy_entries) ∧
  old_slot_free tidy ∧
  (udev_watch_restore tidy).1 = 0 ∧
  fs (udev_watch_restore tidy).2 !! watch_old = None.
Proof.
  assert (H1 : 0 ≤ inotify_fd tidy) by (by vm_compute).
  assert (H2 : fs tidy !! watch_dir = Some (Dir tidy_entries))
    by (vm_compute; reflexivity).
  assert (H3 : old_slot_free tidy) by (left; vm_compute; reflexivity).
  destruct (restore_removes_old_directory tidy tidy_entries H1 H2 H3)
    as [Hr Hiff].
  split; [exact H1|]. split; [exact H2|]. split; [exact H3|].
  split; [exact Hr|]. apply Hiff. exact tidy_entries_unlinkable.
Defined.

(** ** C5: every entry is dealt with *)

(** C5 (as stated, refuted): an entry of the old registry that is a
    directory is read in vain, reported and handed to [unlinkat], which
    cannot remove a directory; it is still there when restore is
    over. *)
Lemma restore_removes_every_entry_refuted :
  ¬ restore_removes_every_entry nested nested_entries.
Proof.
  intros H.
  assert (He : nested_entries !! "7" = Some Subdir)
    by (vm_compute; reflexivity).
  specialize (H "7" Subdir He eq_refl).
  vm_compute in H. discriminate H.
Qed.

(** C5 (amended): in a restore that could relocate the live registry,
    for every entry whose name does not begin with a dot, whatever the
    other entries are: [unlinkat] is called on the entry; if its target
    cannot be read, is truncated or does not resolve to a device, the
    log receives the message of that failure; afterwards the entry is
    gone from the old directory, unless it is a directory, which
    [unlinkat] cannot remove and which stays.  Restore returns 0. *)
Theorem restore_unlinks_every_entry (w : World) (es : gmap string inode)
    (name : string) (e : inode) :
  0 ≤ inotify_fd w → fs w !! watch_dir = Some (Dir es) → old_slot_free w →
  es !! name = Some e → dot_name name = false →
  let w' := (udev_watch_restore w).2 in
  (udev_watch_restore w).1 = 0 ∧
  ∃ l j,
    calls w' = calls w ++ l ∧ journal w' = journal w ++ j ∧
    SysUnlinkat watch_old name ∈ l ∧
    entry_logged es (sysdb w) name j ∧
    dir_entry (fs w') watch_old name = (if is_subdir e then Some e else None).
Proof.
  intros Hfd Hdir Hfree He Hdot. cbv zeta.
  destruct (udev_watch_restore_spec w es Hfd Hdir Hfree)
    as (Hr & Hold & _ & _ & _ & (l & j & Hc & Hj & Hall & _)).
  split; [done|].
  destruct (Hall name e He Hdot) as [Hun Hlog].
  eexists _, j. split; [exact Hc|]. split; [exact Hj|].
  split; [set_solver|]. split; [done|].
  pose proof (sweep_keys_lookup es name) as Hrest.
  rewrite He, Hdot in Hrest. cbn in Hrest.
  unfold dir_entry. rewrite Hold.
  destruct (decide _) as [Hemp|_].
  - rewrite Hemp, lookup_empty in Hrest. by destruct (is_subdir e).
  - rewrite Hrest. by destruct (is_subdir e).
Qed.

Lemma restore_unlinks_every_entry_witness :
  0 ≤ inotify_fd nested ∧ fs nested !! watch_dir = Some (Dir nested_entries) ∧
  old_slot_free nested ∧
  nested_entries !! "1" = Some (Symlink "b8:0") ∧ dot_name "1" = false ∧
  nested_entries !! "7" = Some Subdir ∧ dot_name "7" = false ∧
  (∃ l, calls (udev_watch_restore nested).2 = calls nested ++ l ∧
        SysUnlinkat watch_old "1" ∈ l ∧ SysUnlinkat watch_old "7" ∈ l) ∧
  dir_entry (fs (udev_watch_restore nested).2) watch_old "1" = None ∧
  dir_entry (fs (udev_watch_restore nested).2) watch_old "7" = Some Subdir.
Proof.
  assert (H1 : 0 ≤ inotify_fd nested) by (by vm_compute).
  assert (H2 : fs nested !! watch_dir = Some (Dir nested_entries))
    by (vm_compute; reflexivity).
  assert (H3 : old_slot_free nested) by (left; vm_compute; reflexivity).
  assert (H4 : nested_entries !! "1" = Some (Symlink "b8:0"))
    by (vm_compute; reflexivity).
  assert (H5 : dot_name "1" = false) by reflexivity.
  assert (H6 : nested_entries !! "7" = Some Subdir)
    by (vm_compute; reflexivity).
  assert (H7 : dot_name "7" = false) by reflexivity.
  destruct (restore_unlinks_every_entry nested nested_entries "1" _
              H1 H2 H3 H4 H5) as (_ & l & j & Hc & _ & Hun & _ & Hgone).
  destruct (restore_unlinks_every_entry nested nested_entries "7" _
              H1 H2 H3 H6 H7) as (_ & l' & j' & Hc' & _ & Hun' & _ & Hstays).
  split; [exact H1|]. split; [exact H2|]. split; [exact H3|].
  split; [exact H4|]. split; [exact H5|]. split; [exact H6|].
  split; [exact H7|].
  assert (Hl : l' = l).
  { rewrite Hc in Hc'. exact (eq_sym (app_inv_head _ _ _ Hc')). }
  subst l'.
  split; [exists l; split; [exact Hc|split; [exact Hun|exact Hun']]|].
  split; [exact Hgone|exact Hstays].
Defined.

(** ** C10: entries whose name begins with a dot *)

(** C10: the loop body does nothing at all for a name that begins with
    a dot; in a restore that could relocate the live registry, an entry
    with such a name is still in the old directory afterwards, none of
    the calls issued reads or unlinks it, and the final [rmdir] fails
    with [ENOTEMPTY], so that the old directory survives the restore,
    which returns 0 all the same. *)
Theorem restore_skips_dot_entries (w : World) (es : gmap string inode)
    (name : string) (e : inode) :
  0 ≤ inotify_fd w → fs w !! watch_dir = Some (Dir es) → old_slot_free w →
  es !! name = Some e → dot_name name = true →
  let w' := (udev_watch_restore w).2 in
  (∀ v, restore_entry name v = (tt, v)) ∧
  (udev_watch_restore w).1 = 0 ∧
  dir_entry (fs w') watch_old name = Some e ∧
  errno w' = ENOTEMPTY ∧
  ∃ l, calls w' = calls w ++ l ∧
       ∀ c, c ∈ l → call_entry c ≠ Some (watch_old, name).
Proof.
  intros Hfd Hdir Hfree He Hdot. cbv zeta.
  destruct (udev_watch_restore_spec w es Hfd Hdir Hfree)
    as (Hr & Hold & Herr & _ & _ & (l & j & Hc & _ & _ & Hsp)).
  assert (Hleft : sweep (map_to_list es).*1 es !! name = Some e).
  { by rewrite sweep_keys_lookup, He, Hdot. }
  assert (Hne : sweep (map_to_list es).*1 es ≠ ∅).
  { intros Hemp. by rewrite Hemp, lookup_empty in Hleft. }
  split. { intros v. unfold restore_entry. by rewrite Hdot. }
  split; [done|]. split.
  { unfold dir_entry. rewrite Hold. by rewrite decide_False. }
  split; [by apply Herr|].
  eexists. split; [exact Hc|].
  intros c Hin Hce. cbn in Hin.
  apply elem_of_cons in Hin as [->|Hin]; [done|].
  apply elem_of_cons in Hin as [->|Hin]; [done|].
  apply elem_of_app in Hin as [Hin|Hin].
  - destruct (Hsp c name Hin Hce) as [_ Hnd]. congruence.
  - apply elem_of_cons in Hin as [->|Hin]; [done|].
    apply list_elem_of_singleton in Hin as ->. done.
Qed.

Lemma restore_skips_dot_entries_witness :
  0 ≤ inotify_fd stale ∧ fs stale !! watch_dir = Some (Dir stale_entries) ∧
  old_slot_free stale ∧
  stale_entries !! ".tmp" = Some Regular ∧ dot_name ".tmp" = true ∧
  (udev_watch_restore stale).1 = 0 ∧
  dir_entry (fs (udev_watch_restore stale).2) watch_old ".tmp" = Some Regular ∧
  errno (udev_watch_restore stale).2 = ENOTEMPTY.
Proof.
  assert (H1 : 0 ≤ inotify_fd stale) by (by vm_compute).
  assert (H2 : fs stale !! watch_dir = Some (Dir stale_entries))
    by (vm_compute; reflexivity).
  assert (H3 : old_slot_free stale) by (left; vm_compute; reflexivity).
  assert (H4 : stale_entries !! ".tmp" = Some Regular)
    by (vm_compute; reflexivity).
  assert (H5 : dot_name ".tmp" = true) by reflexivity.
  destruct (restore_skips_dot_entries stale stale_entries ".tmp" _
              H1 H2 H3 H4 H5) as (_ & Hr & Hent & Herr & _).
  split; [exact H1|]. split; [exact H2|]. split; [exact H3|].
  split; [exact H4|]. split; [exact H5|].
  exact (conj Hr (conj Hent Herr)).
Defined.


(** * Further properties of the lifecycle *)

(** ** [udev_watch_init] *)

(** The two ways [udev_watch_init] can go. *)
Lemma udev_watch_init_run (w : World) :
  let fd := fresh (dom (fdtable w)) in
  let w0 := record_call (SysInotifyInit1 IN_CLOEXEC) w in
  udev_watch_init w =
    if (fd_limit w <=? fd)%N
    then (- EMFILE,
          record_log (init_failed EMFILE)
            (set_inotify_fd (-1) (set_errno EMFILE w0)))
    else (Z.of_N fd,
          set_inotify_fd (Z.of_N fd)
            (set_fdtable (<[fd := Inotify true ∅ 1]> (fdtable w)) w0)).
Proof.
  cbv zeta. unfold udev_watch_init.
  rewrite bind_run, inotify_init1_cloexec. cbv zeta.
  destruct (fd_limit w <=? fresh (dom (fdtable w)))%N; cbn; [done|].
  by rewrite Zltb_ge by lia.
Qed.

(** X1: when the kernel refuses a new descriptor, [udev_watch_init]
    returns the negated [errno], reports it, and stores -1 in
    [inotify_fd], whatever was there before; the four other operations
    then fail with [-EINVAL]. *)
Theorem udev_watch_init_failure (w : World) (dev : sd_device) (wd : Z) :
  (fd_limit w ≤ fresh (dom (fdtable w)))%N →
  let '(r, w') := udev_watch_init w in
  r = - EMFILE ∧ inotify_fd w' = -1 ∧ fdtable w' = fdtable w ∧
  journal w' = journal w ++ [init_failed EMFILE] ∧
  (udev_watch_restore w').1 = - EINVAL ∧
  (udev_watch_begin dev w').1 = (- EINVAL, dev) ∧
  (udev_watch_end dev w').1 = (- EINVAL, dev) ∧
  (udev_watch_lookup wd w').1 = (- EINVAL, None).
Proof.
  intros Hlim. apply N.leb_le in Hlim.
  rewrite udev_watch_init_run. cbv zeta. rewrite Hlim.
  unfold udev_watch_restore, udev_watch_begin, udev_watch_end,
    udev_watch_lookup.
  rewrite !bind_run. cbn. done.
Qed.

Lemma udev_watch_init_failure_witness :
  (fd_limit crowded ≤ fresh (dom (fdtable crowded)))%N ∧
  (udev_watch_init crowded).1 = - EMFILE ∧
  inotify_fd (udev_watch_init crowded).2 = -1.
Proof.
  assert (H : (fd_limit crowded ≤ fresh (dom (fdtable crowded)))%N)
    by (by vm_compute).
  split; [exact H|].
  pose proof (udev_watch_init_failure crowded sda 1 H) as Hi.
  destruct (udev_watch_init crowded) as [r w'].
  destruct Hi as (Hr & Hfd & _). split; [exact Hr|exact Hfd].
Defined.

(** X2: [udev_watch_init] does not look at the descriptor it replaces:
    a second successful call stores a descriptor different from the
    first, and the first stays open with its instance as it was. *)
Theorem udev_watch_init_again (w : World) :
  let i1 := udev_watch_init w in
  let i2 := udev_watch_init i1.2 in
  0 ≤ i1.1 → 0 ≤ i2.1 →
  i2.1 ≠ i1.1 ∧ inotify_fd i1.2 = i1.1 ∧ inotify_fd i2.2 = i2.1 ∧
  is_Some (lookup_fd i1.1 i1.2) ∧ lookup_fd i1.1 i2.2 = lookup_fd i1.1 i1.2.
Proof.
  cbv zeta. rewrite (udev_watch_init_run w). cbv zeta.
  destruct (fd_limit w <=? fresh (dom (fdtable w)))%N eqn:H1; cbn [fst snd].
  { intros Hr. unfold EMFILE in Hr. lia. }
  set (fd1 := fresh (dom (fdtable w))).
  rewrite udev_watch_init_run. cbv zeta. cbn.
  set (t1 := <[fd1 := Inotify true ∅ 1]> (fdtable w)).
  destruct (fd_limit w <=? fresh (dom t1))%N eqn:H2; cbn.
  { intros _ Hr. unfold EMFILE in Hr. lia. }
  intros _ _.
  assert (Hne : fresh (dom t1) ≠ fd1).
  { intros Heq. apply (is_fresh (dom t1)). rewrite Heq.
    apply elem_of_dom. subst t1. rewrite lookup_insert_eq. by eexists. }
  split; [lia|]. split; [done|]. split; [done|].
  unfold lookup_fd. cbn. rewrite Zltb_ge by lia. rewrite N2Z.id.
  rewrite lookup_insert_ne by exact Hne.
  split; [|done]. subst t1. rewrite lookup_insert_eq. by eexists.
Qed.

Lemma udev_watch_init_again_witness :
  0 ≤ (udev_watch_init boot).1 ∧
  0 ≤ (udev_watch_init (udev_watch_init boot).2).1 ∧
  (udev_watch_init (udev_watch_init boot).2).1 ≠ (udev_watch_init boot).1.
Proof.
  assert (H1 : 0 ≤ (udev_watch_init boot).1) by (by vm_compute).
  assert (H2 : 0 ≤ (udev_watch_init (udev_watch_init boot).2).1)
    by (by vm_compute).
  split; [exact H1|]. split; [exact H2|].
  exact (proj1 (udev_watch_init_again boot H1 H2)).
Defined.

(** ** [udev_watch_lookup] *)

(** The run of [udev_watch_lookup] on a non-negative handle with the
    channel initialised, by what [readlink] finds. *)
Lemma udev_watch_lookup_run (w : World) (wd : Z) :
  0 ≤ inotify_fd w → 0 ≤ wd →
  let w1 := record_call (SysReadlinkat watch_dir (watch_name wd) PATH_MAX) w in
  udev_watch_lookup wd w =
    match fs w !! watch_dir with
    | None => ((0, None), set_errno ENOENT w1)
    | Some NotDir =>
        ((- ENOTDIR, None),
         record_log (read_link_failed ENOTDIR wd) (set_errno ENOTDIR w1))
    | Some (Dir es) =>
        match es !! watch_name wd with
        | None => ((0, None), set_errno ENOENT w1)
        | Some (Symlink target) =>
            if Z.of_nat (String.length target) <=? 0 then
              if negb (errno w =? ENOENT)
              then ((- Z.abs (errno w), None),
                    record_log (read_link_failed (errno w) wd) w1)
              else ((0, None), w1)
            else if PATH_MAX <=? Z.of_nat (String.length target) then
              ((- ENAMETOOLONG, None), record_log (link_truncated wd) w1)
            else
              match sysdb w !! target with
              | Some dev => ((0, Some dev), w1)
              | None => ((- ENODEV, None), record_log (no_such_device target) w1)
              end
        | Some _ =>
            ((- EINVAL, None),
             record_log (read_link_failed EINVAL wd) (set_errno EINVAL w1))
        end
    end.
Proof.
  intros Hfd Hwd. cbv zeta.
  unfold udev_watch_lookup, readlinkat, lookup_entry,
    sd_device_new_from_device_id.
  unfold_monad. rewrite !Zltb_ge by done. cbn.
  destruct (fs w !! watch_dir) as [[es|]|]; [|done|done].
  destruct (es !! watch_name wd) as [[target| |]|]; [|done|done|done].
  destruct (Z.of_nat (String.length target) <=? 0) eqn:Hz.
  { apply Z.leb_le in Hz. rewrite Z.min_l by (unfold PATH_MAX; lia).
    rewrite (proj2 (Z.leb_le _ _) Hz). cbn. by destruct (errno w =? ENOENT). }
  apply Z.leb_gt in Hz.
  destruct (PATH_MAX <=? Z.of_nat (String.length target)) eqn:Hp.
  { apply Z.leb_le in Hp. rewrite Z.min_r by done. cbn. done. }
  apply Z.leb_gt in Hp. rewrite Z.min_l by lia.
  rewrite (proj2 (Z.leb_gt _ _) Hz), (proj2 (Z.leb_gt _ _) Hp).
  rewrite Nat2Z.id, substring_all. cbn.
  by destruct (sysdb w !! target).
Qed.

(** X3: a negative handle is refused with [-EINVAL] before anything is
    read: no call is issued and only the log changes. *)
Theorem udev_watch_lookup_invalid_handle (w : World) (wd : Z) :
  0 ≤ inotify_fd w → wd < 0 →
  udev_watch_lookup wd w = ((- EINVAL, None), record_log invalid_handle w).
Proof.
  intros Hfd Hwd. unfold udev_watch_lookup. unfold_monad.
  by rewrite Zltb_ge, Zltb_lt by done.
Qed.

Lemma udev_watch_lookup_invalid_handle_witness :
  0 ≤ inotify_fd ready ∧ -1 < 0 ∧
  udev_watch_lookup (-1) ready
  = ((- EINVAL, None), record_log invalid_handle ready).
Proof.
  assert (H1 : 0 ≤ inotify_fd ready) by (by vm_compute).
  assert (H2 : -1 < 0) by lia.
  split; [exact H1|]. split; [exact H2|].
  exact (udev_watch_lookup_invalid_handle ready (-1) H1 H2).
Defined.

(** X4: a registry entry that is there but cannot be read as a link, or
    a registry path that is no directory, is an error and not a "not
    found": lookup returns the negated [errno] of [readlink], no device,
    and reports the failure. *)
Theorem udev_watch_lookup_unreadable (w : World) (wd : Z) :
  0 ≤ inotify_fd w → 0 ≤ wd →
  (fs w !! watch_dir = Some NotDir ∨
   ∃ e, registry_entry w wd = Some e ∧ ∀ target, e ≠ Symlink target) →
  let '((r, dev), w') := udev_watch_lookup wd w in
  ∃ code, (code = ENOTDIR ∨ code = EINVAL) ∧
    r = - code ∧ dev = None ∧ errno w' = code ∧
    journal w' = journal w ++ [read_link_failed code wd].
Proof.
  intros Hfd Hwd Hbad.
  rewrite (udev_watch_lookup_run w wd Hfd Hwd). cbv zeta.
  unfold registry_entry in Hbad.
  destruct (fs w !! watch_dir) as [[es|]|].
  - destruct Hbad as [?|(e & He & Hne)]; [done|]. rewrite He.
    destruct e as [target| |]; [by destruct (Hne target)| |];
      exists EINVAL; by repeat split; try right.
  - exists ENOTDIR. by repeat split; try left.
  - by destruct Hbad as [?|(e & He & _)].
Qed.

Lemma udev_watch_lookup_unreadable_witness :
  0 ≤ inotify_fd garbled ∧ 0 ≤ 4 ∧
  registry_entry garbled 4 = Some Regular ∧
  let '((r, dev), w') := udev_watch_lookup 4 garbled in
  ∃ code, (code = ENOTDIR ∨ code = EINVAL) ∧
    r = - code ∧ dev = None ∧ errno w' = code ∧
    journal w' = journal garbled ++ [read_link_failed code 4].
Proof.
  assert (H1 : 0 ≤ inotify_fd garbled) by (by vm_compute).
  assert (H2 : 0 ≤ 4) by lia.
  assert (H3 : registry_entry garbled 4 = Some Regular)
    by (vm_compute; reflexivity).
  split; [exact H1|]. split; [exact H2|]. split; [exact H3|].
  apply (udev_watch_lookup_unreadable garbled 4 H1 H2).
  right. exists Regular. split; [exact H3|]. intros t. discriminate.
Defined.

(** X5: lookup hands out a device exactly when the registry links the
    handle to an identifier that fits the buffer and that the device
    database knows, and then it is that device; a device never comes
    with an error code. *)
Theorem udev_watch_lookup_sound (w : World) (wd r : Z) (dev : sd_device) :
  (udev_watch_lookup wd w).1 = (r, Some dev) ↔
  r = 0 ∧ 0 ≤ inotify_fd w ∧ 0 ≤ wd ∧
  ∃ target, registry_entry w wd = Some (Symlink target) ∧
    0 < Z.of_nat (String.length target) < PATH_MAX ∧
    sysdb w !! target = Some dev.
Proof.
  destruct (Z.lt_ge_cases (inotify_fd w) 0) as [Hfd|Hfd].
  { unfold udev_watch_lookup. unfold_monad. rewrite Zltb_lt by done. cbn.
    split; [done|lia]. }
  destruct (Z.lt_ge_cases wd 0) as [Hwd|Hwd].
  { unfold udev_watch_lookup. unfold_monad.
    rewrite Zltb_ge, Zltb_lt by done. cbn. split; [done|lia]. }
  rewrite (udev_watch_lookup_run w wd Hfd Hwd). cbv zeta.
  unfold registry_entry.
  destruct (fs w !! watch_dir) as [[es|]|]; cbn;
    [|split; [done|by intros (_ & _ & _ & t & ? & _)]..].
  destruct (es !! watch_name wd) as [[target| |]|]; cbn;
    [|split; [done|by intros (_ & _ & _ & t & ? & _)]..].
  destruct (Z.of_nat (String.length target) <=? 0) eqn:Hz.
  { apply Z.leb_le in Hz. destruct (negb (errno w =? ENOENT)); cbn;
      (split; [done|]); intros (_ & _ & _ & t & [= <-] & ? & _); lia. }
  apply Z.leb_gt in Hz.
  destruct (PATH_MAX <=? Z.of_nat (String.length target)) eqn:Hp.
  { apply Z.leb_le in Hp. cbn. split; [done|].
    intros (_ & _ & _ & t & [= <-] & ? & _); lia. }
  apply Z.leb_gt in Hp.
  destruct (sysdb w !! target) as [d|] eqn:Hdb; cbn.
  - split.
    + intros [= <- <-]. repeat split; try done. by exists target.
    + intros (-> & _ & _ & t & [= <-] & _ & Ht). congruence.
  - split; [done|]. intros (_ & _ & _ & t & [= <-] & _ & Ht). congruence.
Qed.

(** X6: lookup only reads: whatever it returns, the file system, the
    inotify instances, the channel and the device database are as
    before, and it has issued at most one call, the [readlink] of the
    entry of the handle. *)
Theorem udev_watch_lookup_read_only (w : World) (wd : Z) :
  let w' := (udev_watch_lookup wd w).2 in
  same_state w w' ∧
  (calls w' = calls w ∨
   calls w' = calls w ++ [SysReadlinkat watch_dir (watch_name wd) PATH_MAX]).
Proof.
  cbv zeta. unfold same_state.
  destruct (Z.lt_ge_cases (inotify_fd w) 0) as [Hfd|Hfd].
  { unfold udev_watch_lookup. unfold_monad. rewrite Zltb_lt by done. cbn.
    split; [done|by left]. }
  destruct (Z.lt_ge_cases wd 0) as [Hwd|Hwd].
  { unfold udev_watch_lookup. unfold_monad.
    rewrite Zltb_ge, Zltb_lt by done. cbn. split; [done|by left]. }
  rewrite (udev_watch_lookup_run w wd Hfd Hwd). cbv zeta.
  repeat case_match; cbn; (split; [done|by right]).
Qed.

(** ** [udev_watch_begin] *)

Lemma inotify_add_watch_ok fd path mask ino i w :
  0 ≤ fd → fdtable w !! Z.to_N fd = Some i → devnodes w !! path = Some ino →
  inotify_add_watch fd path mask w =
    (Z.pos (watch_for ino i),
     set_fdtable
       (<[Z.to_N fd :=
            Inotify (cloexec i) (<[watch_for ino i := (ino, mask)]> (watches i))
              (next_after ino i)]>
          (fdtable w))
       (record_call (SysInotifyAddWatch fd path mask) w)).
Proof.
  intros Hfd Hi Hin. unfold inotify_add_watch, lookup_fd, watch_for, next_after.
  cbn. rewrite Zltb_ge, Hi, Hin by done.
  by destruct (watch_of_inode ino (watches i)).
Qed.

Lemma mkdir_parents_fst dir mode w :
  (mkdir_parents dir mode w).1 =
    match fs w !! dir with Some NotDir => - ENOTDIR | _ => 0 end.
Proof. unfold mkdir_parents. cbn. by destruct (fs w !! dir) as [[]|]. Qed.

(** Whether [symlink] makes the link. *)
Lemma symlink_fst target dir name w :
  let s := symlink target dir name w in
  (s.1 = 0 ∧ valid_id target ∧ is_Some (fs w !! dir) ∧
   dir_entry (fs w) dir name = None ∧ fs w !! dir ≠ Some NotDir) ∨
  (s.1 = -1 ∧ errno s.2 ≠ 0 ∧
   ¬ (valid_id target ∧ is_Some (fs w !! dir) ∧
      dir_entry (fs w) dir name = None ∧ fs w !! dir ≠ Some NotDir)).
Proof.
  unfold symlink, lookup_entry, dir_entry, valid_id. unfold_monad. cbn.
  destruct (decide (target = "")); cbn; [right; naive_solver|].
  destruct (PATH_MAX <=? _) eqn:Hlen; cbn.
  { apply Z.leb_le in Hlen. right. split; [done|]. split; [done|].
    intros ([_ ?] & _). lia. }
  apply Z.leb_gt in Hlen.
  destruct (fs w !! dir) as [[es|]|]; cbn.
  - destruct (es !! name) as [[]|]; cbn;
      [right; naive_solver..|left; naive_solver].
  - right. naive_solver.
  - right. split; [done|]. split; [done|]. intros (_ & [? ?] & _). done.
Qed.

Lemma mkdir_fs_dir dir f :
  f !! dir ≠ Some NotDir → ∃ es, mkdir_fs dir f !! dir = Some (Dir es).
Proof.
  unfold mkdir_fs. intros Hn. destruct (f !! dir) as [[es|]|] eqn:Hd.
  - eauto.
  - done.
  - rewrite lookup_insert_eq. eauto.
Qed.

Lemma begin_fs_not_dir dev wd f :
  f !! watch_dir = Some NotDir → begin_fs dev wd f = f.
Proof.
  intros Hd. unfold begin_fs, symlink_fs, unlink_fs, mkdir_fs. rewrite !Hd.
  destruct (id_filename dev) as [id|]; [|done].
  destruct (decide (id = "")); [done|]. by destruct (PATH_MAX <=? _).
Qed.

(** A [begin] that reaches the kernel: the channel is open, the device
    has a node and the node exists. *)
Lemma udev_watch_begin_armed (dev : sd_device) (node : string)
    (ino : positive) (i : inotify) (w : World) :
  0 ≤ inotify_fd w → fdtable w !! Z.to_N (inotify_fd w) = Some i →
  devname dev = Some node → devnodes w !! node = Some ino →
  let wd := watch_for ino i in
  let b := udev_watch_begin dev w in
  b.1.2 = device_set_watch_handle dev (Z.pos wd) ∧
  inotify_fd b.2 = inotify_fd w ∧ devnodes b.2 = devnodes w ∧
  sysdb b.2 = sysdb w ∧
  fdtable b.2 =
    <[Z.to_N (inotify_fd w) :=
        Inotify (cloexec i) (<[wd := (ino, IN_CLOSE_WRITE)]> (watches i))
          (next_after ino i)]>
      (fdtable w) ∧
  fs b.2 = begin_fs dev wd (fs w) ∧
  b.1.1 ≤ 0 ∧
  (b.1.1 = 0 ↔
   fs w !! watch_dir ≠ Some NotDir ∧
   registry_entry w (Z.pos wd) ≠ Some Subdir ∧
   ∃ id, id_filename dev = Some id ∧ valid_id id).
Proof.
  intros Hfd Hi Hnode Hin. cbv zeta.
  rewrite (udev_watch_begin_run dev node w Hfd Hnode). cbv zeta.
  destruct (log_debug_world "Adding watch on '%s'" [node] w) as [j ->].
  rewrite (inotify_add_watch_ok _ _ _ ino i) by done. cbn.
  set (wd := watch_for ino i).
  rewrite mkdir_parents_fst, mkdir_parents_world. cbn.
  match goal with |- context [unlinkat ?d ?n ?v] =>
    destruct (unlinkat_world d n v) as (e3 & ->)
  end. cbn.
  unfold begin_error.
  assert (fs w !! watch_dir = Some NotDir ∨ fs w !! watch_dir ≠ Some NotDir)
    as [Hd|Hd] by (destruct (fs w !! watch_dir) as [[]|]; naive_solver).
  { rewrite Hd. cbn. rewrite begin_fs_not_dir by done.
    unfold mkdir_fs. rewrite Hd. repeat split; try done. naive_solver. }
  assert ((match fs w !! watch_dir with
           | Some NotDir => - ENOTDIR
           | _ => 0
           end) = 0) as ->.
  { by destruct (fs w !! watch_dir) as [[]|]. }
  cbn. unfold begin_fs.
  set (f1 := unlink_fs watch_dir (watch_name (Z.pos wd))
               (mkdir_fs watch_dir (fs w))).
  assert (Hf1 : ∃ es, f1 !! watch_dir = Some (Dir es)).
  { destruct (mkdir_fs_dir watch_dir (fs w) Hd) as [es Hes].
    by apply (unlink_fs_dir _ _ _ _ es). }
  assert (He1 : dir_entry f1 watch_dir (watch_name (Z.pos wd)) = None ↔
                registry_entry w (Z.pos wd) ≠ Some Subdir).
  { subst f1. rewrite dir_entry_unlink, decide_True by done.
    rewrite dir_entry_mkdir, registry_entry_dir_entry.
    destruct (dir_entry _ _ _) as [[]|]; naive_solver. }
  destruct (id_filename dev) as [id|] eqn:Hid.
  2: { cbn. repeat split; try done. naive_solver. }
  match goal with |- context [symlink ?t ?d ?n ?v] =>
    destruct (symlink_world t d n v) as (e4 & Hw4);
    pose proof (symlink_fst t d n v) as Hs;
    set (s := symlink t d n v) in *
  end.
  cbn in Hw4, Hs. destruct Hf1 as [es1 Hes1].
  destruct Hs as [(-> & Hv & _ & Hnone & _)|(-> & Herr & Hnot)]; cbn.
  - rewrite Hw4. cbn. repeat split; try done.
    + by apply He1.
    + by exists id.
  - rewrite Hw4. cbn. rewrite Hw4 in Herr. cbn in Herr.
    repeat split; try done; try lia.
    + intros (_ & Hsub & id2 & [= <-] & Hv). exfalso. apply Hnot.
      split; [done|]. split; [by rewrite Hes1|]. split; [by apply He1|].
      by rewrite Hes1.
Qed.

(** A [begin] that does not reach the kernel, or that the kernel
    refuses, changes nothing but [errno], the calls and the log. *)
Lemma udev_watch_begin_unarmed (dev : sd_device) (w : World) :
  inotify_fd w < 0 ∨ devname dev = None ∨
  fdtable w !! Z.to_N (inotify_fd w) = None ∨
  (∃ node, devname dev = Some node ∧ devnodes w !! node = None) →
  let b := udev_watch_begin dev w in
  b.1.1 < 0 ∧ b.1.2 = dev ∧ same_state w b.2.
Proof.
  intros Hun. cbv zeta. unfold same_state.
  destruct (Z.lt_ge_cases (inotify_fd w) 0) as [Hfd|Hfd].
  { unfold udev_watch_begin. unfold_monad. by rewrite Zltb_lt. }
  destruct (devname dev) as [node|] eqn:Hnode.
  2: { unfold udev_watch_begin, sd_device_get_devname. unfold_monad.
       by rewrite Zltb_ge, Hnode. }
  rewrite (udev_watch_begin_run dev node w Hfd Hnode). cbv zeta.
  destruct (log_debug_world "Adding watch on '%s'" [node] w) as [j ->].
  assert (Hadd : ∃ e, e ≠ 0 ∧ ∀ v, inotify_fd v = inotify_fd w →
            fdtable v = fdtable w → devnodes v = devnodes w →
            inotify_add_watch (inotify_fd w) node IN_CLOSE_WRITE v =
              (-1, set_errno e
                     (record_call
                        (SysInotifyAddWatch (inotify_fd w) node IN_CLOSE_WRITE)
                        v))).
  { destruct (fdtable w !! Z.to_N (inotify_fd w)) as [i|] eqn:Hi.
    - exists ENOENT. split; [done|]. intros v Hv1 Hv2 Hv3.
      unfold inotify_add_watch, lookup_fd. unfold_monad. cbn.
      rewrite Zltb_ge, Hv2, Hi, Hv3 by done.
      destruct Hun as [?|[?|[?|(n & [= <-] & ->)]]]; try done; lia.
    - exists EBADF. split; [done|]. intros v Hv1 Hv2 Hv3.
      unfold inotify_add_watch, lookup_fd. unfold_monad. cbn.
      by rewrite Zltb_ge, Hv2, Hi. }
  destruct Hadd as (e & He & Hadd). rewrite Hadd by done. cbn.
  repeat split; try done. lia.
Qed.

Lemma udev_watch_begin_cases (dev : sd_device) (w : World) :
  (inotify_fd w < 0 ∨ devname dev = None ∨
   fdtable w !! Z.to_N (inotify_fd w) = None ∨
   (∃ node, devname dev = Some node ∧ devnodes w !! node = None)) ∨
  (∃ node ino i,
     0 ≤ inotify_fd w ∧ fdtable w !! Z.to_N (inotify_fd w) = Some i ∧
     devname dev = Some node ∧ devnodes w !! node = Some ino).
Proof.
  destruct (Z.lt_ge_cases (inotify_fd w) 0) as [Hfd|Hfd]; [by left; left|].
  destruct (devname dev) as [node|]; [|by left; right; left].
  destruct (fdtable w !! Z.to_N (inotify_fd w)) as [i|];
    [|by left; right; right; left].
  destruct (devnodes w !! node) as [ino|] eqn:Hino.
  - right. by exists node, ino, i.
  - left. right. right. right. by exists node.
Qed.

(** The registry after [begin]: the entry of the descriptor, the other
    entries, and the other directories. *)
Lemma begin_fs_entry dev wd f :
  dir_entry (begin_fs dev wd f) watch_dir (watch_name (Z.pos wd)) =
    match dir_entry f watch_dir (watch_name (Z.pos wd)) with
    | Some Subdir => Some Subdir
    | _ =>
        match f !! watch_dir, id_filename dev with
        | Some NotDir, _ | _, None => None
        | _, Some id =>
            if decide (id = "") then None
            else if PATH_MAX <=? Z.of_nat (String.length id) then None
            else Some (Symlink id)
        end
    end.
Proof.
  unfold begin_fs.
  set (n := watch_name (Z.pos wd)).
  set (f1 := unlink_fs watch_dir n (mkdir_fs watch_dir f)).
  assert (He1 : dir_entry f1 watch_dir n =
                match dir_entry f watch_dir n with
                | Some Subdir => Some Subdir
                | _ => None
                end).
  { subst f1. by rewrite dir_entry_unlink, decide_True, dir_entry_mkdir. }
  assert (f !! watch_dir = Some NotDir ∨ f !! watch_dir ≠ Some NotDir)
    as [Hd|Hd] by (destruct (f !! watch_dir) as [[]|]; naive_solver).
  { assert (Hf1 : f1 = f).
    { subst f1. unfold unlink_fs, mkdir_fs. by rewrite !Hd. }
    assert (Hf : dir_entry f watch_dir n = None).
    { unfold dir_entry. by rewrite Hd. }
    rewrite Hf, Hd.
    destruct (id_filename dev) as [id|].
    - rewrite dir_entry_symlink, decide_True by done.
      rewrite Hf1, Hd. exact Hf.
    - by rewrite Hf1. }
  assert (Hf1 : ∃ es, f1 !! watch_dir = Some (Dir es)).
  { destruct (mkdir_fs_dir watch_dir f Hd) as [es Hes].
    by apply (unlink_fs_dir _ _ _ _ es). }
  destruct Hf1 as [es Hes].
  destruct (id_filename dev) as [id|].
  - rewrite dir_entry_symlink, decide_True by done. rewrite Hes, He1.
    destruct (dir_entry f watch_dir n) as [[]|];
      destruct (f !! watch_dir) as [[]|]; done.
  - rewrite He1.
    destruct (dir_entry f watch_dir n) as [[]|];
      destruct (f !! watch_dir) as [[]|]; done.
Qed.

Lemma begin_fs_entry_other dev wd f name :
  name ≠ watch_name (Z.pos wd) →
  dir_entry (begin_fs dev wd f) watch_dir name = dir_entry f watch_dir name.
Proof.
  intros Hne. unfold begin_fs.
  destruct (id_filename dev) as [id|].
  - rewrite dir_entry_symlink, decide_False by naive_solver.
    rewrite dir_entry_unlink, decide_False by naive_solver.
    by rewrite dir_entry_mkdir.
  - rewrite dir_entry_unlink, decide_False by naive_solver.
    by rewrite dir_entry_mkdir.
Qed.

Lemma begin_fs_other dev wd f p :
  p ≠ watch_dir → begin_fs dev wd f !! p = f !! p.
Proof.
  intros Hne. unfold begin_fs.
  destruct (id_filename dev) as [id|];
    by rewrite ?symlink_fs_other, ?unlink_fs_other, ?mkdir_fs_other.
Qed.

(** ** [udev_watch_begin]: when it succeeds, and what a failure leaves *)

Lemma udev_watch_lookup_no_link (w : World) (wd : Z) :
  (∀ target, registry_entry w wd ≠ Some (Symlink target)) →
  (udev_watch_lookup wd w).1.2 = None.
Proof.
  intros Hno.
  destruct (Z.lt_ge_cases (inotify_fd w) 0) as [Hfd|Hfd].
  { unfold udev_watch_lookup. unfold_monad. by rewrite Zltb_lt. }
  destruct (Z.lt_ge_cases wd 0) as [Hwd|Hwd].
  { unfold udev_watch_lookup. unfold_monad. by rewrite Zltb_ge, Zltb_lt. }
  rewrite (udev_watch_lookup_run w wd Hfd Hwd). cbv zeta.
  unfold registry_entry in Hno.
  destruct (fs w !! watch_dir) as [[es|]|]; [|done|done].
  destruct (es !! watch_name wd) as [[target| |]|]; [|done|done|done].
  by destruct (Hno target).
Qed.

Lemma watch_for_free (ino : positive) (i : inotify) :
  (watches i !! watch_for ino i = None ∧
   ∀ wd m, watches i !! wd ≠ Some (ino, m)) ∨
  ∃ m, watches i !! watch_for ino i = Some (ino, m).
Proof.
  unfold watch_for.
  destruct (watch_of_inode ino (watches i)) as [wd|] eqn:Hwd; cbn.
  - right. by apply watch_of_inode_Some.
  - left. split; [apply unused_wd_unused|].
    intros wd m. by apply watch_of_inode_None.
Qed.

(** A world in which [sda] is being watched and the name of [sdb]
    reaches the same device node. *)
Lemma twinned_begun :
  let w := (udev_watch_begin sda twinned).2 in
  0 ≤ inotify_fd w ∧
  fdtable w !! Z.to_N (inotify_fd w)
  = Some (Inotify true {[ 1%positive := (1%positive, IN_CLOSE_WRITE) ]} 2) ∧
  devnodes w !! "/dev/sdb" = Some 1%positive.
Proof.
  cbv zeta. split; [by vm_compute|]. split; vm_compute; reflexivity.
Qed.

(** X7: with the channel open and the node of the device in place,
    [begin] always arms the kernel and records the descriptor in the
    device.  The kernel keeps one watch for each inode: when the channel
    already watches the inode that the node name reaches, whatever the
    name it was reached by before, the descriptor is that of this watch;
    otherwise it is one that was not in use.  Either way no watch on
    another inode is disturbed.  [begin] returns 0 exactly when the
    registry can take the link: the registry path is no plain file, the
    name of the descriptor is not taken by a directory, and the device
    has a usable identifier. *)
Theorem udev_watch_begin_criterion (dev : sd_device) (node : string)
    (ino : positive) (i : inotify) (w : World) :
  0 ≤ inotify_fd w → fdtable w !! Z.to_N (inotify_fd w) = Some i →
  devname dev = Some node → devnodes w !! node = Some ino →
  let wd := watch_for ino i in
  let b := udev_watch_begin dev w in
  b.1.1 ≤ 0 ∧ watch_handle b.1.2 = Z.pos wd ∧
  (b.1.1 = 0 ↔
   fs w !! watch_dir ≠ Some NotDir ∧
   registry_entry w (Z.pos wd) ≠ Some Subdir ∧
   ∃ id, id_filename dev = Some id ∧ valid_id id) ∧
  ((watches i !! wd = None ∧ ∀ wd0 m, watches i !! wd0 ≠ Some (ino, m)) ∨
   ∃ m, watches i !! wd = Some (ino, m)) ∧
  (∃ i', fdtable b.2 !! Z.to_N (inotify_fd b.2) = Some i' ∧
         watches i' !! wd = Some (ino, IN_CLOSE_WRITE) ∧
         ∀ wd2, wd2 ≠ wd → watches i' !! wd2 = watches i !! wd2).
Proof.
  intros Hfd Hi Hn Hin. cbv zeta.
  destruct (udev_watch_begin_armed dev node ino i w Hfd Hi Hn Hin)
    as (A0 & A1 & _ & _ & A4 & _ & A6 & A7).
  split; [done|]. split; [by rewrite A0|]. split; [done|].
  split; [apply watch_for_free|].
  rewrite A1, A4, lookup_insert_eq. eexists. split; [done|]. cbn.
  split; [by rewrite lookup_insert_eq|].
  intros wd2 Hne. by rewrite lookup_insert_ne.
Qed.

Lemma udev_watch_begin_criterion_witness :
  let w := (udev_watch_begin sda twinned).2 in
  let i := Inotify true {[ 1%positive := (1%positive, IN_CLOSE_WRITE) ]} 2 in
  0 ≤ inotify_fd w ∧ fdtable w !! Z.to_N (inotify_fd w) = Some i ∧
  devname sdb = Some "/dev/sdb" ∧ devnodes w !! "/dev/sdb" = Some 1%positive ∧
  watch_for 1 i = 1%positive ∧
  (udev_watch_begin sdb w).1.1 = 0 ∧
  watch_handle (udev_watch_begin sdb w).1.2 = Z.pos (watch_for 1 i).
Proof.
  cbv zeta. destruct twinned_begun as (H1 & H2 & H4).
  assert (H3 : devname sdb = Some "/dev/sdb") by reflexivity.
  split; [exact H1|]. split; [exact H2|]. split; [exact H3|].
  split; [exact H4|]. split; [vm_compute; reflexivity|].
  destruct (udev_watch_begin_criterion sdb "/dev/sdb" 1 _ _ H1 H2 H3 H4)
    as (_ & Hh & Hiff & _).
  split; [|exact Hh].
  apply (proj2 Hiff). split; [vm_compute; discriminate|].
  split; [vm_compute; discriminate|].
  exists "b8:16". split; [reflexivity|]. split; [discriminate|by vm_compute].
Defined.

(** X8: [begin] does not roll back.  When it fails after the kernel
    accepted the watch (the registry path is a plain file, the name of
    the descriptor is taken by a directory, or the device has no usable
    identifier), the error is returned with the kernel watch in place
    and the descriptor recorded in the device, while the registry holds
    no link for that descriptor, so that a lookup of it finds no
    device. *)
Theorem udev_watch_begin_no_rollback (dev : sd_device) (node : string)
    (ino : positive) (i : inotify) (w : World) :
  0 ≤ inotify_fd w → fdtable w !! Z.to_N (inotify_fd w) = Some i →
  devname dev = Some node → devnodes w !! node = Some ino →
  fs w !! watch_dir = Some NotDir ∨
  registry_entry w (Z.pos (watch_for ino i)) = Some Subdir ∨
  id_filename dev = None ∨
  (∃ id, id_filename dev = Some id ∧ ¬ valid_id id) →
  let wd := watch_for ino i in
  let b := udev_watch_begin dev w in
  b.1.1 < 0 ∧ b.1.2 = device_set_watch_handle dev (Z.pos wd) ∧
  (∃ i', fdtable b.2 !! Z.to_N (inotify_fd b.2) = Some i' ∧
         watches i' !! wd = Some (ino, IN_CLOSE_WRITE)) ∧
  (∀ target, registry_entry b.2 (Z.pos wd) ≠ Some (Symlink target)) ∧
  (udev_watch_lookup (Z.pos wd) b.2).1.2 = None.
Proof.
  intros Hfd Hi Hn Hin Hbad. cbv zeta.
  destruct (udev_watch_begin_armed dev node ino i w Hfd Hi Hn Hin)
    as (A0 & A1 & _ & _ & A4 & A5 & A6 & A7).
  set (wd := watch_for ino i) in *.
  assert (Hneg : (udev_watch_begin dev w).1.1 < 0).
  { assert ((udev_watch_begin dev w).1.1 ≠ 0); [|lia].
    intros Hz. apply A7 in Hz as (Z1 & Z2 & id & Z3 & Z4).
    destruct Hbad as [?|[?|[?|(id' & ? & ?)]]]; try done; congruence. }
  assert (Hno : ∀ target,
            registry_entry (udev_watch_begin dev w).2 (Z.pos wd)
            ≠ Some (Symlink target)).
  { intros target. rewrite registry_entry_dir_entry, A5, begin_fs_entry.
    rewrite registry_entry_dir_entry in Hbad.
    destruct (dir_entry (fs w) watch_dir (watch_name (Z.pos wd)))
      as [[]|] eqn:Hold; try done;
      destruct (fs w !! watch_dir) as [[]|] eqn:Hd; try done;
      destruct (id_filename dev) as [id|] eqn:Hid; try done;
      destruct (decide (id = "")) as [->|Hne]; try done;
      destruct (PATH_MAX <=? _) eqn:Hp; try done;
      apply Z.leb_gt in Hp;
      destruct Hbad as [?|[?|[?|(id' & [= <-] & Hnv)]]]; try done;
      by destruct Hnv. }
  split; [done|]. split; [done|]. split.
  { rewrite A1, A4, lookup_insert_eq. eexists. split; [done|]. cbn.
    by rewrite lookup_insert_eq. }
  split; [done|]. by apply udev_watch_lookup_no_link.
Qed.

Lemma udev_watch_begin_no_rollback_witness :
  0 ≤ inotify_fd misplaced ∧
  fdtable misplaced !! Z.to_N (inotify_fd misplaced) = Some (Inotify true ∅ 1) ∧
  devname sda = Some "/dev/sda" ∧ devnodes misplaced !! "/dev/sda" = Some 1%positive ∧
  fs misplaced !! watch_dir = Some NotDir ∧
  (udev_watch_begin sda misplaced).1.1 < 0 ∧
  (udev_watch_begin sda misplaced).1.2
  = device_set_watch_handle sda
      (Z.pos (watch_for 1 (Inotify true ∅ 1))).
Proof.
  assert (H1 : 0 ≤ inotify_fd misplaced) by (by vm_compute).
  assert (H2 : fdtable misplaced !! Z.to_N (inotify_fd misplaced)
               = Some (Inotify true ∅ 1)) by (vm_compute; reflexivity).
  assert (H3 : devname sda = Some "/dev/sda") by reflexivity.
  assert (H4 : devnodes misplaced !! "/dev/sda" = Some 1%positive)
    by (vm_compute; reflexivity).
  assert (H5 : fs misplaced !! watch_dir = Some NotDir)
    by (vm_compute; reflexivity).
  split; [exact H1|]. split; [exact H2|]. split; [exact H3|].
  split; [exact H4|]. split; [exact H5|].
  destruct (udev_watch_begin_no_rollback sda "/dev/sda" 1 (Inotify true ∅ 1)
              misplaced H1 H2 H3 H4 (or_introl H5)) as (Hr & Hd & _).
  split; [exact Hr|exact Hd].
Defined.

Lemma inotify_add_watch_refused fd path mask w :
  0 ≤ fd → fdtable w !! Z.to_N fd = None ∨ devnodes w !! path = None →
  ∃ e, e ≠ 0 ∧
    inotify_add_watch fd path mask w =
      (-1, set_errno e (record_call (SysInotifyAddWatch fd path mask) w)).
Proof.
  intros Hfd Hun. unfold inotify_add_watch, lookup_fd. unfold_monad. cbn.
  rewrite Zltb_ge by done.
  destruct (fdtable w !! Z.to_N fd) as [i|] eqn:Hi.
  - destruct Hun as [?|Hun]; [done|]. rewrite Hun.
    by exists ENOENT.
  - by exists EBADF.
Qed.

(** X9: a [begin] that the kernel does not accept (the device has no
    node name, the node does not exist, or the descriptor of the channel
    is not that of an inotify instance) fails without a trace: a
    negative result, the handle of the device as it was, and nothing
    changed in the kernel or on disk, the registry directory not
    created. *)
Theorem udev_watch_begin_refused (dev : sd_device) (w : World) :
  0 ≤ inotify_fd w →
  devname dev = None ∨ fdtable w !! Z.to_N (inotify_fd w) = None ∨
  (∃ node, devname dev = Some node ∧ devnodes w !! node = None) →
  let b := udev_watch_begin dev w in
  b.1.1 < 0 ∧ b.1.2 = dev ∧ same_state w b.2 ∧
  (devname dev = None → b.1.1 = - ENOENT ∧ calls b.2 = calls w) ∧
  (∀ node, devname dev = Some node →
     calls b.2 = calls w ++
       [SysInotifyAddWatch (inotify_fd w) node IN_CLOSE_WRITE] ∧
     b.1.1 = - Z.abs (errno b.2)).
Proof.
  intros Hfd Hun. cbv zeta.
  destruct (udev_watch_begin_unarmed dev w (or_intror Hun)) as (U1 & U2 & U3).
  split; [done|]. split; [done|]. split; [done|]. split.
  - intros Hnone. unfold udev_watch_begin, sd_device_get_devname.
    unfold_monad. by rewrite Zltb_ge, Hnone.
  - intros node Hnode.
    rewrite (udev_watch_begin_run dev node w Hfd Hnode). cbv zeta.
    destruct (log_debug_world "Adding watch on '%s'" [node] w) as [j ->].
    match goal with |- context [inotify_add_watch ?fd ?p ?k ?v] =>
      destruct (inotify_add_watch_refused fd p k v) as (e & He & ->)
    end; [done| |done].
    cbn. destruct Hun as [?|[?|(n & ? & ?)]]; [congruence|by left|].
    right. congruence.
Qed.

Lemma udev_watch_begin_refused_witness :
  0 ≤ inotify_fd ready ∧
  (∃ node, devname unplugged = Some node ∧ devnodes ready !! node = None) ∧
  (udev_watch_begin unplugged ready).1.1 < 0 ∧
  (udev_watch_begin unplugged ready).1.2 = unplugged ∧
  same_state ready (udev_watch_begin unplugged ready).2.
Proof.
  assert (H1 : 0 ≤ inotify_fd ready) by (by vm_compute).
  assert (H2 : ∃ node, devname unplugged = Some node ∧
                       devnodes ready !! node = None).
  { exists "/dev/sdz". split; [reflexivity|]. vm_compute. reflexivity. }
  split; [exact H1|]. split; [exact H2|].
  destruct (udev_watch_begin_refused unplugged ready H1
              (or_intror (or_intror H2))) as (Hr & Hd & Hs & _).
  split; [exact Hr|]. split; [exact Hd|exact Hs].
Defined.

(** ** [udev_watch_end] *)

(** The watch table after [inotify_rm_watch] of a positive descriptor,
    entry by entry. *)
Lemma inotify_rm_watch_table fd (wd : positive) w (k : N) :
  0 ≤ fd →
  fdtable (inotify_rm_watch fd (Z.pos wd) w).2 !! k =
    if decide (k = Z.to_N fd)
    then (λ i, Inotify (cloexec i) (delete wd (watches i)) (next_wd i))
           <$> fdtable w !! k
    else fdtable w !! k.
Proof.
  intros Hfd. unfold inotify_rm_watch, lookup_fd. unfold_monad. cbn.
  rewrite Zltb_ge by done.
  destruct (fdtable w !! Z.to_N fd) as [i|] eqn:Hi; cbn.
  2: { destruct (decide (k = Z.to_N fd)) as [->|]; [by rewrite Hi|done]. }
  destruct (bool_decide (is_Some (watches i !! wd))) eqn:Hw; cbn.
  - destruct (decide (k = Z.to_N fd)) as [->|Hne].
    + by rewrite lookup_insert_eq, Hi.
    + by rewrite lookup_insert_ne.
  - destruct (decide (k = Z.to_N fd)) as [->|Hne]; [|done].
    rewrite Hi. cbn. apply bool_decide_eq_false in Hw.
    rewrite delete_id; [by destruct i|].
    by apply eq_None_not_Some.
Qed.

(** The run of an [end] that reaches the kernel. *)
Lemma udev_watch_end_run (dev : sd_device) (node : string) (w : World) :
  0 ≤ inotify_fd w → db_failure dev = false → 0 ≤ watch_handle dev →
  devname dev = Some node →
  udev_watch_end dev w =
    ((0, device_set_watch_handle dev (-1)),
     (unlinkat watch_dir (watch_name (watch_handle dev))
        (inotify_rm_watch (inotify_fd w) (watch_handle dev)
           (log_debug "Removing watch on '%s'" [node] w).2).2).2).
Proof.
  intros Hfd Hdb Hh Hn.
  unfold udev_watch_end, device_get_watch_handle, sd_device_get_devname.
  rewrite bind_run. unfold gets at 1. cbn.
  rewrite Zltb_ge, Hdb, Zltb_ge, Hn by done. by rewrite !bind_run.
Qed.

(** X10: [end] fails in three cases only: the channel is not initialised,
    the handle of the device cannot be read, or the device holds a
    handle and has no node name.  It never returns a positive value, and
    a failed [end] has changed nothing: the device keeps its handle, no
    call was issued, the kernel watch and the registry entry are as they
    were. *)
Theorem udev_watch_end_failure (dev : sd_device) (w : World) :
  let e := udev_watch_end dev w in
  e.1.1 ≤ 0 ∧
  (e.1.1 < 0 ↔
   inotify_fd w < 0 ∨ db_failure dev = true ∨
   (0 ≤ watch_handle dev ∧ devname dev = None)) ∧
  (e.1.1 < 0 → e.1.2 = dev ∧ same_state w e.2 ∧ calls e.2 = calls w).
Proof.
  cbv zeta. unfold same_state.
  destruct (Z.lt_ge_cases (inotify_fd w) 0) as [Hneg|Hfd].
  { unfold udev_watch_end. unfold_monad. rewrite Zltb_lt by done. cbn.
    split; [done|]. split; [|done]. split; [by left|done]. }
  destruct (db_failure dev) eqn:Hdb.
  { unfold udev_watch_end, device_get_watch_handle. unfold_monad.
    rewrite Zltb_ge, Hdb by done. cbn.
    split; [done|]. split; [|done]. split; [by right; left|done]. }
  destruct (Z.lt_ge_cases (watch_handle dev) 0) as [Hh|Hh].
  { unfold udev_watch_end, device_get_watch_handle. unfold_monad.
    rewrite Zltb_ge, Hdb, Zltb_lt by done. cbn.
    split; [done|]. split; [|done]. split; [done|].
    intros [?|[?|[? _]]]; [lia|done|lia]. }
  destruct (devname dev) as [node|] eqn:Hn.
  - rewrite (udev_watch_end_run dev node w Hfd Hdb Hh Hn). cbn.
    split; [done|]. split; [|done]. split; [done|].
    intros [?|[?|[_ ?]]]; [lia|done|done].
  - unfold udev_watch_end, device_get_watch_handle, sd_device_get_devname.
    unfold_monad. rewrite Zltb_ge, Hdb, Zltb_ge, Hn by done. cbn.
    split; [done|]. split; [|done]. split; [by right; right|done].
Qed.

(** X11: an [end] that reaches the kernel forgets the watch of the device
    and nothing else.  It returns 0 and clears the handle; afterwards
    the channel does not watch the descriptor, the registry holds no
    link for it and a lookup of it finds no device, whether or not the
    kernel and the registry knew the descriptor before.  Every other
    descriptor is watched exactly if it was, and keeps its registry
    entry. *)
Theorem udev_watch_end_forgets (dev : sd_device) (node : string)
    (wd : positive) (w : World) :
  0 ≤ inotify_fd w → db_failure dev = false →
  watch_handle dev = Z.pos wd → devname dev = Some node →
  let e := udev_watch_end dev w in
  e.1 = (0, device_set_watch_handle dev (-1)) ∧
  ¬ watched e.2 wd ∧
  (∀ target, registry_entry e.2 (Z.pos wd) ≠ Some (Symlink target)) ∧
  (udev_watch_lookup (Z.pos wd) e.2).1.2 = None ∧
  (∀ wd2, wd2 ≠ wd →
     (watched e.2 wd2 ↔ watched w wd2) ∧
     registry_entry e.2 (Z.pos wd2) = registry_entry w (Z.pos wd2)).
Proof.
  intros Hfd Hdb Hh Hn. cbv zeta.
  rewrite (udev_watch_end_run dev node w Hfd Hdb ltac:(lia) Hn). rewrite Hh.
  cbn [fst snd].
  destruct (log_debug_world "Removing watch on '%s'" [node] w) as [j Hw0].
  set (w0 := (log_debug "Removing watch on '%s'" [node] w).2) in *.
  assert (Hfd0 : inotify_fd w0 = inotify_fd w) by (by rewrite Hw0).
  assert (Ht0 : fdtable w0 = fdtable w) by (by rewrite Hw0).
  assert (Hfs0 : fs w0 = fs w) by (by rewrite Hw0).
  pose proof (λ k, inotify_rm_watch_table (inotify_fd w) wd w0 k Hfd) as Htab.
  destruct (inotify_rm_watch_world (inotify_fd w) (Z.pos wd) w0)
    as (e1 & t1 & Hw1 & _).
  set (w1 := (inotify_rm_watch (inotify_fd w) (Z.pos wd) w0).2) in *.
  assert (Hfd1 : inotify_fd w1 = inotify_fd w) by (by rewrite Hw1).
  assert (Hfs1 : fs w1 = fs w) by (by rewrite Hw1).
  destruct (unlinkat_world watch_dir (watch_name (Z.pos wd)) w1) as (e2 & Hw2).
  set (w2 := (unlinkat watch_dir (watch_name (Z.pos wd)) w1).2) in *.
  assert (Hfd2 : inotify_fd w2 = inotify_fd w) by (by rewrite Hw2).
  assert (Ht2 : fdtable w2 = fdtable w1) by (by rewrite Hw2).
  assert (Hfs2 : fs w2 = unlink_fs watch_dir (watch_name (Z.pos wd)) (fs w))
    by (by rewrite Hw2; cbn; rewrite Hfs1).
  assert (Hw : ∀ wd2, watched w2 wd2 ↔ wd2 ≠ wd ∧ watched w wd2).
  { intros wd2. unfold watched. rewrite Hfd2, Ht2, Htab, Ht0.
    rewrite decide_True by done.
    destruct (fdtable w !! Z.to_N (inotify_fd w)) as [i|]; cbn.
    - split.
      + intros (i' & [= <-] & Hs). cbn in Hs.
        destruct (decide (wd2 = wd)) as [->|Hne].
        * rewrite lookup_delete_eq in Hs. by destruct Hs.
        * rewrite lookup_delete_ne in Hs by done. eauto.
      + intros (Hne & i' & [= <-] & Hs). eexists. split; [done|]. cbn.
        by rewrite lookup_delete_ne.
    - split; [by intros (? & ? & _)|by intros (_ & ? & ? & _)]. }
  assert (Hno : ∀ target, registry_entry w2 (Z.pos wd) ≠ Some (Symlink target)).
  { intros target. rewrite registry_entry_dir_entry, Hfs2, dir_entry_unlink.
    rewrite decide_True by done.
    by destruct (dir_entry (fs w) watch_dir (watch_name (Z.pos wd))) as [[]|]. }
  split; [done|]. split; [by intros [? _]%Hw|]. split; [done|].
  split; [by apply udev_watch_lookup_no_link|].
  intros wd2 Hne. split; [rewrite Hw; naive_solver|].
  rewrite !registry_entry_dir_entry, Hfs2, dir_entry_unlink.
  rewrite decide_False; [done|].
  intros [_ Heq]. apply watch_name_inj in Heq. congruence.
Qed.

Lemma udev_watch_end_forgets_witness :
  let b := udev_watch_begin sda ready in
  0 ≤ inotify_fd b.2 ∧ db_failure b.1.2 = false ∧
  watch_handle b.1.2 = 1 ∧ devname b.1.2 = Some "/dev/sda" ∧
  watched b.2 1 ∧
  (udev_watch_end b.1.2 b.2).1 = (0, device_set_watch_handle b.1.2 (-1)) ∧
  ¬ watched (udev_watch_end b.1.2 b.2).2 1.
Proof.
  cbv zeta.
  assert (H1 : 0 ≤ inotify_fd (udev_watch_begin sda ready).2)
    by (by vm_compute).
  assert (H2 : db_failure (udev_watch_begin sda ready).1.2 = false)
    by (vm_compute; reflexivity).
  assert (H3 : watch_handle (udev_watch_begin sda ready).1.2 = 1)
    by (vm_compute; reflexivity).
  assert (H4 : devname (udev_watch_begin sda ready).1.2 = Some "/dev/sda")
    by (vm_compute; reflexivity).
  split; [exact H1|]. split; [exact H2|]. split; [exact H3|].
  split; [exact H4|]. split.
  { exists (Inotify true {[ 1%positive := (1%positive, IN_CLOSE_WRITE) ]} 2).
    split; [vm_compute; reflexivity|]. vm_compute. by eexists. }
  destruct (udev_watch_end_forgets (udev_watch_begin sda ready).1.2
              "/dev/sda" 1 (udev_watch_begin sda ready).2 H1 H2 H3 H4)
    as (Hr & Hw & _).
  split; [exact Hr|exact Hw].
Defined.

(** ** [begin] and then [end] *)

(** X12: [end] undoes a first [begin].  When the channel has no watch
    on the inode that the node name of the device reaches, by this name
    or by another, and the registry has no entry under the descriptor
    the kernel hands out, a [begin] followed by an [end] of the device
    returns 0 twice and restores the watches of the channel and the file
    system, except that the registry directory now exists and that the
    descriptor is used up: the kernel will not hand it out again.  The
    device is left with no handle. *)
Theorem begin_end_round_trip (dev : sd_device) (node id : string)
    (ino : positive) (i : inotify) (w : World) :
  0 ≤ inotify_fd w → fdtable w !! Z.to_N (inotify_fd w) = Some i →
  devname dev = Some node → devnodes w !! node = Some ino →
  id_filename dev = Some id → valid_id id → db_failure dev = false →
  fs w !! watch_dir ≠ Some NotDir →
  (∀ wd0 m, watches i !! wd0 ≠ Some (ino, m)) →
  registry_entry w (Z.pos (watch_for ino i)) = None →
  let wd := watch_for ino i in
  let b := udev_watch_begin dev w in
  let e := udev_watch_end b.1.2 b.2 in
  b.1.1 = 0 ∧ e.1 = (0, device_set_watch_handle dev (-1)) ∧
  inotify_fd e.2 = inotify_fd w ∧
  fdtable e.2 =
    <[Z.to_N (inotify_fd w) := Inotify (cloexec i) (watches i) (Pos.succ wd)]>
      (fdtable w) ∧
  (∀ ino2,
     watch_for ino2 (Inotify (cloexec i) (watches i) (Pos.succ wd)) ≠ wd) ∧
  fs e.2 = mkdir_fs watch_dir (fs w).
Proof.
  intros Hfd Hi Hn Hin Hid Hv Hdb Hdir Hnone Hent. cbv zeta.
  destruct (udev_watch_begin_armed dev node ino i w Hfd Hi Hn Hin)
    as (A0 & A1 & _ & _ & A4 & A5 & _ & A7).
  assert (Hfind : watch_of_inode ino (watches i) = None).
  { destruct (watch_of_inode ino (watches i)) as [wd0|] eqn:Hwd0; [|done].
    apply watch_of_inode_Some in Hwd0 as [m Hm]. by destruct (Hnone wd0 m). }
  assert (Hwd : watch_for ino i = unused_wd i)
    by (unfold watch_for; by rewrite Hfind).
  assert (Hnext : next_after ino i = Pos.succ (watch_for ino i))
    by (unfold next_after; by rewrite Hfind, Hwd).
  assert (Hfresh : watches i !! watch_for ino i = None)
    by (rewrite Hwd; apply unused_wd_unused).
  assert (Hused : ∀ ino2,
            watch_for ino2 (Inotify (cloexec i) (watches i)
                              (Pos.succ (watch_for ino i)))
            ≠ watch_for ino i).
  { intros ino2. unfold watch_for at 1. cbn.
    destruct (watch_of_inode ino2 (watches i)) as [wd0|] eqn:Hwd0; cbn.
    - apply watch_of_inode_Some in Hwd0 as [m Hm]. congruence.
    - match goal with |- unused_wd ?i2 ≠ _ =>
        pose proof (unused_wd_ge i2) as Hge
      end.
      cbn in Hge. lia. }
  rewrite Hnext in A4.
  set (wd := watch_for ino i) in *.
  set (b := udev_watch_begin dev w) in *.
  assert (Hb0 : b.1.1 = 0).
  { apply A7. split; [done|]. split; [by rewrite Hent|]. by exists id. }
  split; [done|].
  assert (Hfd' : 0 ≤ inotify_fd b.2) by (by rewrite A1).
  rewrite (udev_watch_end_run b.1.2 node b.2 Hfd'); rewrite ?A0; try done.
  cbn [fst snd watch_handle device_set_watch_handle].
  split; [done|].
  destruct (log_debug_world "Removing watch on '%s'" [node] b.2) as [j Hw0].
  set (w0 := (log_debug "Removing watch on '%s'" [node] b.2).2) in *.
  pose proof (λ k, inotify_rm_watch_table (inotify_fd b.2) wd w0 k Hfd')
    as Htab.
  destruct (inotify_rm_watch_world (inotify_fd b.2) (Z.pos wd) w0)
    as (e1 & t1 & Hw1 & _).
  set (w1 := (inotify_rm_watch (inotify_fd b.2) (Z.pos wd) w0).2) in *.
  destruct (unlinkat_world watch_dir (watch_name (Z.pos wd)) w1) as (e2 & Hw2).
  rewrite Hw2. cbn. rewrite Hw1. cbn. rewrite Hw0. cbn.
  split; [done|]. split; [|split; [done|]].
  - assert (Ht1 : t1 = fdtable w1) by (by rewrite Hw1). rewrite Ht1.
    apply map_eq. intros k. rewrite Htab, A1. rewrite Hw0. cbn. rewrite A4.
    destruct (decide (k = Z.to_N (inotify_fd w))) as [->|Hne].
    + rewrite !lookup_insert_eq. cbn. by rewrite delete_insert_id.
    + by rewrite !lookup_insert_ne.
  - rewrite A5. unfold begin_fs. rewrite Hid.
    rewrite registry_entry_dir_entry in Hent.
    destruct (mkdir_fs_dir watch_dir (fs w) Hdir) as [es0 Hes0].
    assert (He0 : es0 !! watch_name (Z.pos wd) = None).
    { rewrite <- (dir_entry_mkdir watch_dir) in Hent.
      unfold dir_entry in Hent. by rewrite Hes0 in Hent. }
    set (f0 := mkdir_fs watch_dir (fs w)) in *.
    destruct Hv as [Hne Hlen].
    unfold unlink_fs at 2. rewrite Hes0, He0.
    unfold symlink_fs. rewrite decide_False by done.
    rewrite (proj2 (Z.leb_gt _ _)) by done. rewrite Hes0, He0.
    unfold unlink_fs. rewrite lookup_insert_eq, lookup_insert_eq.
    rewrite insert_insert_eq, delete_insert_id by done.
    by apply insert_id.
Qed.

Lemma begin_end_round_trip_witness :
  let i := Inotify true ∅ 1 in
  let b := udev_watch_begin sda ready in
  let e := udev_watch_end b.1.2 b.2 in
  0 ≤ inotify_fd ready ∧
  fdtable ready !! Z.to_N (inotify_fd ready) = Some i ∧
  devname sda = Some "/dev/sda" ∧
  devnodes ready !! "/dev/sda" = Some 1%positive ∧
  id_filename sda = Some "b8:0" ∧ valid_id "b8:0" ∧ db_failure sda = false ∧
  fs ready !! watch_dir ≠ Some NotDir ∧
  (∀ wd0 m, watches i !! wd0 ≠ Some (1%positive, m)) ∧
  registry_entry ready (Z.pos (watch_for 1 i)) = None ∧
  b.1.1 = 0 ∧ e.1 = (0, device_set_watch_handle sda (-1)) ∧
  inotify_fd e.2 = inotify_fd ready ∧
  fdtable e.2 =
    <[Z.to_N (inotify_fd ready) :=
        Inotify (cloexec i) (watches i) (Pos.succ (watch_for 1 i))]>
      (fdtable ready) ∧
  (∀ ino2,
     watch_for ino2 (Inotify (cloexec i) (watches i)
                       (Pos.succ (watch_for 1 i))) ≠ watch_for 1 i) ∧
  fs e.2 = mkdir_fs watch_dir (fs ready).
Proof.
  cbv zeta.
  assert (H1 : 0 ≤ inotify_fd ready) by (by vm_compute).
  assert (H2 : fdtable ready !! Z.to_N (inotify_fd ready)
               = Some (Inotify true ∅ 1)) by (vm_compute; reflexivity).
  assert (H3 : devname sda = Some "/dev/sda") by reflexivity.
  assert (H4 : devnodes ready !! "/dev/sda" = Some 1%positive)
    by (vm_compute; reflexivity).
  assert (H5 : id_filename sda = Some "b8:0") by reflexivity.
  assert (H6 : valid_id "b8:0") by (split; [discriminate|by vm_compute]).
  assert (H7 : db_failure sda = false) by reflexivity.
  assert (H8 : fs ready !! watch_dir ≠ Some NotDir)
    by (vm_compute; discriminate).
  assert (H9 : ∀ wd0 m, watches (Inotify true ∅ 1) !! wd0
                        ≠ Some (1%positive, m))
    by (intros wd0 m; simpl; rewrite lookup_empty; discriminate).
  assert (H10 : registry_entry ready
                  (Z.pos (watch_for 1 (Inotify true ∅ 1))) = None)
    by (vm_compute; reflexivity).
  split; [exact H1|]. split; [exact H2|]. split; [exact H3|].
  split; [exact H4|]. split; [exact H5|]. split; [exact H6|].
  split; [exact H7|]. split; [exact H8|]. split; [exact H9|].
  split; [exact H10|].
  exact (begin_end_round_trip sda "/dev/sda" "b8:0" 1 (Inotify true ∅ 1) ready
           H1 H2 H3 H4 H5 H6 H7 H8 H9 H10).
Defined.

(** ** A sound registry stays sound *)

Lemma registry_sound_ext (w w' : World) :
  inotify_fd w' = inotify_fd w → fdtable w' = fdtable w →
  fs w' !! watch_dir = fs w !! watch_dir →
  registry_sound w → registry_sound w'.
Proof.
  unfold registry_sound, watched, dir_entry. intros -> -> ->. done.
Qed.

Lemma registry_sound_same (w w' : World) :
  same_state w w' → registry_sound w → registry_sound w'.
Proof.
  intros (? & ? & _ & _ & Hfs & _). apply registry_sound_ext; try done.
  by rewrite Hfs.
Qed.

Lemma symlink_fs_dir target dir name f dir' es :
  f !! dir' = Some (Dir es) →
  ∃ es', symlink_fs target dir name f !! dir' = Some (Dir es').
Proof.
  unfold symlink_fs. intros Hd.
  destruct (decide (target = "")); [eauto|].
  destruct (PATH_MAX <=? _); [eauto|].
  destruct (f !! dir) as [[es0|]|] eqn:Hd0; eauto.
  destruct (es0 !! name); eauto.
  destruct (decide (dir = dir')) as [<-|];
    [rewrite lookup_insert_eq | rewrite lookup_insert_ne by done]; eauto.
Qed.

Lemma begin_fs_dir dev wd f :
  f !! watch_dir ≠ Some NotDir →
  ∃ es, begin_fs dev wd f !! watch_dir = Some (Dir es).
Proof.
  intros Hd. unfold begin_fs.
  destruct (mkdir_fs_dir watch_dir f Hd) as [es Hes].
  destruct (unlink_fs_dir watch_dir (watch_name (Z.pos wd)) _ _ _ Hes)
    as [es' Hes'].
  destruct (id_filename dev) as [id|]; [|eauto].
  by apply (symlink_fs_dir _ _ _ _ _ es').
Qed.

Lemma udev_watch_begin_sound (dev : sd_device) (w : World) :
  registry_sound w → registry_sound (udev_watch_begin dev w).2.
Proof.
  intros Hs.
  destruct (udev_watch_begin_cases dev w) as [Hun|(node & ino & i & Hfd & Hi & Hn & Hin)].
  { destruct (udev_watch_begin_unarmed dev w Hun) as (_ & _ & Hsame).
    by apply (registry_sound_same w). }
  destruct (udev_watch_begin_armed dev node ino i w Hfd Hi Hn Hin)
    as (_ & Hfd' & _ & _ & Ht & Hfs & _).
  set (wd := watch_for ino i) in *.
  destruct Hs as [Hdir Hent]. split.
  { rewrite Hfs. destruct (begin_fs_dir dev wd (fs w) Hdir) as [es ->]. done. }
  intros name e He. rewrite Hfs in He.
  assert (Hkeep : ∀ wd', watched w wd' → watched (udev_watch_begin dev w).2 wd').
  { intros wd' (i0 & Hi0 & Hw). unfold watched. rewrite Hfd', Ht.
    rewrite lookup_insert_eq. eexists. split; [done|]. cbn.
    rewrite Hi in Hi0. injection Hi0 as <-.
    destruct (decide (wd = wd')) as [->|Hne];
      [by rewrite lookup_insert_eq | by rewrite lookup_insert_ne]. }
  destruct (decide (name = watch_name (Z.pos wd))) as [->|Hne].
  - rewrite begin_fs_entry in He.
    destruct (dir_entry (fs w) watch_dir (watch_name (Z.pos wd)))
      as [old|] eqn:Hold.
    1: destruct (Hent _ _ Hold) as (wd0 & t0 & _ & -> & _).
    all: destruct (fs w !! watch_dir) as [[]|]; try done;
      destruct (id_filename dev) as [id|]; try done;
      destruct (decide (id = "")); try done;
      destruct (PATH_MAX <=? _) eqn:Hp; try done;
      injection He as <-; exists wd, id;
      (split; [done|]); (split; [done|]);
      (split; [split; [done|by apply Z.leb_gt]|]);
      unfold watched; rewrite Hfd', Ht, lookup_insert_eq;
      eexists; (split; [done|]); cbn; by rewrite lookup_insert_eq.
  - rewrite begin_fs_entry_other in He by done.
    destruct (Hent _ _ He) as (wd0 & t0 & -> & -> & Hv & Hw).
    exists wd0, t0. repeat split; try done; try apply Hv. by apply Hkeep.
Qed.

Lemma unlink_fs_not_file dir name f dir' :
  f !! dir' ≠ Some NotDir → unlink_fs dir name f !! dir' ≠ Some NotDir.
Proof.
  intros Hd. destruct (f !! dir') as [[es|]|] eqn:Hf; [|done|].
  - destruct (unlink_fs_dir dir name f dir' es Hf) as [es' ->]. done.
  - unfold unlink_fs. destruct (f !! dir) as [[es0|]|] eqn:Hd0;
      rewrite ?Hf; try done.
    destruct (es0 !! name) as [[]|]; rewrite ?Hf; try done;
      (rewrite lookup_insert_ne by congruence); by rewrite Hf.
Qed.

Lemma udev_watch_end_sound (dev : sd_device) (w : World) :
  registry_sound w → registry_sound (udev_watch_end dev w).2.
Proof.
  intros Hs.
  destruct (Z.lt_ge_cases (inotify_fd w) 0) as [Hneg|Hfd].
  { unfold udev_watch_end. rewrite bind_run. unfold gets at 1. cbn.
    by rewrite Zltb_lt. }
  destruct (udev_watch_end_world dev w Hfd) as [->|[[e ->]|(Hh & node & ->)]];
    [done|done|].
  destruct (log_debug_world "Removing watch on '%s'" [node] w) as [j ->].
  match goal with |- context [inotify_rm_watch ?fd ?h ?v] =>
    destruct (inotify_rm_watch_world fd h v) as (e1 & t1 & -> & Hout)
  end.
  match goal with |- context [unlinkat ?d ?n ?v] =>
    destruct (unlinkat_world d n v) as (e3 & ->)
  end.
  unfold rm_watch_outcome in Hout. cbn in Hout.
  destruct Hs as [Hdir Hent]. split; cbn.
  { by apply unlink_fs_not_file. }
  intros name e He. rewrite dir_entry_unlink in He.
  destruct (decide (watch_dir = watch_dir ∧
                    watch_name (watch_handle dev) = name)) as [[_ <-]|Hne].
  { destruct (dir_entry (fs w) watch_dir (watch_name (watch_handle dev)))
      as [old|] eqn:Hold; [|done].
    destruct (Hent _ _ Hold) as (wd0 & t0 & _ & -> & _). done. }
  destruct (Hent _ _ He) as (wd0 & t0 & -> & -> & Hv & (i0 & Hi0 & Hw)).
  exists wd0, t0. repeat split; try done; try apply Hv.
  unfold watched. cbn.
  destruct Hout as [->|(i1 & _ & Hpos & Hi1 & ->)]; [by exists i0|].
  rewrite lookup_insert_eq. eexists. split; [done|]. cbn.
  rewrite Hi0 in Hi1. injection Hi1 as <-.
  rewrite lookup_delete_ne; [done|]. intros Heq. apply Hne.
  split; [done|]. rewrite <- Heq. by rewrite Z2Pos.id.
Qed.

Lemma udev_watch_lookup_sound_kept (wd : Z) (w : World) :
  registry_sound w → registry_sound (udev_watch_lookup wd w).2.
Proof.
  destruct (udev_watch_lookup_world wd w) as (? & ? & Hfs & _).
  apply registry_sound_ext; try done. by rewrite Hfs.
Qed.

Lemma unlinkat_old_sound (name : string) (w : World) :
  registry_sound w → registry_sound (unlinkat watch_old name w).2.
Proof.
  destruct (unlinkat_world watch_old name w) as [e ->].
  apply registry_sound_ext; try done. cbn.
  apply unlink_fs_other. intros Heq. by apply watch_old_not_watch_dir.
Qed.

Lemma rmdir_old_sound (w : World) :
  registry_sound w → registry_sound (rmdir watch_old w).2.
Proof.
  apply registry_sound_ext.
  - unfold rmdir. unfold_monad. cbn. by repeat case_match.
  - unfold rmdir. unfold_monad. cbn. by repeat case_match.
  - unfold rmdir. unfold_monad. cbn. repeat case_match; try done.
    cbn. rewrite lookup_delete_ne; [done|]. apply watch_old_not_watch_dir.
Qed.

(** ** The lifecycle on a sound registry *)

Lemma udev_watch_lookup_link (w : World) (wd : Z) (target : string) :
  0 ≤ inotify_fd w → 0 ≤ wd →
  registry_entry w wd = Some (Symlink target) → valid_id target →
  (udev_watch_lookup wd w).1 = resolve w target.
Proof.
  intros Hfd Hwd Hent [Hne Hlen].
  rewrite (udev_watch_lookup_run w wd Hfd Hwd). cbv zeta.
  unfold registry_entry in Hent. unfold resolve.
  destruct (fs w !! watch_dir) as [[es|]|]; [|done|done].
  rewrite Hent.
  assert (0 < Z.of_nat (String.length target)).
  { destruct target; [done|]. cbn. lia. }
  rewrite (proj2 (Z.leb_gt _ _)) by done.
  rewrite (proj2 (Z.leb_gt _ _)) by done.
  by destruct (sysdb w !! target).
Qed.

Lemma run_ops_sound (ops : list op) : ∀ w,
  registry_sound w →
  registry_sound (run_ops ops w) ∧
  inotify_fd (run_ops ops w) = inotify_fd w ∧
  sysdb (run_ops ops w) = sysdb w.
Proof.
  induction ops as [|o ops IH]; intros w Hs; [done|].
  unfold run_ops. cbn. fold (run_ops ops (run_op w o)).
  assert (Hstep : registry_sound (run_op w o) ∧
                  inotify_fd (run_op w o) = inotify_fd w ∧
                  sysdb (run_op w o) = sysdb w).
  { destruct o as [d|d|h]; cbn.
    - split; [by apply udev_watch_begin_sound|].
      split; apply udev_watch_begin_stable.
    - split; [by apply udev_watch_end_sound|].
      split; apply udev_watch_end_stable.
    - split; [by apply udev_watch_lookup_sound_kept|].
      split; apply udev_watch_lookup_world. }
  destruct Hstep as (Hs' & Hfd & Hdb).
  destruct (IH _ Hs') as (? & Hfd' & Hdb').
  split; [done|]. by rewrite Hfd', Hdb'.
Qed.

(** X13: [begin], [end] and [lookup], in any order and on any devices,
    keep a sound registry sound; on it a lookup never fails to read an
    entry: it finds no entry and returns 0 without a device, or it finds
    the link of a descriptor that the channel watches and returns what
    the device database answers for the target of the link. *)
Theorem lifecycle_keeps_registry_sound (ops : list op) (w : World) (wd : Z) :
  registry_sound w → 0 ≤ inotify_fd w → 0 ≤ wd →
  let w' := run_ops ops w in
  registry_sound w' ∧
  ((registry_entry w' wd = None ∧ (udev_watch_lookup wd w').1 = (0, None)) ∨
   (∃ wd' target, wd = Z.pos wd' ∧ watched w' wd' ∧
      registry_entry w' wd = Some (Symlink target) ∧
      (udev_watch_lookup wd w').1 = resolve w target)).
Proof.
  intros Hs Hfd Hwd. cbv zeta.
  destruct (run_ops_sound ops w Hs) as (Hs' & Hfd' & Hdb').
  split; [done|].
  assert (Hfd2 : 0 ≤ inotify_fd (run_ops ops w)) by (by rewrite Hfd').
  destruct (registry_entry (run_ops ops w) wd) as [e|] eqn:Hent.
  - right. rewrite registry_entry_dir_entry in Hent.
    destruct Hs' as [_ Hall].
    destruct (Hall _ _ Hent) as (wd' & target & Hn & -> & Hv & Hw).
    apply watch_name_inj in Hn. subst wd.
    exists wd', target. repeat split; try done.
    rewrite (udev_watch_lookup_link _ _ target) by done.
    unfold resolve. by rewrite Hdb'.
  - left. split; [done|].
    rewrite (udev_watch_lookup_run _ wd Hfd2 Hwd). cbv zeta.
    unfold registry_entry in Hent. destruct Hs' as [Hdir _].
    destruct (fs (run_ops ops w) !! watch_dir) as [[es|]|]; [|done|done].
    by rewrite Hent.
Qed.

Lemma lifecycle_keeps_registry_sound_witness :
  let ops := [OpBegin sda; OpBegin sdb; OpLookup 1; OpEnd orphan] in
  registry_sound ready ∧ 0 ≤ inotify_fd ready ∧ 0 ≤ 2 ∧
  registry_sound (run_ops ops ready) ∧
  (udev_watch_lookup 2 (run_ops ops ready)).1 = (0, Some sdb).
Proof.
  cbv zeta.
  assert (H1 : registry_sound ready).
  { split; [vm_compute; discriminate|].
    intros name e H. vm_compute in H. discriminate H. }
  assert (H2 : 0 ≤ inotify_fd ready) by (by vm_compute).
  assert (H3 : 0 ≤ 2) by lia.
  split; [exact H1|]. split; [exact H2|]. split; [exact H3|].
  split.
  - exact (proj1 (lifecycle_keeps_registry_sound
                    [OpBegin sda; OpBegin sdb; OpLookup 1; OpEnd orphan]
                    ready 2 H1 H2 H3)).
  - vm_compute. reflexivity.
Defined.

(** ** The loop of [udev_watch_restore], step by step *)

(** The part of the loop body before the label [unlink]: it leaves the
    world as it was, or as a [begin] leaves it, and it is the [begin] of
    the device the link resolves to when it does resolve. *)
Lemma restore_entry_rearm_shape (name : string) (w : World) :
  let W1 := (restore_entry_rearm name w).2 in
  (same_state w W1 ∨
   ∃ target dev W0, sysdb w !! target = Some dev ∧ same_state w W0 ∧
                    W1 = (udev_watch_begin dev W0).2) ∧
  (∀ target dev,
     dir_entry (fs w) watch_old name = Some (Symlink target) →
     0 < Z.of_nat (String.length target) < PATH_MAX →
     sysdb w !! target = Some dev →
     ∃ W0, same_state w W0 ∧ W1 = (udev_watch_begin dev W0).2).
Proof.
  cbv zeta. unfold restore_entry_rearm. rewrite bind_run.
  unfold readlinkat, lookup_entry, dir_entry, same_state. cbn.
  destruct (fs w !! watch_old) as [[es|]|];
    [|rewrite ?bind_run; cbn; split; [by left|done]..].
  destruct (es !! name) as [[target| |]|];
    [|rewrite ?bind_run; cbn; split; [by left|done]..].
  cbn.
  destruct (Z.of_nat (String.length target) `min` PATH_MAX <=? 0) eqn:Hz.
  { rewrite ?bind_run. cbn. split; [by left|]. intros t dev [= <-] Hlen _.
    apply Z.leb_le in Hz. lia. }
  destruct (PATH_MAX <=? Z.of_nat (String.length target) `min` PATH_MAX) eqn:Hp.
  { cbn. split; [by left|]. intros t dev [= <-] Hlen _.
    apply Z.leb_le in Hp. lia. }
  apply Z.leb_gt in Hz, Hp.
  rewrite Z.min_l by lia. rewrite Nat2Z.id, substring_all.
  rewrite bind_run. unfold sd_device_new_from_device_id. cbn.
  destruct (sysdb w !! target) as [dev|] eqn:Hdev.
  2: { rewrite ?bind_run. cbn. split; [by left|].
       intros t dev [= <-] _ ?. congruence. }
  rewrite !bind_run. cbn.
  match goal with |- context [udev_watch_begin dev ?v] => set (W0 := v) end.
  assert (HW0 : same_state w W0).
  { subst W0. unfold same_state. destruct (debug_logging w) eqn:Hdbg.
    - destruct (log_debug_world "Restoring old watch on '%s'"
                  [strnull (devname dev)]
                  (record_call (SysReadlinkat watch_old name PATH_MAX) w))
        as [j0 ->]. done.
    - done. }
  split.
  - right. by exists target, dev, W0.
  - intros t d [= <-] _ Hd. exists W0. split; [done|]. congruence.
Qed.

Lemma restore_entry_unlink (name : string) (w : World) :
  dot_name name = false →
  (restore_entry name w).2
  = (unlinkat watch_old name (restore_entry_rearm name w).2).2.
Proof.
  intros Hdot. unfold restore_entry. rewrite Hdot. by rewrite !bind_run.
Qed.

(** What every pass of the loop body keeps, the loop keeps. *)
Lemma restore_entry_keeps (P : World → Prop) (name : string) (w : World) :
  (∀ v v', same_state v v' → P v → P v') →
  (∀ v target dev, sysdb v !! target = Some dev → P v →
                   P (udev_watch_begin dev v).2) →
  (∀ v n, P v → P (unlinkat watch_old n v).2) →
  P w → P (restore_entry name w).2.
Proof.
  intros Hsame Hbegin Hunlink HP.
  destruct (dot_name name) eqn:Hdot.
  { unfold restore_entry. by rewrite Hdot. }
  rewrite (restore_entry_unlink name w Hdot). apply Hunlink.
  destruct (restore_entry_rearm_shape name w)
    as [[Hs|(target & dev & W0 & Hdev & Hs & ->)] _].
  - by apply (Hsame w).
  - apply (Hbegin W0 target); [|by apply (Hsame w)].
    destruct Hs as (_ & _ & _ & _ & _ & -> & _). done.
Qed.

Lemma restore_loop_keeps (P : World → Prop) (names : list string) :
  (∀ v v', same_state v v' → P v → P v') →
  (∀ v target dev, sysdb v !! target = Some dev → P v →
                   P (udev_watch_begin dev v).2) →
  (∀ v n, P v → P (unlinkat watch_old n v).2) →
  ∀ w, P w → P (foreach_dirent_all restore_entry names w).2.
Proof.
  intros Hsame Hbegin Hunlink.
  induction names as [|n names IH]; intros w HP.
  { cbn. by apply (Hsame w). }
  cbn [foreach_dirent_all]. rewrite !bind_run. cbn [modify fst snd].
  apply IH. apply restore_entry_keeps; try done. by apply (Hsame w).
Qed.

(** ** [udev_watch_restore]: when it succeeds *)

(** The outcome of [udev_watch_restore], by what is at the path of the
    registry and at the path of the old one. *)
Lemma udev_watch_restore_table (w : World) :
  0 ≤ inotify_fd w →
  let w1 := record_call (SysRename watch_dir watch_old) w in
  let fail e := (- e, record_log (move_failed e) (set_errno e w1)) in
  let nodir :=
    (- ENOTDIR,
     record_log (open_failed ENOTDIR)
       (set_errno ENOTDIR
          (record_call (SysOpendir watch_old)
             (set_fs (<[watch_old := NotDir]> (delete watch_dir (fs w))) w1))))
  in
  match fs w !! watch_dir, fs w !! watch_old with
  | None, _ => udev_watch_restore w = (0, set_errno ENOENT w1)
  | Some NotDir, None | Some NotDir, Some NotDir => udev_watch_restore w = nodir
  | Some NotDir, Some (Dir _) => udev_watch_restore w = fail EISDIR
  | Some (Dir _), Some NotDir => udev_watch_restore w = fail ENOTDIR
  | Some (Dir _), Some (Dir old) =>
      if decide (old = ∅) then (udev_watch_restore w).1 = 0
      else udev_watch_restore w = fail ENOTEMPTY
  | Some (Dir _), None => (udev_watch_restore w).1 = 0
  end.
Proof.
  intros Hfd. cbv zeta.
  destruct (fs w !! watch_dir) as [[es|]|] eqn:Hd.
  - assert (Hok : old_slot_free w → (udev_watch_restore w).1 = 0).
    { intros Hfree.
      by destruct (udev_watch_restore_run w es Hfd Hd Hfree) as [_ ->]. }
    destruct (fs w !! watch_old) as [[old|]|] eqn:Ho.
    + destruct (decide (old = ∅)) as [->|Hne]; [apply Hok; by right|].
      unfold udev_watch_restore, rename. unfold_monad. cbn.
      rewrite Zltb_ge, Hd, Ho by done.
      rewrite (decide_False (P := watch_dir = watch_old)) by discriminate.
      by rewrite decide_False.
    + unfold udev_watch_restore, rename. unfold_monad. cbn.
      rewrite Zltb_ge, Hd, Ho by done.
      by rewrite (decide_False (P := watch_dir = watch_old)) by discriminate.
    + apply Hok. by left.
  - assert (Hmoved : fs w !! watch_old = None ∨ fs w !! watch_old = Some NotDir →
      udev_watch_restore w =
        (- ENOTDIR,
         record_log (open_failed ENOTDIR)
           (set_errno ENOTDIR
              (record_call (SysOpendir watch_old)
                 (set_fs (<[watch_old := NotDir]> (delete watch_dir (fs w)))
                    (record_call (SysRename watch_dir watch_old) w)))))).
    { intros Ho. unfold udev_watch_restore. rewrite bind_run.
      unfold gets at 1. cbn. rewrite Zltb_ge by done. rewrite bind_run.
      assert (Hren : rename watch_dir watch_old w =
                (0, set_fs (<[watch_old := NotDir]> (delete watch_dir (fs w)))
                      (record_call (SysRename watch_dir watch_old) w))).
      { unfold rename. cbn. rewrite Hd.
        rewrite (decide_False (P := watch_dir = watch_old)) by discriminate.
        by destruct Ho as [-> | ->]. }
      rewrite Hren. cbn. rewrite bind_run.
      unfold opendir. cbn. rewrite lookup_insert_eq. cbn.
      by rewrite bind_run. }
    destruct (fs w !! watch_old) as [[old|]|] eqn:Ho.
    + unfold udev_watch_restore, rename. unfold_monad. cbn.
      rewrite Zltb_ge, Hd, Ho by done.
      by rewrite (decide_False (P := watch_dir = watch_old)) by discriminate.
    + apply Hmoved. by right.
    + apply Hmoved. by left.
  - unfold udev_watch_restore, rename. unfold_monad. cbn.
    by rewrite Zltb_ge, Hd by done.
Qed.

(** X14: restore returns 0 exactly when there is no registry to restore,
    or the registry is a directory and nothing but an empty directory is
    in the way at the old path; it never returns a positive value.  A
    plain file at the registry path, or a file or a non-empty directory
    at the old path, makes it fail. *)
Theorem udev_watch_restore_criterion (w : World) :
  0 ≤ inotify_fd w →
  let r := udev_watch_restore w in
  r.1 ≤ 0 ∧
  (r.1 = 0 ↔
   fs w !! watch_dir = None ∨
   ((∃ es, fs w !! watch_dir = Some (Dir es)) ∧ old_slot_free w)).
Proof.
  intros Hfd. cbv zeta. unfold old_slot_free.
  pose proof (udev_watch_restore_table w Hfd) as Ht. cbv zeta in Ht.
  destruct (fs w !! watch_dir) as [[es|]|];
    destruct (fs w !! watch_old) as [[old|]|];
    try destruct (decide (old = ∅)) as [->|Hne];
    rewrite Ht; cbn; (split; [done|]); split; try done;
    try (intros _; by left); try (intros _; right; eauto; fail);
    try (intros [?|[_ [?|?]]]; done);
    try (intros [?|[[? ?] [?|?]]]; done).
  - intros [?|[_ [?|[= ?]]]]; done.
Qed.

Lemma udev_watch_restore_criterion_witness :
  0 ≤ inotify_fd misplaced ∧ 0 ≤ inotify_fd tidy ∧
  (udev_watch_restore misplaced).1 ≠ 0 ∧ (udev_watch_restore tidy).1 = 0.
Proof.
  assert (H1 : 0 ≤ inotify_fd misplaced) by (by vm_compute).
  assert (H2 : 0 ≤ inotify_fd tidy) by (by vm_compute).
  split; [exact H1|]. split; [exact H2|]. split.
  - intros Hz.
    apply (proj1 (proj2 (udev_watch_restore_criterion misplaced H1))) in Hz.
    destruct Hz as [Hz|[[es Hz] _]]; vm_compute in Hz; discriminate Hz.
  - apply (proj2 (proj2 (udev_watch_restore_criterion tidy H2))).
    right. split; [exists tidy_entries|left]; vm_compute; reflexivity.
Defined.

(** X15: something left at the old path blocks restore for good.  With a
    registry in place and a file or a non-empty directory at the old
    path, restore fails at [rename], which is the only call it issues;
    nothing changes in the kernel or on disk, so neither are old watches
    re-armed nor is the registry cleaned, and every further restore
    fails in the same way. *)
Theorem udev_watch_restore_blocked (w : World) (es : gmap string inode)
    (n : node) :
  0 ≤ inotify_fd w → fs w !! watch_dir = Some (Dir es) →
  fs w !! watch_old = Some n → n ≠ Dir ∅ →
  let r := udev_watch_restore w in
  (r.1 = - ENOTEMPTY ∨ r.1 = - ENOTDIR) ∧
  same_state w r.2 ∧
  calls r.2 = calls w ++ [SysRename watch_dir watch_old] ∧
  (∃ e, journal r.2 = journal w ++ [move_failed e] ∧ r.1 = - e) ∧
  (udev_watch_restore r.2).1 = r.1.
Proof.
  intros Hfd Hd Ho Hne. cbv zeta.
  assert (Hone : ∀ v, 0 ≤ inotify_fd v → fs v !! watch_dir = Some (Dir es) →
            fs v !! watch_old = Some n →
            ∃ e, (e = ENOTEMPTY ∨ e = ENOTDIR) ∧
              (n = NotDir → e = ENOTDIR) ∧
              ((∃ old, n = Dir old) → e = ENOTEMPTY) ∧
              udev_watch_restore v =
                (- e, record_log (move_failed e)
                        (set_errno e
                           (record_call (SysRename watch_dir watch_old) v)))).
  { intros v Hv1 Hv2 Hv3.
    pose proof (udev_watch_restore_table v Hv1) as Ht. cbv zeta in Ht.
    rewrite Hv2, Hv3 in Ht. destruct n as [old|].
    - rewrite decide_False in Ht by congruence.
      exists ENOTEMPTY. split; [by left|]. split; [done|]. done.
    - exists ENOTDIR. split; [by right|]. split; [done|].
      split; [by intros [? ?]|done]. }
  destruct (Hone w Hfd Hd Ho) as (e & He & Hn1 & Hn2 & ->). cbn.
  split; [destruct He as [-> | ->]; [by left|by right]|].
  split; [done|]. split; [done|]. split; [by exists e|].
  match goal with |- (udev_watch_restore ?v).1 = _ =>
    destruct (Hone v Hfd Hd Ho) as (e' & _ & Hn1' & Hn2' & ->)
  end.
  cbn. destruct n as [old|].
  - rewrite Hn2, Hn2' by eauto. done.
  - rewrite Hn1, Hn1' by done. done.
Qed.

Lemma udev_watch_restore_blocked_witness :
  0 ≤ inotify_fd occupied ∧
  fs occupied !! watch_dir = Some (Dir tidy_entries) ∧
  fs occupied !! watch_old = Some (Dir {[ "9" := Regular ]}) ∧
  (udev_watch_restore occupied).1 = - ENOTEMPTY ∧
  fs (udev_watch_restore occupied).2 = fs occupied.
Proof.
  assert (H1 : 0 ≤ inotify_fd occupied) by (by vm_compute).
  assert (H2 : fs occupied !! watch_dir = Some (Dir tidy_entries))
    by (vm_compute; reflexivity).
  assert (H3 : fs occupied !! watch_old = Some (Dir {[ "9" := Regular ]}))
    by (vm_compute; reflexivity).
  assert (H4 : Dir {[ "9" := Regular ]} ≠ Dir ∅) by (by intros [=]).
  split; [exact H1|]. split; [exact H2|]. split; [exact H3|].
  destruct (udev_watch_restore_blocked occupied tidy_entries _ H1 H2 H3 H4)
    as (Hr & Hs & _).
  split; [|apply Hs].
  destruct Hr as [Hr|Hr]; [exact Hr|].
  exfalso. vm_compute in Hr. discriminate Hr.
Defined.

(** ** What [udev_watch_restore] builds *)

(** X16: wherever restore can relocate the registry, the live registry it
    leaves is sound, whatever the old one held: it holds only links made
    by [begin] during this restore, each under the descriptor of a watch
    of the channel. *)
Theorem udev_watch_restore_rebuilds (w : World) (es : gmap string inode) :
  0 ≤ inotify_fd w → fs w !! watch_dir = Some (Dir es) → old_slot_free w →
  registry_sound (udev_watch_restore w).2.
Proof.
  intros Hfd Hdir Hfree.
  destruct (udev_watch_restore_run w es Hfd Hdir Hfree) as [_ ->].
  cbn [snd]. apply rmdir_old_sound.
  apply (registry_sound_same
           (foreach_dirent_all restore_entry (map_to_list es).*1
              (record_call (SysOpendir watch_old)
                 (set_fs (<[watch_old:=Dir es]> (delete watch_dir (fs w)))
                    (record_call (SysRename watch_dir watch_old) w)))).2);
    [done|].
  apply (restore_loop_keeps registry_sound).
  - apply registry_sound_same.
  - intros v _ dev _. apply udev_watch_begin_sound.
  - intros v n. apply unlinkat_old_sound.
  - split; cbn.
    + rewrite lookup_insert_ne by apply watch_old_not_watch_dir.
      by rewrite lookup_delete_eq.
    + intros name e. unfold dir_entry. cbn.
      rewrite lookup_insert_ne by apply watch_old_not_watch_dir.
      by rewrite lookup_delete_eq.
Qed.

Lemma udev_watch_restore_rebuilds_witness :
  0 ≤ inotify_fd stale ∧ fs stale !! watch_dir = Some (Dir stale_entries) ∧
  old_slot_free stale ∧ registry_sound (udev_watch_restore stale).2.
Proof.
  assert (H1 : 0 ≤ inotify_fd stale) by (by vm_compute).
  assert (H2 : fs stale !! watch_dir = Some (Dir stale_entries))
    by (vm_compute; reflexivity).
  assert (H3 : old_slot_free stale) by (left; vm_compute; reflexivity).
  split; [exact H1|]. split; [exact H2|]. split; [exact H3|].
  exact (udev_watch_restore_rebuilds stale stale_entries H1 H2 H3).
Defined.

(** ** Restore re-arms the watches *)

Lemma rearm_ready_same fd nodes db v v' :
  same_state v v' → rearm_ready fd nodes db v → rearm_ready fd nodes db v'.
Proof.
  intros Hsame (H1 & H2 & H3 & H4 & H5).
  pose proof Hsame as (S1 & S2 & _ & S4 & _ & S6 & _).
  unfold rearm_ready. rewrite S1, S2, S4, S6.
  split; [done|]. split; [done|]. split; [done|].
  split; [by rewrite H1 in *|]. by apply (registry_sound_same v).
Qed.

Lemma rearm_ready_begin fd nodes db dev v :
  rearm_ready fd nodes db v →
  rearm_ready fd nodes db (udev_watch_begin dev v).2.
Proof.
  intros Hr.
  destruct (udev_watch_begin_cases dev v)
    as [Hun|(node & ino & i & Hfd & Hi & Hn & Hin)].
  { destruct (udev_watch_begin_unarmed dev v Hun) as (_ & _ & Hsame).
    by apply (rearm_ready_same _ _ _ v). }
  destruct Hr as (H1 & H2 & H3 & H4 & H5).
  destruct (udev_watch_begin_armed dev node ino i v Hfd Hi Hn Hin)
    as (_ & A1 & A2 & A3 & A4 & _).
  unfold rearm_ready. rewrite A1, A2, A3, A4.
  split; [done|]. split; [done|]. split; [done|].
  split; [rewrite <- H1; by rewrite lookup_insert_eq|].
  by apply udev_watch_begin_sound.
Qed.

Lemma rearm_ready_unlink fd nodes db n v :
  rearm_ready fd nodes db v →
  rearm_ready fd nodes db (unlinkat watch_old n v).2.
Proof.
  intros (H1 & H2 & H3 & H4 & H5).
  pose proof (unlinkat_old_sound n v H5) as Hs.
  destruct (unlinkat_world watch_old n v) as [e Hw]. rewrite Hw in *.
  done.
Qed.

Lemma tracked_unlink_old wd node id n v :
  tracked wd node id v → tracked wd node id (unlinkat watch_old n v).2.
Proof.
  destruct (unlinkat_world watch_old n v) as [e ->].
  unfold tracked, registry_entry. cbn.
  rewrite unlink_fs_other; [done|]. intros Heq.
  by apply watch_old_not_watch_dir.
Qed.

(** A [begin] on a sound registry, for a device with an existing node
    and a usable identifier, tracks the watch. *)
Lemma udev_watch_begin_tracks dev node ino id i w :
  0 ≤ inotify_fd w → fdtable w !! Z.to_N (inotify_fd w) = Some i →
  devname dev = Some node → devnodes w !! node = Some ino →
  id_filename dev = Some id → valid_id id →
  fs w !! watch_dir ≠ Some NotDir →
  registry_entry w (Z.pos (watch_for ino i)) ≠ Some Subdir →
  (udev_watch_begin dev w).1.1 = 0 ∧
  tracked (watch_for ino i) ino id (udev_watch_begin dev w).2.
Proof.
  intros Hfd Hi Hn Hin Hid Hv Hdir Hsub.
  destruct (udev_watch_begin_armed dev node ino i w Hfd Hi Hn Hin)
    as (_ & A1 & _ & _ & A4 & A5 & _ & A7).
  set (wd := watch_for ino i) in *.
  split; [apply A7; eauto|].
  unfold tracked. rewrite A1, A4, lookup_insert_eq.
  split; [done|]. split.
  { eexists _, _. split; [done|]. cbn. by rewrite lookup_insert_eq. }
  split; [|exact Hv].
  rewrite registry_entry_dir_entry, A5, begin_fs_entry.
  rewrite registry_entry_dir_entry in Hsub. rewrite Hid.
  destruct Hv as [Hne Hlen].
  destruct (dir_entry (fs w) watch_dir (watch_name (Z.pos wd))) as [[]|];
    try done;
    destruct (fs w !! watch_dir) as [[]|]; try done;
    rewrite decide_False by done;
    by rewrite (proj2 (Z.leb_gt _ _)).
Qed.

Lemma registry_sound_no_subdir w wd :
  registry_sound w → registry_entry w wd ≠ Some Subdir.
Proof.
  intros [_ Hall] Hent. rewrite registry_entry_dir_entry in Hent.
  by destruct (Hall _ _ Hent) as (? & ? & _ & ? & _).
Qed.

(** The loop re-arms the watch of an entry of the stream that resolves
    to a device with an existing node and a usable identifier, and
    keeps it tracked to the end. *)
Lemma restore_loop_rearms (name target node id : string) (ino : positive)
    (dev : sd_device) (fd : Z) (nodes : gmap string positive)
    (db : gmap string sd_device) (names : list string) :
  0 ≤ fd → consistent_db nodes db → dot_name name = false →
  0 < Z.of_nat (String.length target) < PATH_MAX →
  db !! target = Some dev → devname dev = Some node →
  nodes !! node = Some ino →
  id_filename dev = Some id → valid_id id →
  ∀ w es, NoDup names → name ∈ names →
    old_registry w = Some es → es !! name = Some (Symlink target) →
    rearm_ready fd nodes db w →
    let w' := (foreach_dirent_all restore_entry names w).2 in
    inotify_fd w' = fd ∧ sysdb w' = db ∧ devnodes w' = nodes ∧
    ∃ wd, tracked wd ino id w'.
Proof.
  intros Hfd Hcons Hdot Hlen Hdev Hn Hin Hid Hv.
  assert (Hino : inode_of nodes dev = Some ino).
  { unfold inode_of. by rewrite Hn. }
  set (P := λ v : World, inotify_fd v = fd ∧ sysdb v = db ∧
                         devnodes v = nodes ∧ ∃ wd, tracked wd ino id v).
  assert (Psame : ∀ v v', same_state v v' → P v → P v').
  { intros v v' (S1 & S2 & _ & S4 & S5 & S6 & _) (P1 & P2 & P3 & wd & Ptr).
    split; [by rewrite S1|]. split; [by rewrite S6|].
    split; [by rewrite S4|]. exists wd.
    by apply (tracked_ext _ _ _ v). }
  assert (Pbegin : ∀ v t d, sysdb v !! t = Some d → P v →
                            P (udev_watch_begin d v).2).
  { intros v t d Hd (P1 & P2 & P3 & wd & Ptr).
    destruct (udev_watch_begin_stable d v) as [B1 B2].
    split; [by rewrite B2|]. split; [by rewrite B1|].
    split; [etrans; [exact (run_op_devnodes (OpBegin d) v)|done]|].
    exists wd.
    apply udev_watch_begin_tracked; [|done]. rewrite P3.
    destruct (decide (inode_of nodes d = Some ino)) as [Hsame|Hdiff];
      [|by left].
    right. rewrite <- Hid. rewrite P2 in Hd.
    exact (Hcons t target d dev ino Hd Hdev Hsame Hino). }
  assert (Punlink : ∀ v n, P v → P (unlinkat watch_old n v).2).
  { intros v n (P1 & P2 & P3 & wd & Ptr).
    pose proof (tracked_unlink_old wd ino id n v Ptr) as Htr.
    destruct (unlinkat_world watch_old n v) as [e Hw]. rewrite Hw in *.
    split; [done|]. split; [done|]. split; [done|]. by exists wd. }
  induction names as [|n0 names IH]; intros w es Hnd Hin' Hold Hent Hr;
    [by apply elem_of_nil in Hin'|].
  apply NoDup_cons in Hnd as [Hn0 Hnd]. cbv zeta.
  cbn [foreach_dirent_all]. rewrite !bind_run. cbn [modify fst snd].
  set (w0 := set_errno 0 w).
  assert (Hr0 : rearm_ready fd nodes db w0) by done.
  assert (Hold0 : old_registry w0 = Some es) by done.
  destruct (decide (n0 = name)) as [->|Hne].
  - (* this pass re-arms the watch *)
    apply (restore_loop_keeps P); try done.
    rewrite (restore_entry_unlink name w0 Hdot). apply Punlink.
    destruct (restore_entry_rearm_shape name w0) as [_ Hre].
    destruct (Hre target dev) as (W0 & Hsame & ->).
    { apply old_registry_Some in Hold0. unfold dir_entry.
      by rewrite Hold0. }
    { done. }
    { destruct Hr0 as (_ & _ & -> & _). done. }
    pose proof (rearm_ready_same _ _ _ _ _ Hsame Hr0)
      as (R1 & R2 & R3 & [i Hi] & R5).
    destruct (udev_watch_begin_stable dev W0) as [B1 B2].
    destruct (udev_watch_begin_tracks dev node ino id i W0) as [_ Htr];
      try done.
    + by rewrite R1.
    + by rewrite R1.
    + by rewrite R2.
    + apply R5.
    + by apply registry_sound_no_subdir.
    + split; [by rewrite B2|]. split; [by rewrite B1|].
      split; [etrans; [exact (run_op_devnodes (OpBegin dev) W0)|done]|].
      eauto.
  - (* another entry: the one to re-arm is still in the old registry *)
    assert (Hin2 : name ∈ names).
    { apply elem_of_cons in Hin' as [?|?]; [congruence|done]. }
    assert (Hr1 : rearm_ready fd nodes db (restore_entry n0 w0).2).
    { apply (restore_entry_keeps (rearm_ready fd nodes db)); try done.
      - apply rearm_ready_same.
      - intros v _ d _. apply rearm_ready_begin.
      - intros v n. apply rearm_ready_unlink. }
    destruct (dot_name n0) eqn:Hdot0.
    + assert (Heq : (restore_entry n0 w0).2 = w0).
      { unfold restore_entry. by rewrite Hdot0. }
      rewrite Heq in *. by apply (IH w0 es).
    + destruct (restore_entry_spec n0 w0 es Hold0 Hdot0)
        as (_ & _ & _ & Hold1 & _).
      apply (IH _ (sweep1 n0 es)); try done.
      rewrite sweep1_lookup. by rewrite decide_False by congruence.
Qed.

Lemma tracked_rmdir_old wd node id v :
  tracked wd node id v → tracked wd node id (rmdir watch_old v).2.
Proof.
  unfold tracked, registry_entry, rmdir. unfold_monad. cbn.
  destruct (fs v !! watch_old) as [[es|]|]; [|done|done].
  destruct (decide (es = ∅)); [|done]. cbn.
  rewrite lookup_delete_ne; [done|]. apply watch_old_not_watch_dir.
Qed.

(** X17: restore re-arms the watches it finds.  With the channel open
    and the registry relocatable, an entry of the old registry that is
    not skipped and that links to an identifier the device database
    resolves, to a device with an existing node and a usable identifier
    of its own, leaves a tracked watch behind: the kernel watches the
    inode of the node under some descriptor, the new registry links that
    descriptor to the identifier of the device, and a lookup of the
    descriptor answers as the device database does.  Devices of the
    database whose node names reach one inode, by one name or by
    several, are assumed to share the identifier: the kernel gives them
    one descriptor, and the link of the one begun last stands. *)
Theorem udev_watch_restore_rearms (w : World) (es : gmap string inode)
    (i : inotify) (name target node id : string) (ino : positive)
    (dev : sd_device) :
  0 ≤ inotify_fd w → fdtable w !! Z.to_N (inotify_fd w) = Some i →
  fs w !! watch_dir = Some (Dir es) → old_slot_free w →
  consistent_db (devnodes w) (sysdb w) →
  es !! name = Some (Symlink target) → dot_name name = false →
  0 < Z.of_nat (String.length target) < PATH_MAX →
  sysdb w !! target = Some dev →
  devname dev = Some node → devnodes w !! node = Some ino →
  id_filename dev = Some id → valid_id id →
  let w' := (udev_watch_restore w).2 in
  ∃ wd, tracked wd ino id w' ∧
        (udev_watch_lookup (Z.pos wd) w').1 = resolve w id.
Proof.
  intros Hfd Hi Hdir Hfree Hcons Hent Hdot Hlen Hdev Hn Hin Hid Hv. cbv zeta.
  destruct (udev_watch_restore_run w es Hfd Hdir Hfree) as [Hold ->].
  match type of Hold with old_registry ?v = _ => set (w2 := v) in * end.
  assert (Hr : rearm_ready (inotify_fd w) (devnodes w) (sysdb w) w2).
  { unfold rearm_ready. subst w2. cbn.
    split; [done|]. split; [done|]. split; [done|].
    split; [by rewrite Hi|]. split; cbn.
    - rewrite lookup_insert_ne by apply watch_old_not_watch_dir.
      by rewrite lookup_delete_eq.
    - intros n e. unfold dir_entry. cbn.
      rewrite lookup_insert_ne by apply watch_old_not_watch_dir.
      by rewrite lookup_delete_eq. }
  destruct (restore_loop_rearms name target node id ino dev (inotify_fd w)
              (devnodes w) (sysdb w) (map_to_list es).*1
              Hfd Hcons Hdot Hlen Hdev Hn Hin Hid Hv w2 es
              (NoDup_fst_map_to_list es)) as (L1 & L2 & _ & wd & Htr);
    [apply elem_of_keys; by eexists|done|done|done|].
  set (w3 := (foreach_dirent_all restore_entry (map_to_list es).*1 w2).2) in *.
  cbn [snd].
  assert (Htr' : tracked wd ino id (rmdir watch_old (closedir watch_old w3).2).2).
  { apply tracked_rmdir_old. by apply (tracked_ext _ _ _ w3). }
  exists wd. split; [done|].
  rewrite (udev_watch_lookup_tracked wd ino id _ Htr').
  unfold resolve.
  assert (Hdb : sysdb (rmdir watch_old (closedir watch_old w3).2).2 = sysdb w).
  { rewrite <- L2. unfold rmdir. unfold_monad. cbn. by repeat case_match. }
  by rewrite Hdb.
Qed.

Lemma boot_db_consistent : consistent_db (devnodes boot) (sysdb boot).
Proof.
  intros t1 t2 d1 d2 ino H1 H2.
  change (sysdb boot) with ({[ "b8:0" := sda; "b8:16" := sdb ]}
                             : gmap string sd_device) in *.
  apply lookup_insert_Some in H1 as [[_ <-]|[_ H1]];
    [|apply lookup_singleton_Some in H1 as [_ <-]];
    (apply lookup_insert_Some in H2 as [[_ <-]|[_ H2]];
     [|apply lookup_singleton_Some in H2 as [_ <-]]);
    intros I1 I2; vm_compute in I1, I2; congruence.
Qed.

Lemma udev_watch_restore_rearms_witness :
  0 ≤ inotify_fd tidy ∧
  fdtable tidy !! Z.to_N (inotify_fd tidy) = Some (Inotify true ∅ 1) ∧
  fs tidy !! watch_dir = Some (Dir tidy_entries) ∧ old_slot_free tidy ∧
  consistent_db (devnodes tidy) (sysdb tidy) ∧
  tidy_entries !! "1" = Some (Symlink "b8:0") ∧ dot_name "1" = false ∧
  0 < Z.of_nat (String.length "b8:0") < PATH_MAX ∧
  sysdb tidy !! "b8:0" = Some sda ∧
  devname sda = Some "/dev/sda" ∧ devnodes tidy !! "/dev/sda" = Some 1%positive ∧
  id_filename sda = Some "b8:0" ∧ valid_id "b8:0" ∧
  ∃ wd, tracked wd 1 "b8:0" (udev_watch_restore tidy).2 ∧
        (udev_watch_lookup (Z.pos wd) (udev_watch_restore tidy).2).1
        = resolve tidy "b8:0".
Proof.
  assert (H1 : 0 ≤ inotify_fd tidy) by (by vm_compute).
  assert (H2 : fdtable tidy !! Z.to_N (inotify_fd tidy)
               = Some (Inotify true ∅ 1)) by (vm_compute; reflexivity).
  assert (H3 : fs tidy !! watch_dir = Some (Dir tidy_entries))
    by (vm_compute; reflexivity).
  assert (H4 : old_slot_free tidy) by (left; vm_compute; reflexivity).
  assert (H5 : consistent_db (devnodes tidy) (sysdb tidy))
    by exact boot_db_consistent.
  assert (H6 : tidy_entries !! "1" = Some (Symlink "b8:0"))
    by (vm_compute; reflexivity).
  assert (H7 : dot_name "1" = false) by reflexivity.
  assert (H8 : 0 < Z.of_nat (String.length "b8:0") < PATH_MAX)
    by (by vm_compute).
  assert (H9 : sysdb tidy !! "b8:0" = Some sda) by (vm_compute; reflexivity).
  assert (H10 : devname sda = Some "/dev/sda") by reflexivity.
  assert (H11 : devnodes tidy !! "/dev/sda" = Some 1%positive)
    by (vm_compute; reflexivity).
  assert (H12 : id_filename sda = Some "b8:0") by reflexivity.
  assert (H13 : valid_id "b8:0") by (split; [discriminate|by vm_compute]).
  split; [exact H1|]. split; [exact H2|]. split; [exact H3|].
  split; [exact H4|]. split; [exact H5|]. split; [exact H6|].
  split; [exact H7|]. split; [exact H8|]. split; [exact H9|].
  split; [exact H10|]. split; [exact H11|]. split; [exact H12|].
  split; [exact H13|].
  exact (udev_watch_restore_rearms tidy tidy_entries (Inotify true ∅ 1)
           "1" "b8:0" "/dev/sda" "b8:0" 1 sda
           H1 H2 H3 H4 H5 H6 H7 H8 H9 H10 H11 H12 H13).
Defined.

(** ** No silent failure *)

Lemma reported_zero (w w' : World) : reported 0 w w'.
Proof. split; [done|]. intros ?. lia. Qed.

Lemma reported_error (e : Z) (format : string) (args : list string)
    (j : list log_entry) (w v : World) :
  journal v = journal w ++ j →
  reported (- Z.abs e) w (record_log (LogEntry LOG_ERR e format args) v).
Proof.
  intros Hj. split; [lia|]. intros _. exists j, (LogEntry LOG_ERR e format args).
  cbn. rewrite Hj. by rewrite <- app_assoc.
Qed.

Lemma udev_watch_begin_reported (dev : sd_device) (w : World) :
  reported (udev_watch_begin dev w).1.1 w (udev_watch_begin dev w).2.
Proof.
  destruct (Z.lt_ge_cases (inotify_fd w) 0) as [Hneg|Hfd].
  { unfold udev_watch_begin. unfold_monad. rewrite Zltb_lt by done. cbn.
    apply (reported_error EINVAL _ _ []). by rewrite app_nil_r. }
  destruct (devname dev) as [node|] eqn:Hnode.
  2: { unfold udev_watch_begin, sd_device_get_devname. unfold_monad.
       rewrite Zltb_ge, Hnode by done. cbn.
       apply (reported_error (- ENOENT) _ _ []). by rewrite app_nil_r. }
  rewrite (udev_watch_begin_run dev node w Hfd Hnode). cbv zeta.
  destruct (log_debug_world "Adding watch on '%s'" [node] w) as [j ->].
  match goal with |- context [inotify_add_watch ?fd ?p ?k ?v] =>
    destruct (inotify_add_watch_world fd p k v) as (e1 & t1 & Hw1 & _);
    set (a := inotify_add_watch fd p k v) in *
  end.
  rewrite mkdir_parents_world.
  match goal with |- context [unlinkat ?d ?n ?v] =>
    destruct (unlinkat_world d n v) as (e3 & ->)
  end.
  unfold begin_error.
  destruct (a.1 <? 0).
  { cbn. apply (reported_error _ _ _ j). by rewrite Hw1. }
  destruct ((mkdir_parents watch_dir 493 a.2).1 <? 0).
  { cbn. apply (reported_error _ _ _ j). by rewrite Hw1. }
  destruct (id_filename dev) as [id|].
  2: { cbn. apply (reported_error _ _ _ j). by rewrite Hw1. }
  match goal with |- context [symlink ?t ?d ?n ?v] =>
    destruct (symlink_world t d n v) as (e4 & ->)
  end.
  match goal with |- context [if ?c then _ else _] => destruct c end; cbn.
  - apply (reported_error _ _ _ j). by rewrite Hw1.
  - apply reported_zero.
Qed.

Lemma udev_watch_end_reported (dev : sd_device) (w : World) :
  reported (udev_watch_end dev w).1.1 w (udev_watch_end dev w).2.
Proof.
  destruct (Z.lt_ge_cases (inotify_fd w) 0) as [Hneg|Hfd].
  { unfold udev_watch_end. unfold_monad. rewrite Zltb_lt by done. cbn.
    apply (reported_error EINVAL _ _ []). by rewrite app_nil_r. }
  destruct (db_failure dev) eqn:Hdb.
  { unfold udev_watch_end, device_get_watch_handle. unfold_monad.
    rewrite Zltb_ge, Hdb by done. cbn.
    apply (reported_error (- EIO) _ _ []). by rewrite app_nil_r. }
  destruct (Z.lt_ge_cases (watch_handle dev) 0) as [Hh|Hh].
  { unfold udev_watch_end, device_get_watch_handle. unfold_monad.
    rewrite Zltb_ge, Hdb, Zltb_lt by done. cbn. apply reported_zero. }
  destruct (devname dev) as [node|] eqn:Hn.
  - rewrite (udev_watch_end_run dev node w Hfd Hdb Hh Hn). cbn.
    apply reported_zero.
  - unfold udev_watch_end, device_get_watch_handle, sd_device_get_devname.
    unfold_monad. rewrite Zltb_ge, Hdb, Zltb_ge, Hn by done. cbn.
    apply (reported_error (- ENOENT) _ _ []). by rewrite app_nil_r.
Qed.

Lemma udev_watch_lookup_reported (wd : Z) (w : World) :
  reported (udev_watch_lookup wd w).1.1 w (udev_watch_lookup wd w).2.
Proof.
  destruct (Z.lt_ge_cases (inotify_fd w) 0) as [Hneg|Hfd].
  { unfold udev_watch_lookup. unfold_monad. rewrite Zltb_lt by done. cbn.
    apply (reported_error EINVAL _ _ []). by rewrite app_nil_r. }
  destruct (Z.lt_ge_cases wd 0) as [Hwd|Hwd].
  { unfold udev_watch_lookup. unfold_monad.
    rewrite Zltb_ge, Zltb_lt by done. cbn.
    apply (reported_error EINVAL _ _ []). by rewrite app_nil_r. }
  rewrite (udev_watch_lookup_run w wd Hfd Hwd). cbv zeta.
  repeat case_match; cbn; try apply reported_zero.
  - apply (reported_error _ _ _ []). by rewrite app_nil_r.
  - apply (reported_error ENAMETOOLONG _ _ []). by rewrite app_nil_r.
  - apply (reported_error (- ENODEV) _ _ []). by rewrite app_nil_r.
  - apply (reported_error EINVAL _ _ []). by rewrite app_nil_r.
  - apply (reported_error EINVAL _ _ []). by rewrite app_nil_r.
  - apply (reported_error ENOTDIR _ _ []). by rewrite app_nil_r.
Qed.

Lemma udev_watch_restore_reported (w : World) :
  reported (udev_watch_restore w).1 w (udev_watch_restore w).2.
Proof.
  destruct (Z.lt_ge_cases (inotify_fd w) 0) as [Hneg|Hfd].
  { unfold udev_watch_restore. unfold_monad. rewrite Zltb_lt by done. cbn.
    apply (reported_error EINVAL _ _ []). by rewrite app_nil_r. }
  pose proof (udev_watch_restore_table w Hfd) as Ht. cbv zeta in Ht.
  destruct (fs w !! watch_dir) as [[es|]|];
    destruct (fs w !! watch_old) as [[old|]|];
    try destruct (decide (old = ∅)) as [->|Hne];
    rewrite Ht; cbn; try apply reported_zero;
    first [ apply (reported_error ENOTEMPTY _ _ [])
          | apply (reported_error ENOTDIR _ _ [])
          | apply (reported_error EISDIR _ _ []) ];
    by rewrite app_nil_r.
Qed.

(** X18: no function of the file fails silently.  [restore], [begin],
    [end] and [lookup] never return a positive value, and whenever one
    of them, or [init], returns a negative value, the last message it
    handed to the log is an error message that carries the error code
    whose negation is returned. *)
Theorem failures_are_logged (w : World) (dev : sd_device) (wd : Z) :
  ((udev_watch_init w).1 < 0 →
   reported (udev_watch_init w).1 w (udev_watch_init w).2) ∧
  reported (udev_watch_restore w).1 w (udev_watch_restore w).2 ∧
  reported (udev_watch_begin dev w).1.1 w (udev_watch_begin dev w).2 ∧
  reported (udev_watch_end dev w).1.1 w (udev_watch_end dev w).2 ∧
  reported (udev_watch_lookup wd w).1.1 w (udev_watch_lookup wd w).2.
Proof.
  split; [|split; [apply udev_watch_restore_reported|
           split; [apply udev_watch_begin_reported|
           split; [apply udev_watch_end_reported|
                   apply udev_watch_lookup_reported]]]].
  rewrite udev_watch_init_run. cbv zeta.
  destruct (fd_limit w <=? fresh (dom (fdtable w)))%N; cbn; [|lia].
  intros _. apply (reported_error EMFILE _ _ []). by rewrite app_nil_r.
Qed.
